(** * Flight-data cleaning scripts: a shallow embedding

    The development follows the two cleaning scripts of the repository,
    [scripts/clean_dataset.py] and [scripts/clean_airports_dates.py].

    A table is a list of records, a record a finite map from column name to
    cell.  The text of a cell is modelled by [string], with [str.isspace]
    and [str.upper] given on the ASCII range (airport codes and the
    ARRIVAL/DEPARTURE labels are ASCII).  [str.strip] and [str.upper] are
    also given on all of Unicode, on lists of code points, and the two are
    shown to agree on ASCII text.  Calls into pandas are modelled by
    what they compute element by element (object columns, pandas 2);
    failures that depend on the dtype of a whole column are not modelled.
    The timestamp parsers behind [pd.to_datetime] are parameters of the code
    that calls them; the ISO-8601 attempt is also given concretely on text.
    Console narration is kept only where it decides what a run does. *)

From Stdlib Require Import ZArith Ascii String List Lia Bool.
From stdpp Require Import base decidable option list gmap strings pretty.

Local Open Scope string_scope.

(** ** Python text *)

(** [str.isspace] on one ASCII character: TAB, LF, VT, FF, CR, the four
    separators FS, GS, RS, US, and the space. *)
Definition py_isspace (c : ascii) : bool :=
  match c with
  | "009" | "010" | "011" | "012" | "013"
  | "028" | "029" | "030" | "031" | " " => true
  | _ => false
  end%char.

(** [str.islower] on one ASCII character. *)
Definition py_islower (c : ascii) : bool :=
  ((97 <=? N_of_ascii c) && (N_of_ascii c <=? 122))%N.

(** [str.upper] on one ASCII character: the letters a-z move down by 32. *)
Definition upper_char (c : ascii) : ascii :=
  if py_islower c then ascii_of_N (N_of_ascii c - 32) else c.

(** [s.upper()] *)
Fixpoint py_upper (s : string) : string :=
  match s with
  | EmptyString => EmptyString
  | String c s' => String (upper_char c) (py_upper s')
  end.

(** [s.lstrip()]: drop the leading run of whitespace. *)
Fixpoint py_lstrip (s : string) : string :=
  match s with
  | EmptyString => EmptyString
  | String c s' => if py_isspace c then py_lstrip s' else s
  end.

(** [s.rstrip()]: drop the trailing run of whitespace. *)
Fixpoint py_rstrip (s : string) : string :=
  match s with
  | EmptyString => EmptyString
  | String c s' =>
      match py_rstrip s' with
      | EmptyString => if py_isspace c then EmptyString else String c EmptyString
      | r => String c r
      end
  end.

(** [s.strip()]: the left index moves first, then the right one. *)
Definition py_strip (s : string) : string := py_rstrip (py_lstrip s).

Definition first_char (s : string) : option ascii :=
  match s with
  | EmptyString => None
  | String c _ => Some c
  end.

Fixpoint last_char (s : string) : option ascii :=
  match s with
  | EmptyString => None
  | String c EmptyString => Some c
  | String _ s' => last_char s'
  end.

Fixpoint chars (s : string) : list ascii :=
  match s with
  | EmptyString => []
  | String c s' => c :: chars s'
  end.

(** The diagnostic of [clean_airports_dates.py], line 31:
    [str.contains(r'^\s|\s$')], whitespace at either end. *)
Definition has_edge_whitespace (s : string) : bool :=
  from_option py_isspace false (first_char s)
  || from_option py_isspace false (last_char s).

(** No character of the text is a lower-case letter. *)
Definition no_lowercase (s : string) : bool :=
  forallb (fun c => negb (py_islower c)) (chars s).

(** Python's [x in xs] on a list of text. *)
Definition py_in (x : string) (xs : list string) : bool :=
  existsb (String.eqb x) xs.

(** ** Python text beyond ASCII

    A Python string is a sequence of Unicode code points.  The functions
    below are [str.isspace], [str.islower], [str.upper] and [str.strip] on
    all of them, with the tables of Unicode 14.0.0 (CPython 3.11).
    [str.upper] maps each code point on its own, to one, two or three code
    points, and has no rule that looks at the neighbours. *)

(** The code points on which [str.isspace] holds, as ranges [(first, last)]. *)
Definition unicode_whitespace : list (N * N) :=
  [
   (9, 13); (28, 32); (133, 133); (160, 160); (5760, 5760); (8192, 8202);
   (8232, 8233); (8239, 8239); (8287, 8287); (12288, 12288)
  ]%N.

(** The title-case letters (category Lt), as ranges. *)
Definition unicode_titlecase : list (N * N) :=
  [
   (453, 453); (456, 456); (459, 459); (498, 498); (8072, 8079); (8088, 8095);
   (8104, 8111); (8124, 8124); (8140, 8140); (8188, 8188)
  ]%N.

(** The code points on which [str.islower] holds (the Lowercase property),
    as ranges. *)
Definition unicode_lowercase : list (N * N) :=
  [
   (97, 122); (170, 170); (181, 181); (186, 186); (223, 246); (248, 255);
   (257, 257); (259, 259); (261, 261); (263, 263); (265, 265); (267, 267);
   (269, 269); (271, 271); (273, 273); (275, 275); (277, 277); (279, 279);
   (281, 281); (283, 283); (285, 285); (287, 287); (289, 289); (291, 291);
   (293, 293); (295, 295); (297, 297); (299, 299); (301, 301); (303, 303);
   (305, 305); (307, 307); (309, 309); (311, 312); (314, 314); (316, 316);
   (318, 318); (320, 320); (322, 322); (324, 324); (326, 326); (328, 329);
   (331, 331); (333, 333); (335, 335); (337, 337); (339, 339); (341, 341);
   (343, 343); (345, 345); (347, 347); (349, 349); (351, 351); (353, 353);
   (355, 355); (357, 357); (359, 359); (361, 361); (363, 363); (365, 365);
   (367, 367); (369, 369); (371, 371); (373, 373); (375, 375); (378, 378);
   (380, 380); (382, 384); (387, 387); (389, 389); (392, 392); (396, 397);
   (402, 402); (405, 405); (409, 411); (414, 414); (417, 417); (419, 419);
   (421, 421); (424, 424); (426, 427); (429, 429); (432, 432); (436, 436);
   (438, 438); (441, 442); (445, 447); (454, 454); (457, 457); (460, 460);
   (462, 462); (464, 464); (466, 466); (468, 468); (470, 470); (472, 472);
   (474, 474); (476, 477); (479, 479); (481, 481); (483, 483); (485, 485);
   (487, 487); (489, 489); (491, 491); (493, 493); (495, 496); (499, 499);
   (501, 501); (505, 505); (507, 507); (509, 509); (511, 511); (513, 513);
   (515, 515); (517, 517); (519, 519); (521, 521); (523, 523); (525, 525);
   (527, 527); (529, 529); (531, 531); (533, 533); (535, 535); (537, 537);
   (539, 539); (541, 541); (543, 543); (545, 545); (547, 547); (549, 549);
   (551, 551); (553, 553); (555, 555); (557, 557); (559, 559); (561, 561);
   (563, 569); (572, 572); (575, 576); (578, 578); (583, 583); (585, 585);
   (587, 587); (589, 589); (591, 659); (661, 696); (704, 705); (736, 740);
   (837, 837); (881, 881); (883, 883); (887, 887); (890, 893); (912, 912);
   (940, 974); (976, 977); (981, 983); (985, 985); (987, 987); (989, 989);
   (991, 991); (993, 993); (995, 995); (997, 997); (999, 999); (1001, 1001);
   (1003, 1003); (1005, 1005); (1007, 1011); (1013, 1013); (1016, 1016);
   (1019, 1020); (1072, 1119); (1121, 1121); (1123, 1123); (1125, 1125);
   (1127, 1127); (1129, 1129); (1131, 1131); (1133, 1133); (1135, 1135);
   (1137, 1137); (1139, 1139); (1141, 1141); (1143, 1143); (1145, 1145);
   (1147, 1147); (1149, 1149); (1151, 1151); (1153, 1153); (1163, 1163);
   (1165, 1165); (1167, 1167); (1169, 1169); (1171, 1171); (1173, 1173);
   (1175, 1175); (1177, 1177); (1179, 1179); (1181, 1181); (1183, 1183);
   (1185, 1185); (1187, 1187); (1189, 1189); (1191, 1191); (1193, 1193);
   (1195, 1195); (1197, 1197); (1199, 1199); (1201, 1201); (1203, 1203);
   (1205, 1205); (1207, 1207); (1209, 1209); (1211, 1211); (1213, 1213);
   (1215, 1215); (1218, 1218); (1220, 1220); (1222, 1222); (1224, 1224);
   (1226, 1226); (1228, 1228); (1230, 1231); (1233, 1233); (1235, 1235);
   (1237, 1237); (1239, 1239); (1241, 1241); (1243, 1243); (1245, 1245);
   (1247, 1247); (1249, 1249); (1251, 1251); (1253, 1253); (1255, 1255);
   (1257, 1257); (1259, 1259); (1261, 1261); (1263, 1263); (1265, 1265);
   (1267, 1267); (1269, 1269); (1271, 1271); (1273, 1273); (1275, 1275);
   (1277, 1277); (1279, 1279); (1281, 1281); (1283, 1283); (1285, 1285);
   (1287, 1287); (1289, 1289); (1291, 1291); (1293, 1293); (1295, 1295);
   (1297, 1297); (1299, 1299); (1301, 1301); (1303, 1303); (1305, 1305);
   (1307, 1307); (1309, 1309); (1311, 1311); (1313, 1313); (1315, 1315);
   (1317, 1317); (1319, 1319); (1321, 1321); (1323, 1323); (1325, 1325);
   (1327, 1327); (1376, 1416); (4304, 4346); (4349, 4351); (5112, 5117);
   (7296, 7304); (7424, 7615); (7681, 7681); (7683, 7683); (7685, 7685);
   (7687, 7687); (7689, 7689); (7691, 7691); (7693, 7693); (7695, 7695);
   (7697, 7697); (7699, 7699); (7701, 7701); (7703, 7703); (7705, 7705);
   (7707, 7707); (7709, 7709); (7711, 7711); (7713, 7713); (7715, 7715);
   (7717, 7717); (7719, 7719); (7721, 7721); (7723, 7723); (7725, 7725);
   (7727, 7727); (7729, 7729); (7731, 7731); (7733, 7733); (7735, 7735);
   (7737, 7737); (7739, 7739); (7741, 7741); (7743, 7743); (7745, 7745);
   (7747, 7747); (7749, 7749); (7751, 7751); (7753, 7753); (7755, 7755);
   (7757, 7757); (7759, 7759); (7761, 7761); (7763, 7763); (7765, 7765);
   (7767, 7767); (7769, 7769); (7771, 7771); (7773, 7773); (7775, 7775);
   (7777, 7777); (7779, 7779); (7781, 7781); (7783, 7783); (7785, 7785);
   (7787, 7787); (7789, 7789); (7791, 7791); (7793, 7793); (7795, 7795);
   (7797, 7797); (7799, 7799); (7801, 7801); (7803, 7803); (7805, 7805);
   (7807, 7807); (7809, 7809); (7811, 7811); (7813, 7813); (7815, 7815);
   (7817, 7817); (7819, 7819); (7821, 7821); (7823, 7823); (7825, 7825);
   (7827, 7827); (7829, 7837); (7839, 7839); (7841, 7841); (7843, 7843);
   (7845, 7845); (7847, 7847); (7849, 7849); (7851, 7851); (7853, 7853);
   (7855, 7855); (7857, 7857); (7859, 7859); (7861, 7861); (7863, 7863);
   (7865, 7865); (7867, 7867); (7869, 7869); (7871, 7871); (7873, 7873);
   (7875, 7875); (7877, 7877); (7879, 7879); (7881, 7881); (7883, 7883);
   (7885, 7885); (7887, 7887); (7889, 7889); (7891, 7891); (7893, 7893);
   (7895, 7895); (7897, 7897); (7899, 7899); (7901, 7901); (7903, 7903);
   (7905, 7905); (7907, 7907); (7909, 7909); (7911, 7911); (7913, 7913);
   (7915, 7915); (7917, 7917); (7919, 7919); (7921, 7921); (7923, 7923);
   (7925, 7925); (7927, 7927); (7929, 7929); (7931, 7931); (7933, 7933);
   (7935, 7943); (7952, 7957); (7968, 7975); (7984, 7991); (8000, 8005);
   (8016, 8023); (8032, 8039); (8048, 8061); (8064, 8071); (8080, 8087);
   (8096, 8103); (8112, 8116); (8118, 8119); (8126, 8126); (8130, 8132);
   (8134, 8135); (8144, 8147); (8150, 8151); (8160, 8167); (8178, 8180);
   (8182, 8183); (8305, 8305); (8319, 8319); (8336, 8348); (8458, 8458);
   (8462, 8463); (8467, 8467); (8495, 8495); (8500, 8500); (8505, 8505);
   (8508, 8509); (8518, 8521); (8526, 8526); (8560, 8575); (8580, 8580);
   (9424, 9449); (11312, 11359); (11361, 11361); (11365, 11366); (11368,
   11368); (11370, 11370); (11372, 11372); (11377, 11377); (11379, 11380);
   (11382, 11389); (11393, 11393); (11395, 11395); (11397, 11397); (11399,
   11399); (11401, 11401); (11403, 11403); (11405, 11405); (11407, 11407);
   (11409, 11409); (11411, 11411); (11413, 11413); (11415, 11415); (11417,
   11417); (11419, 11419); (11421, 11421); (11423, 11423); (11425, 11425);
   (11427, 11427); (11429, 11429); (11431, 11431); (11433, 11433); (11435,
   11435); (11437, 11437); (11439, 11439); (11441, 11441); (11443, 11443);
   (11445, 11445); (11447, 11447); (11449, 11449); (11451, 11451); (11453,
   11453); (11455, 11455); (11457, 11457); (11459, 11459); (11461, 11461);
   (11463, 11463); (11465, 11465); (11467, 11467); (11469, 11469); (11471,
   11471); (11473, 11473); (11475, 11475); (11477, 11477); (11479, 11479);
   (11481, 11481); (11483, 11483); (11485, 11485); (11487, 11487); (11489,
   11489); (11491, 11492); (11500, 11500); (11502, 11502); (11507, 11507);
   (11520, 11557); (11559, 11559); (11565, 11565); (42561, 42561); (42563,
   42563); (42565, 42565); (42567, 42567); (42569, 42569); (42571, 42571);
   (42573, 42573); (42575, 42575); (42577, 42577); (42579, 42579); (42581,
   42581); (42583, 42583); (42585, 42585); (42587, 42587); (42589, 42589);
   (42591, 42591); (42593, 42593); (42595, 42595); (42597, 42597); (42599,
   42599); (42601, 42601); (42603, 42603); (42605, 42605); (42625, 42625);
   (42627, 42627); (42629, 42629); (42631, 42631); (42633, 42633); (42635,
   42635); (42637, 42637); (42639, 42639); (42641, 42641); (42643, 42643);
   (42645, 42645); (42647, 42647); (42649, 42649); (42651, 42653); (42787,
   42787); (42789, 42789); (42791, 42791); (42793, 42793); (42795, 42795);
   (42797, 42797); (42799, 42801); (42803, 42803); (42805, 42805); (42807,
   42807); (42809, 42809); (42811, 42811); (42813, 42813); (42815, 42815);
   (42817, 42817); (42819, 42819); (42821, 42821); (42823, 42823); (42825,
   42825); (42827, 42827); (42829, 42829); (42831, 42831); (42833, 42833);
   (42835, 42835); (42837, 42837); (42839, 42839); (42841, 42841); (42843,
   42843); (42845, 42845); (42847, 42847); (42849, 42849); (42851, 42851);
   (42853, 42853); (42855, 42855); (42857, 42857); (42859, 42859); (42861,
   42861); (42863, 42872); (42874, 42874); (42876, 42876); (42879, 42879);
   (42881, 42881); (42883, 42883); (42885, 42885); (42887, 42887); (42892,
   42892); (42894, 42894); (42897, 42897); (42899, 42901); (42903, 42903);
   (42905, 42905); (42907, 42907); (42909, 42909); (42911, 42911); (42913,
   42913); (42915, 42915); (42917, 42917); (42919, 42919); (42921, 42921);
   (42927, 42927); (42933, 42933); (42935, 42935); (42937, 42937); (42939,
   42939); (42941, 42941); (42943, 42943); (42945, 42945); (42947, 42947);
   (42952, 42952); (42954, 42954); (42961, 42961); (42963, 42963); (42965,
   42965); (42967, 42967); (42969, 42969); (42998, 42998); (43000, 43002);
   (43824, 43866); (43868, 43880); (43888, 43967); (64256, 64262); (64275,
   64279); (65345, 65370); (66600, 66639); (66776, 66811); (66967, 66977);
   (66979, 66993); (66995, 67001); (67003, 67004); (67456, 67456); (67459,
   67461); (67463, 67504); (67506, 67514); (68800, 68850); (71872, 71903);
   (93792, 93823); (119834, 119859); (119886, 119892); (119894, 119911);
   (119938, 119963); (119990, 119993); (119995, 119995); (119997, 120003);
   (120005, 120015); (120042, 120067); (120094, 120119); (120146, 120171);
   (120198, 120223); (120250, 120275); (120302, 120327); (120354, 120379);
   (120406, 120431); (120458, 120485); (120514, 120538); (120540, 120545);
   (120572, 120596); (120598, 120603); (120630, 120654); (120656, 120661);
   (120688, 120712); (120714, 120719); (120746, 120770); (120772, 120777);
   (120779, 120779); (122624, 122633); (122635, 122654); (125218, 125251)
  ]%N.

(** The code points that [str.upper] changes, each with the code points it
    becomes (one to three), in increasing order; the table is cut in parts. *)
Definition unicode_upper_1 : list (N * list N) :=
  [
   (97, [65]); (98, [66]); (99, [67]); (100, [68]); (101, [69]); (102, [70]);
   (103, [71]); (104, [72]); (105, [73]); (106, [74]); (107, [75]); (108,
   [76]); (109, [77]); (110, [78]); (111, [79]); (112, [80]); (113, [81]);
   (114, [82]); (115, [83]); (116, [84]); (117, [85]); (118, [86]); (119,
   [87]); (120, [88]); (121, [89]); (122, [90]); (181, [924]); (223, [83;
   83]); (224, [192]); (225, [193]); (226, [194]); (227, [195]); (228, [196]);
   (229, [197]); (230, [198]); (231, [199]); (232, [200]); (233, [201]); (234,
   [202]); (235, [203]); (236, [204]); (237, [205]); (238, [206]); (239,
   [207]); (240, [208]); (241, [209]); (242, [210]); (243, [211]); (244,
   [212]); (245, [213]); (246, [214]); (248, [216]); (249, [217]); (250,
   [218]); (251, [219]); (252, [220]); (253, [221]); (254, [222]); (255,
   [376]); (257, [256]); (259, [258]); (261, [260]); (263, [262]); (265,
   [264]); (267, [266]); (269, [268]); (271, [270]); (273, [272]); (275,
   [274]); (277, [276]); (279, [278]); (281, [280]); (283, [282]); (285,
   [284]); (287, [286]); (289, [288]); (291, [290]); (293, [292]); (295,
   [294]); (297, [296]); (299, [298]); (301, [300]); (303, [302]); (305,
   [73]); (307, [306]); (309, [308]); (311, [310]); (314, [313]); (316,
   [315]); (318, [317]); (320, [319]); (322, [321]); (324, [323]); (326,
   [325]); (328, [327]); (329, [700; 78]); (331, [330]); (333, [332]); (335,
   [334]); (337, [336]); (339, [338]); (341, [340]); (343, [342]); (345,
   [344]); (347, [346]); (349, [348]); (351, [350]); (353, [352]); (355,
   [354]); (357, [356]); (359, [358]); (361, [360]); (363, [362]); (365,
   [364]); (367, [366]); (369, [368]); (371, [370]); (373, [372]); (375,
   [374]); (378, [377]); (380, [379]); (382, [381]); (383, [83]); (384,
   [579]); (387, [386]); (389, [388]); (392, [391]); (396, [395]); (402,
   [401]); (405, [502]); (409, [408]); (410, [573]); (414, [544]); (417,
   [416]); (419, [418]); (421, [420]); (424, [423]); (429, [428]); (432,
   [431]); (436, [435]); (438, [437]); (441, [440]); (445, [444]); (447,
   [503]); (453, [452]); (454, [452]); (456, [455]); (457, [455]); (459,
   [458]); (460, [458]); (462, [461]); (464, [463]); (466, [465]); (468,
   [467]); (470, [469]); (472, [471]); (474, [473]); (476, [475]); (477,
   [398]); (479, [478]); (481, [480]); (483, [482]); (485, [484]); (487,
   [486]); (489, [488]); (491, [490]); (493, [492]); (495, [494]); (496, [74;
   780]); (498, [497]); (499, [497]); (501, [500]); (505, [504]); (507,
   [506]); (509, [508]); (511, [510]); (513, [512]); (515, [514]); (517,
   [516]); (519, [518]); (521, [520]); (523, [522]); (525, [524]); (527,
   [526]); (529, [528]); (531, [530]); (533, [532]); (535, [534]); (537,
   [536]); (539, [538]); (541, [540]); (543, [542]); (547, [546]); (549,
   [548]); (551, [550]); (553, [552]); (555, [554]); (557, [556]); (559,
   [558]); (561, [560]); (563, [562]); (572, [571]); (575, [11390]); (576,
   [11391]); (578, [577]); (583, [582]); (585, [584]); (587, [586]); (589,
   [588]); (591, [590]); (592, [11375]); (593, [11373]); (594, [11376]); (595,
   [385]); (596, [390]); (598, [393]); (599, [394]); (601, [399]); (603,
   [400]); (604, [42923]); (608, [403]); (609, [42924]); (611, [404]); (613,
   [42893]); (614, [42922]); (616, [407]); (617, [406]); (618, [42926]); (619,
   [11362]); (620, [42925]); (623, [412]); (625, [11374]); (626, [413]); (629,
   [415]); (637, [11364]); (640, [422]); (642, [42949]); (643, [425]); (647,
   [42929]); (648, [430]); (649, [580]); (650, [433]); (651, [434]); (652,
   [581]); (658, [439]); (669, [42930]); (670, [42928]); (837, [921]); (881,
   [880]); (883, [882]); (887, [886]); (891, [1021]); (892, [1022]); (893,
   [1023]); (912, [921; 776; 769]); (940, [902])
  ]%N.

Definition unicode_upper_2 : list (N * list N) :=
  [
   (941, [904]); (942, [905]); (943, [906]); (944, [933; 776; 769]); (945,
   [913]); (946, [914]); (947, [915]); (948, [916]); (949, [917]); (950,
   [918]); (951, [919]); (952, [920]); (953, [921]); (954, [922]); (955,
   [923]); (956, [924]); (957, [925]); (958, [926]); (959, [927]); (960,
   [928]); (961, [929]); (962, [931]); (963, [931]); (964, [932]); (965,
   [933]); (966, [934]); (967, [935]); (968, [936]); (969, [937]); (970,
   [938]); (971, [939]); (972, [908]); (973, [910]); (974, [911]); (976,
   [914]); (977, [920]); (981, [934]); (982, [928]); (983, [975]); (985,
   [984]); (987, [986]); (989, [988]); (991, [990]); (993, [992]); (995,
   [994]); (997, [996]); (999, [998]); (1001, [1000]); (1003, [1002]); (1005,
   [1004]); (1007, [1006]); (1008, [922]); (1009, [929]); (1010, [1017]);
   (1011, [895]); (1013, [917]); (1016, [1015]); (1019, [1018]); (1072,
   [1040]); (1073, [1041]); (1074, [1042]); (1075, [1043]); (1076, [1044]);
   (1077, [1045]); (1078, [1046]); (1079, [1047]); (1080, [1048]); (1081,
   [1049]); (1082, [1050]); (1083, [1051]); (1084, [1052]); (1085, [1053]);
   (1086, [1054]); (1087, [1055]); (1088, [1056]); (1089, [1057]); (1090,
   [1058]); (1091, [1059]); (1092, [1060]); (1093, [1061]); (1094, [1062]);
   (1095, [1063]); (1096, [1064]); (1097, [1065]); (1098, [1066]); (1099,
   [1067]); (1100, [1068]); (1101, [1069]); (1102, [1070]); (1103, [1071]);
   (1104, [1024]); (1105, [1025]); (1106, [1026]); (1107, [1027]); (1108,
   [1028]); (1109, [1029]); (1110, [1030]); (1111, [1031]); (1112, [1032]);
   (1113, [1033]); (1114, [1034]); (1115, [1035]); (1116, [1036]); (1117,
   [1037]); (1118, [1038]); (1119, [1039]); (1121, [1120]); (1123, [1122]);
   (1125, [1124]); (1127, [1126]); (1129, [1128]); (1131, [1130]); (1133,
   [1132]); (1135, [1134]); (1137, [1136]); (1139, [1138]); (1141, [1140]);
   (1143, [1142]); (1145, [1144]); (1147, [1146]); (1149, [1148]); (1151,
   [1150]); (1153, [1152]); (1163, [1162]); (1165, [1164]); (1167, [1166]);
   (1169, [1168]); (1171, [1170]); (1173, [1172]); (1175, [1174]); (1177,
   [1176]); (1179, [1178]); (1181, [1180]); (1183, [1182]); (1185, [1184]);
   (1187, [1186]); (1189, [1188]); (1191, [1190]); (1193, [1192]); (1195,
   [1194]); (1197, [1196]); (1199, [1198]); (1201, [1200]); (1203, [1202]);
   (1205, [1204]); (1207, [1206]); (1209, [1208]); (1211, [1210]); (1213,
   [1212]); (1215, [1214]); (1218, [1217]); (1220, [1219]); (1222, [1221]);
   (1224, [1223]); (1226, [1225]); (1228, [1227]); (1230, [1229]); (1231,
   [1216]); (1233, [1232]); (1235, [1234]); (1237, [1236]); (1239, [1238]);
   (1241, [1240]); (1243, [1242]); (1245, [1244]); (1247, [1246]); (1249,
   [1248]); (1251, [1250]); (1253, [1252]); (1255, [1254]); (1257, [1256]);
   (1259, [1258]); (1261, [1260]); (1263, [1262]); (1265, [1264]); (1267,
   [1266]); (1269, [1268]); (1271, [1270]); (1273, [1272]); (1275, [1274]);
   (1277, [1276]); (1279, [1278]); (1281, [1280]); (1283, [1282]); (1285,
   [1284]); (1287, [1286]); (1289, [1288]); (1291, [1290]); (1293, [1292]);
   (1295, [1294]); (1297, [1296]); (1299, [1298]); (1301, [1300]); (1303,
   [1302]); (1305, [1304]); (1307, [1306]); (1309, [1308]); (1311, [1310]);
   (1313, [1312]); (1315, [1314]); (1317, [1316]); (1319, [1318]); (1321,
   [1320]); (1323, [1322]); (1325, [1324]); (1327, [1326]); (1377, [1329]);
   (1378, [1330]); (1379, [1331]); (1380, [1332]); (1381, [1333]); (1382,
   [1334]); (1383, [1335]); (1384, [1336]); (1385, [1337]); (1386, [1338]);
   (1387, [1339]); (1388, [1340]); (1389, [1341]); (1390, [1342]); (1391,
   [1343]); (1392, [1344]); (1393, [1345]); (1394, [1346]); (1395, [1347]);
   (1396, [1348]); (1397, [1349]); (1398, [1350]); (1399, [1351]); (1400,
   [1352]); (1401, [1353]); (1402, [1354]); (1403, [1355]); (1404, [1356]);
   (1405, [1357]); (1406, [1358]); (1407, [1359]); (1408, [1360]); (1409,
   [1361]); (1410, [1362]); (1411, [1363]); (1412, [1364]); (1413, [1365]);
   (1414, [1366]); (1415, [1333; 1362]); (4304, [7312]); (4305, [7313]);
   (4306, [7314]); (4307, [7315]); (4308, [7316]); (4309, [7317]); (4310,
   [7318]); (4311, [7319]); (4312, [7320]); (4313, [7321]); (4314, [7322])
  ]%N.

Definition unicode_upper_3 : list (N * list N) :=
  [
   (4315, [7323]); (4316, [7324]); (4317, [7325]); (4318, [7326]); (4319,
   [7327]); (4320, [7328]); (4321, [7329]); (4322, [7330]); (4323, [7331]);
   (4324, [7332]); (4325, [7333]); (4326, [7334]); (4327, [7335]); (4328,
   [7336]); (4329, [7337]); (4330, [7338]); (4331, [7339]); (4332, [7340]);
   (4333, [7341]); (4334, [7342]); (4335, [7343]); (4336, [7344]); (4337,
   [7345]); (4338, [7346]); (4339, [7347]); (4340, [7348]); (4341, [7349]);
   (4342, [7350]); (4343, [7351]); (4344, [7352]); (4345, [7353]); (4346,
   [7354]); (4349, [7357]); (4350, [7358]); (4351, [7359]); (5112, [5104]);
   (5113, [5105]); (5114, [5106]); (5115, [5107]); (5116, [5108]); (5117,
   [5109]); (7296, [1042]); (7297, [1044]); (7298, [1054]); (7299, [1057]);
   (7300, [1058]); (7301, [1058]); (7302, [1066]); (7303, [1122]); (7304,
   [42570]); (7545, [42877]); (7549, [11363]); (7566, [42950]); (7681,
   [7680]); (7683, [7682]); (7685, [7684]); (7687, [7686]); (7689, [7688]);
   (7691, [7690]); (7693, [7692]); (7695, [7694]); (7697, [7696]); (7699,
   [7698]); (7701, [7700]); (7703, [7702]); (7705, [7704]); (7707, [7706]);
   (7709, [7708]); (7711, [7710]); (7713, [7712]); (7715, [7714]); (7717,
   [7716]); (7719, [7718]); (7721, [7720]); (7723, [7722]); (7725, [7724]);
   (7727, [7726]); (7729, [7728]); (7731, [7730]); (7733, [7732]); (7735,
   [7734]); (7737, [7736]); (7739, [7738]); (7741, [7740]); (7743, [7742]);
   (7745, [7744]); (7747, [7746]); (7749, [7748]); (7751, [7750]); (7753,
   [7752]); (7755, [7754]); (7757, [7756]); (7759, [7758]); (7761, [7760]);
   (7763, [7762]); (7765, [7764]); (7767, [7766]); (7769, [7768]); (7771,
   [7770]); (7773, [7772]); (7775, [7774]); (7777, [7776]); (7779, [7778]);
   (7781, [7780]); (7783, [7782]); (7785, [7784]); (7787, [7786]); (7789,
   [7788]); (7791, [7790]); (7793, [7792]); (7795, [7794]); (7797, [7796]);
   (7799, [7798]); (7801, [7800]); (7803, [7802]); (7805, [7804]); (7807,
   [7806]); (7809, [7808]); (7811, [7810]); (7813, [7812]); (7815, [7814]);
   (7817, [7816]); (7819, [7818]); (7821, [7820]); (7823, [7822]); (7825,
   [7824]); (7827, [7826]); (7829, [7828]); (7830, [72; 817]); (7831, [84;
   776]); (7832, [87; 778]); (7833, [89; 778]); (7834, [65; 702]); (7835,
   [7776]); (7841, [7840]); (7843, [7842]); (7845, [7844]); (7847, [7846]);
   (7849, [7848]); (7851, [7850]); (7853, [7852]); (7855, [7854]); (7857,
   [7856]); (7859, [7858]); (7861, [7860]); (7863, [7862]); (7865, [7864]);
   (7867, [7866]); (7869, [7868]); (7871, [7870]); (7873, [7872]); (7875,
   [7874]); (7877, [7876]); (7879, [7878]); (7881, [7880]); (7883, [7882]);
   (7885, [7884]); (7887, [7886]); (7889, [7888]); (7891, [7890]); (7893,
   [7892]); (7895, [7894]); (7897, [7896]); (7899, [7898]); (7901, [7900]);
   (7903, [7902]); (7905, [7904]); (7907, [7906]); (7909, [7908]); (7911,
   [7910]); (7913, [7912]); (7915, [7914]); (7917, [7916]); (7919, [7918]);
   (7921, [7920]); (7923, [7922]); (7925, [7924]); (7927, [7926]); (7929,
   [7928]); (7931, [7930]); (7933, [7932]); (7935, [7934]); (7936, [7944]);
   (7937, [7945]); (7938, [7946]); (7939, [7947]); (7940, [7948]); (7941,
   [7949]); (7942, [7950]); (7943, [7951]); (7952, [7960]); (7953, [7961]);
   (7954, [7962]); (7955, [7963]); (7956, [7964]); (7957, [7965]); (7968,
   [7976]); (7969, [7977]); (7970, [7978]); (7971, [7979]); (7972, [7980]);
   (7973, [7981]); (7974, [7982]); (7975, [7983]); (7984, [7992]); (7985,
   [7993]); (7986, [7994]); (7987, [7995]); (7988, [7996]); (7989, [7997]);
   (7990, [7998]); (7991, [7999]); (8000, [8008]); (8001, [8009]); (8002,
   [8010]); (8003, [8011]); (8004, [8012]); (8005, [8013]); (8016, [933;
   787]); (8017, [8025]); (8018, [933; 787; 768]); (8019, [8027]); (8020,
   [933; 787; 769]); (8021, [8029]); (8022, [933; 787; 834]); (8023, [8031]);
   (8032, [8040]); (8033, [8041]); (8034, [8042]); (8035, [8043]); (8036,
   [8044]); (8037, [8045]); (8038, [8046]); (8039, [8047]); (8048, [8122]);
   (8049, [8123]); (8050, [8136]); (8051, [8137]); (8052, [8138]); (8053,
   [8139]); (8054, [8154]); (8055, [8155]); (8056, [8184]); (8057, [8185]);
   (8058, [8170]); (8059, [8171]); (8060, [8186]); (8061, [8187]); (8064,
   [7944; 921]); (8065, [7945; 921]); (8066, [7946; 921]); (8067, [7947;
   921]); (8068, [7948; 921]); (8069, [7949; 921]); (8070, [7950; 921]);
   (8071, [7951; 921])
  ]%N.

Definition unicode_upper_4 : list (N * list N) :=
  [
   (8072, [7944; 921]); (8073, [7945; 921]); (8074, [7946; 921]); (8075,
   [7947; 921]); (8076, [7948; 921]); (8077, [7949; 921]); (8078, [7950;
   921]); (8079, [7951; 921]); (8080, [7976; 921]); (8081, [7977; 921]);
   (8082, [7978; 921]); (8083, [7979; 921]); (8084, [7980; 921]); (8085,
   [7981; 921]); (8086, [7982; 921]); (8087, [7983; 921]); (8088, [7976;
   921]); (8089, [7977; 921]); (8090, [7978; 921]); (8091, [7979; 921]);
   (8092, [7980; 921]); (8093, [7981; 921]); (8094, [7982; 921]); (8095,
   [7983; 921]); (8096, [8040; 921]); (8097, [8041; 921]); (8098, [8042;
   921]); (8099, [8043; 921]); (8100, [8044; 921]); (8101, [8045; 921]);
   (8102, [8046; 921]); (8103, [8047; 921]); (8104, [8040; 921]); (8105,
   [8041; 921]); (8106, [8042; 921]); (8107, [8043; 921]); (8108, [8044;
   921]); (8109, [8045; 921]); (8110, [8046; 921]); (8111, [8047; 921]);
   (8112, [8120]); (8113, [8121]); (8114, [8122; 921]); (8115, [913; 921]);
   (8116, [902; 921]); (8118, [913; 834]); (8119, [913; 834; 921]); (8124,
   [913; 921]); (8126, [921]); (8130, [8138; 921]); (8131, [919; 921]); (8132,
   [905; 921]); (8134, [919; 834]); (8135, [919; 834; 921]); (8140, [919;
   921]); (8144, [8152]); (8145, [8153]); (8146, [921; 776; 768]); (8147,
   [921; 776; 769]); (8150, [921; 834]); (8151, [921; 776; 834]); (8160,
   [8168]); (8161, [8169]); (8162, [933; 776; 768]); (8163, [933; 776; 769]);
   (8164, [929; 787]); (8165, [8172]); (8166, [933; 834]); (8167, [933; 776;
   834]); (8178, [8186; 921]); (8179, [937; 921]); (8180, [911; 921]); (8182,
   [937; 834]); (8183, [937; 834; 921]); (8188, [937; 921]); (8526, [8498]);
   (8560, [8544]); (8561, [8545]); (8562, [8546]); (8563, [8547]); (8564,
   [8548]); (8565, [8549]); (8566, [8550]); (8567, [8551]); (8568, [8552]);
   (8569, [8553]); (8570, [8554]); (8571, [8555]); (8572, [8556]); (8573,
   [8557]); (8574, [8558]); (8575, [8559]); (8580, [8579]); (9424, [9398]);
   (9425, [9399]); (9426, [9400]); (9427, [9401]); (9428, [9402]); (9429,
   [9403]); (9430, [9404]); (9431, [9405]); (9432, [9406]); (9433, [9407]);
   (9434, [9408]); (9435, [9409]); (9436, [9410]); (9437, [9411]); (9438,
   [9412]); (9439, [9413]); (9440, [9414]); (9441, [9415]); (9442, [9416]);
   (9443, [9417]); (9444, [9418]); (9445, [9419]); (9446, [9420]); (9447,
   [9421]); (9448, [9422]); (9449, [9423]); (11312, [11264]); (11313,
   [11265]); (11314, [11266]); (11315, [11267]); (11316, [11268]); (11317,
   [11269]); (11318, [11270]); (11319, [11271]); (11320, [11272]); (11321,
   [11273]); (11322, [11274]); (11323, [11275]); (11324, [11276]); (11325,
   [11277]); (11326, [11278]); (11327, [11279]); (11328, [11280]); (11329,
   [11281]); (11330, [11282]); (11331, [11283]); (11332, [11284]); (11333,
   [11285]); (11334, [11286]); (11335, [11287]); (11336, [11288]); (11337,
   [11289]); (11338, [11290]); (11339, [11291]); (11340, [11292]); (11341,
   [11293]); (11342, [11294]); (11343, [11295]); (11344, [11296]); (11345,
   [11297]); (11346, [11298]); (11347, [11299]); (11348, [11300]); (11349,
   [11301]); (11350, [11302]); (11351, [11303]); (11352, [11304]); (11353,
   [11305]); (11354, [11306]); (11355, [11307]); (11356, [11308]); (11357,
   [11309]); (11358, [11310]); (11359, [11311]); (11361, [11360]); (11365,
   [570]); (11366, [574]); (11368, [11367]); (11370, [11369]); (11372,
   [11371]); (11379, [11378]); (11382, [11381]); (11393, [11392]); (11395,
   [11394]); (11397, [11396]); (11399, [11398]); (11401, [11400]); (11403,
   [11402]); (11405, [11404]); (11407, [11406]); (11409, [11408]); (11411,
   [11410]); (11413, [11412]); (11415, [11414]); (11417, [11416]); (11419,
   [11418]); (11421, [11420]); (11423, [11422]); (11425, [11424]); (11427,
   [11426]); (11429, [11428]); (11431, [11430]); (11433, [11432]); (11435,
   [11434]); (11437, [11436]); (11439, [11438]); (11441, [11440]); (11443,
   [11442]); (11445, [11444]); (11447, [11446]); (11449, [11448]); (11451,
   [11450]); (11453, [11452]); (11455, [11454]); (11457, [11456]); (11459,
   [11458]); (11461, [11460]); (11463, [11462]); (11465, [11464]); (11467,
   [11466]); (11469, [11468]); (11471, [11470]); (11473, [11472]); (11475,
   [11474]); (11477, [11476]); (11479, [11478]); (11481, [11480]); (11483,
   [11482]); (11485, [11484]); (11487, [11486]); (11489, [11488]); (11491,
   [11490]); (11500, [11499]); (11502, [11501]); (11507, [11506]); (11520,
   [4256]); (11521, [4257]); (11522, [4258]); (11523, [4259]); (11524,
   [4260]); (11525, [4261]); (11526, [4262]); (11527, [4263]); (11528,
   [4264]); (11529, [4265]); (11530, [4266]); (11531, [4267]); (11532,
   [4268]); (11533, [4269]); (11534, [4270]); (11535, [4271]); (11536,
   [4272]); (11537, [4273]); (11538, [4274]); (11539, [4275]); (11540,
   [4276]); (11541, [4277]); (11542, [4278]); (11543, [4279]); (11544,
   [4280]); (11545, [4281]); (11546, [4282]); (11547, [4283])
  ]%N.

Definition unicode_upper_5 : list (N * list N) :=
  [
   (11548, [4284]); (11549, [4285]); (11550, [4286]); (11551, [4287]); (11552,
   [4288]); (11553, [4289]); (11554, [4290]); (11555, [4291]); (11556,
   [4292]); (11557, [4293]); (11559, [4295]); (11565, [4301]); (42561,
   [42560]); (42563, [42562]); (42565, [42564]); (42567, [42566]); (42569,
   [42568]); (42571, [42570]); (42573, [42572]); (42575, [42574]); (42577,
   [42576]); (42579, [42578]); (42581, [42580]); (42583, [42582]); (42585,
   [42584]); (42587, [42586]); (42589, [42588]); (42591, [42590]); (42593,
   [42592]); (42595, [42594]); (42597, [42596]); (42599, [42598]); (42601,
   [42600]); (42603, [42602]); (42605, [42604]); (42625, [42624]); (42627,
   [42626]); (42629, [42628]); (42631, [42630]); (42633, [42632]); (42635,
   [42634]); (42637, [42636]); (42639, [42638]); (42641, [42640]); (42643,
   [42642]); (42645, [42644]); (42647, [42646]); (42649, [42648]); (42651,
   [42650]); (42787, [42786]); (42789, [42788]); (42791, [42790]); (42793,
   [42792]); (42795, [42794]); (42797, [42796]); (42799, [42798]); (42803,
   [42802]); (42805, [42804]); (42807, [42806]); (42809, [42808]); (42811,
   [42810]); (42813, [42812]); (42815, [42814]); (42817, [42816]); (42819,
   [42818]); (42821, [42820]); (42823, [42822]); (42825, [42824]); (42827,
   [42826]); (42829, [42828]); (42831, [42830]); (42833, [42832]); (42835,
   [42834]); (42837, [42836]); (42839, [42838]); (42841, [42840]); (42843,
   [42842]); (42845, [42844]); (42847, [42846]); (42849, [42848]); (42851,
   [42850]); (42853, [42852]); (42855, [42854]); (42857, [42856]); (42859,
   [42858]); (42861, [42860]); (42863, [42862]); (42874, [42873]); (42876,
   [42875]); (42879, [42878]); (42881, [42880]); (42883, [42882]); (42885,
   [42884]); (42887, [42886]); (42892, [42891]); (42897, [42896]); (42899,
   [42898]); (42900, [42948]); (42903, [42902]); (42905, [42904]); (42907,
   [42906]); (42909, [42908]); (42911, [42910]); (42913, [42912]); (42915,
   [42914]); (42917, [42916]); (42919, [42918]); (42921, [42920]); (42933,
   [42932]); (42935, [42934]); (42937, [42936]); (42939, [42938]); (42941,
   [42940]); (42943, [42942]); (42945, [42944]); (42947, [42946]); (42952,
   [42951]); (42954, [42953]); (42961, [42960]); (42967, [42966]); (42969,
   [42968]); (42998, [42997]); (43859, [42931]); (43888, [5024]); (43889,
   [5025]); (43890, [5026]); (43891, [5027]); (43892, [5028]); (43893,
   [5029]); (43894, [5030]); (43895, [5031]); (43896, [5032]); (43897,
   [5033]); (43898, [5034]); (43899, [5035]); (43900, [5036]); (43901,
   [5037]); (43902, [5038]); (43903, [5039]); (43904, [5040]); (43905,
   [5041]); (43906, [5042]); (43907, [5043]); (43908, [5044]); (43909,
   [5045]); (43910, [5046]); (43911, [5047]); (43912, [5048]); (43913,
   [5049]); (43914, [5050]); (43915, [5051]); (43916, [5052]); (43917,
   [5053]); (43918, [5054]); (43919, [5055]); (43920, [5056]); (43921,
   [5057]); (43922, [5058]); (43923, [5059]); (43924, [5060]); (43925,
   [5061]); (43926, [5062]); (43927, [5063]); (43928, [5064]); (43929,
   [5065]); (43930, [5066]); (43931, [5067]); (43932, [5068]); (43933,
   [5069]); (43934, [5070]); (43935, [5071]); (43936, [5072]); (43937,
   [5073]); (43938, [5074]); (43939, [5075]); (43940, [5076]); (43941,
   [5077]); (43942, [5078]); (43943, [5079]); (43944, [5080]); (43945,
   [5081]); (43946, [5082]); (43947, [5083]); (43948, [5084]); (43949,
   [5085]); (43950, [5086]); (43951, [5087]); (43952, [5088]); (43953,
   [5089]); (43954, [5090]); (43955, [5091]); (43956, [5092]); (43957,
   [5093]); (43958, [5094]); (43959, [5095]); (43960, [5096]); (43961,
   [5097]); (43962, [5098]); (43963, [5099]); (43964, [5100]); (43965,
   [5101]); (43966, [5102]); (43967, [5103]); (64256, [70; 70]); (64257, [70;
   73]); (64258, [70; 76]); (64259, [70; 70; 73]); (64260, [70; 70; 76]);
   (64261, [83; 84]); (64262, [83; 84]); (64275, [1348; 1350]); (64276, [1348;
   1333]); (64277, [1348; 1339]); (64278, [1358; 1350]); (64279, [1348;
   1341]); (65345, [65313]); (65346, [65314]); (65347, [65315]); (65348,
   [65316]); (65349, [65317]); (65350, [65318]); (65351, [65319]); (65352,
   [65320]); (65353, [65321]); (65354, [65322]); (65355, [65323]); (65356,
   [65324]); (65357, [65325]); (65358, [65326]); (65359, [65327]); (65360,
   [65328]); (65361, [65329]); (65362, [65330]); (65363, [65331]); (65364,
   [65332]); (65365, [65333]); (65366, [65334]); (65367, [65335]); (65368,
   [65336]); (65369, [65337]); (65370, [65338]); (66600, [66560]); (66601,
   [66561]); (66602, [66562]); (66603, [66563]); (66604, [66564]); (66605,
   [66565]); (66606, [66566]); (66607, [66567]); (66608, [66568]); (66609,
   [66569]); (66610, [66570]); (66611, [66571]); (66612, [66572]); (66613,
   [66573]); (66614, [66574])
  ]%N.

Definition unicode_upper_6 : list (N * list N) :=
  [
   (66615, [66575]); (66616, [66576]); (66617, [66577]); (66618, [66578]);
   (66619, [66579]); (66620, [66580]); (66621, [66581]); (66622, [66582]);
   (66623, [66583]); (66624, [66584]); (66625, [66585]); (66626, [66586]);
   (66627, [66587]); (66628, [66588]); (66629, [66589]); (66630, [66590]);
   (66631, [66591]); (66632, [66592]); (66633, [66593]); (66634, [66594]);
   (66635, [66595]); (66636, [66596]); (66637, [66597]); (66638, [66598]);
   (66639, [66599]); (66776, [66736]); (66777, [66737]); (66778, [66738]);
   (66779, [66739]); (66780, [66740]); (66781, [66741]); (66782, [66742]);
   (66783, [66743]); (66784, [66744]); (66785, [66745]); (66786, [66746]);
   (66787, [66747]); (66788, [66748]); (66789, [66749]); (66790, [66750]);
   (66791, [66751]); (66792, [66752]); (66793, [66753]); (66794, [66754]);
   (66795, [66755]); (66796, [66756]); (66797, [66757]); (66798, [66758]);
   (66799, [66759]); (66800, [66760]); (66801, [66761]); (66802, [66762]);
   (66803, [66763]); (66804, [66764]); (66805, [66765]); (66806, [66766]);
   (66807, [66767]); (66808, [66768]); (66809, [66769]); (66810, [66770]);
   (66811, [66771]); (66967, [66928]); (66968, [66929]); (66969, [66930]);
   (66970, [66931]); (66971, [66932]); (66972, [66933]); (66973, [66934]);
   (66974, [66935]); (66975, [66936]); (66976, [66937]); (66977, [66938]);
   (66979, [66940]); (66980, [66941]); (66981, [66942]); (66982, [66943]);
   (66983, [66944]); (66984, [66945]); (66985, [66946]); (66986, [66947]);
   (66987, [66948]); (66988, [66949]); (66989, [66950]); (66990, [66951]);
   (66991, [66952]); (66992, [66953]); (66993, [66954]); (66995, [66956]);
   (66996, [66957]); (66997, [66958]); (66998, [66959]); (66999, [66960]);
   (67000, [66961]); (67001, [66962]); (67003, [66964]); (67004, [66965]);
   (68800, [68736]); (68801, [68737]); (68802, [68738]); (68803, [68739]);
   (68804, [68740]); (68805, [68741]); (68806, [68742]); (68807, [68743]);
   (68808, [68744]); (68809, [68745]); (68810, [68746]); (68811, [68747]);
   (68812, [68748]); (68813, [68749]); (68814, [68750]); (68815, [68751]);
   (68816, [68752]); (68817, [68753]); (68818, [68754]); (68819, [68755]);
   (68820, [68756]); (68821, [68757]); (68822, [68758]); (68823, [68759]);
   (68824, [68760]); (68825, [68761]); (68826, [68762]); (68827, [68763]);
   (68828, [68764]); (68829, [68765]); (68830, [68766]); (68831, [68767]);
   (68832, [68768]); (68833, [68769]); (68834, [68770]); (68835, [68771]);
   (68836, [68772]); (68837, [68773]); (68838, [68774]); (68839, [68775]);
   (68840, [68776]); (68841, [68777]); (68842, [68778]); (68843, [68779]);
   (68844, [68780]); (68845, [68781]); (68846, [68782]); (68847, [68783]);
   (68848, [68784]); (68849, [68785]); (68850, [68786]); (71872, [71840]);
   (71873, [71841]); (71874, [71842]); (71875, [71843]); (71876, [71844]);
   (71877, [71845]); (71878, [71846]); (71879, [71847]); (71880, [71848]);
   (71881, [71849]); (71882, [71850]); (71883, [71851]); (71884, [71852]);
   (71885, [71853]); (71886, [71854]); (71887, [71855]); (71888, [71856]);
   (71889, [71857]); (71890, [71858]); (71891, [71859]); (71892, [71860]);
   (71893, [71861]); (71894, [71862]); (71895, [71863]); (71896, [71864]);
   (71897, [71865]); (71898, [71866]); (71899, [71867]); (71900, [71868]);
   (71901, [71869]); (71902, [71870]); (71903, [71871]); (93792, [93760]);
   (93793, [93761]); (93794, [93762]); (93795, [93763]); (93796, [93764]);
   (93797, [93765]); (93798, [93766]); (93799, [93767]); (93800, [93768]);
   (93801, [93769]); (93802, [93770]); (93803, [93771]); (93804, [93772]);
   (93805, [93773]); (93806, [93774]); (93807, [93775]); (93808, [93776]);
   (93809, [93777]); (93810, [93778]); (93811, [93779]); (93812, [93780]);
   (93813, [93781]); (93814, [93782]); (93815, [93783]); (93816, [93784]);
   (93817, [93785]); (93818, [93786]); (93819, [93787]); (93820, [93788]);
   (93821, [93789]); (93822, [93790]); (93823, [93791]); (125218, [125184]);
   (125219, [125185]); (125220, [125186]); (125221, [125187]); (125222,
   [125188]); (125223, [125189]); (125224, [125190]); (125225, [125191]);
   (125226, [125192]); (125227, [125193]); (125228, [125194]); (125229,
   [125195]); (125230, [125196]); (125231, [125197]); (125232, [125198]);
   (125233, [125199]); (125234, [125200]); (125235, [125201]); (125236,
   [125202]); (125237, [125203]); (125238, [125204]); (125239, [125205]);
   (125240, [125206]); (125241, [125207]); (125242, [125208]); (125243,
   [125209]); (125244, [125210]); (125245, [125211]); (125246, [125212]);
   (125247, [125213]); (125248, [125214]); (125249, [125215]); (125250,
   [125216]); (125251, [125217])
  ]%N.

Definition unicode_upper : list (N * list N) :=
  unicode_upper_1
  ++ unicode_upper_2
  ++ unicode_upper_3
  ++ unicode_upper_4
  ++ unicode_upper_5
  ++ unicode_upper_6.

Definition in_ranges (c : N) (rs : list (N * N)) : bool :=
  existsb (fun r => (r.1 <=? c) && (c <=? r.2))%N rs.

(** [str.isspace], [str.islower] on one code point. *)
Definition u_isspace (c : N) : bool := in_ranges c unicode_whitespace.

Definition u_islower (c : N) : bool := in_ranges c unicode_lowercase.

Definition u_istitle (c : N) : bool := in_ranges c unicode_titlecase.

(** A cased character that is not upper-case: what makes [str.isupper]
    answer no. *)
Definition u_cased_not_upper (c : N) : bool := u_islower c || u_istitle c.

Fixpoint assoc (c : N) (table : list (N * list N)) : option (list N) :=
  match table with
  | [] => None
  | (k, v) :: table' => if (k =? c)%N then Some v else assoc c table'
  end.

(** [str.upper] on one code point. *)
Definition u_toupper (c : N) : list N := default [c] (assoc c unicode_upper).

(** [s.upper()] *)
Definition u_upper (t : list N) : list N := flat_map u_toupper t.

(** [s.lstrip()], [s.rstrip()], [s.strip()] *)
Fixpoint u_lstrip (t : list N) : list N :=
  match t with
  | [] => []
  | c :: t' => if u_isspace c then u_lstrip t' else t
  end.

Fixpoint u_rstrip (t : list N) : list N :=
  match t with
  | [] => []
  | c :: t' =>
      match u_rstrip t' with
      | [] => if u_isspace c then [] else [c]
      | r => c :: r
      end
  end.

Definition u_strip (t : list N) : list N := u_rstrip (u_lstrip t).

(** [s.strip().upper()], the Field Normalizer on one text. *)
Definition u_normalize (t : list N) : list N := u_upper (u_strip t).

(** Whitespace at either end, as [has_edge_whitespace]. *)
Definition u_has_edge_whitespace (t : list N) : bool :=
  from_option u_isspace false (head t) || from_option u_isspace false (last t).

(** Every cased character of the text is upper-case. *)
Definition u_all_upper (t : list N) : bool :=
  forallb (fun c => negb (u_cased_not_upper c)) t.

(** The code points of a text of the ASCII model. *)
Definition codes (s : string) : list N := N_of_ascii <$> chars s.

Definition is_ascii (s : string) : bool :=
  forallb (fun c => (N_of_ascii c <? 128)%N) (chars s).

(** ** Python values and exceptions *)

(** The exceptions the scripts can meet.  All but [KeyboardInterrupt] derive
    from [Exception] ([OutOfBoundsDatetime] is a [ValueError]). *)
Inductive exn : Type :=
  | ValueError (msg : string)
  | TypeError (msg : string)
  | KeyError (key : string)
  | AssertionError (msg : string)
  | OutOfBoundsDatetime (msg : string)
  | FileNotFoundError (path : string)
  | KeyboardInterrupt.

Definition is_Exception (e : exn) : bool :=
  match e with
  | KeyboardInterrupt => false
  | _ => true
  end.

(** A call either returns a value or raises. *)
Inductive result (A : Type) : Type :=
  | Ok (a : A)
  | Raise (e : exn).
Arguments Ok {A} a.
Arguments Raise {A} e.

Definition result_bind {A B} (m : result A) (k : A -> result B) : result B :=
  match m with
  | Ok a => k a
  | Raise e => Raise e
  end.

(** A calendar date, [datetime.date]. *)
Record date : Type := mkDate { year : Z; month : Z; day : Z }.

(** A cell of a data frame.  [NA] stands for the missing value in its three
    spellings (NaN, None, NaT); a [Timestamp] carries nanoseconds since
    1970-01-01T00:00:00 UTC. *)
Inductive cell : Type :=
  | NA
  | Str (s : string)
  | Int (z : Z)
  | Timestamp (ns : Z)
  | Date (d : date).

Global Instance date_eq_dec : EqDecision date.
Proof. solve_decision. Defined.

Global Instance cell_eq_dec : EqDecision cell.
Proof. solve_decision. Defined.

Global Instance date_countable : Countable date.
Proof.
  refine (inj_countable' (fun d => (year d, month d, day d))
                         (fun t => mkDate t.1.1 t.1.2 t.2) _).
  by intros [].
Defined.

Global Instance cell_countable : Countable cell.
Proof.
  refine (inj_countable'
    (fun c => match c with
              | NA => inl ()
              | Str s => inr (inl s)
              | Int z => inr (inr (inl z))
              | Timestamp ns => inr (inr (inr (inl ns)))
              | Date d => inr (inr (inr (inr d)))
              end)
    (fun t => match t with
              | inl _ => NA
              | inr (inl s) => Str s
              | inr (inr (inl z)) => Int z
              | inr (inr (inr (inl ns))) => Timestamp ns
              | inr (inr (inr (inr d))) => Date d
              end) _).
  by intros [].
Defined.

Definition isna (c : cell) : bool :=
  match c with
  | NA => true
  | _ => false
  end.

(** A record: column name to value.  A table is a list of records. *)
Abbreviation row := (gmap string cell).

(** [df[col]] at one row; a column the row lacks reads as missing. *)
Definition col (name : string) (r : row) : cell := default NA (r !! name).

(** [df[col] = f(df[col'])], element by element. *)
Definition assign (name : string) (f : row -> cell) (df : list row) : list row :=
  (fun r => <[name := f r]> r) <$> df.

(** ** Calendar arithmetic behind pandas timestamps

    pandas stores a timestamp as a 64-bit count of nanoseconds and reads the
    calendar fields off it with the routines below (the proleptic Gregorian
    calendar); they are written after the library's C helpers. *)

Local Open Scope Z_scope.

Definition NS_PER_SECOND : Z := 1000000000.
Definition NS_PER_DAY : Z := 86400 * NS_PER_SECOND.

(** Bounds of a timestamp: int64, whose least value is reserved for NaT. *)
Definition TS_MIN : Z := - 2 ^ 63 + 1.
Definition TS_MAX : Z := 2 ^ 63 - 1.

Definition is_leapyear (y : Z) : bool :=
  (Z.land y 3 =? 0) && (negb (Z.rem y 100 =? 0) || (Z.rem y 400 =? 0)).

Definition days_per_month_table (leap : bool) : list Z :=
  if leap then [31; 29; 31; 30; 31; 30; 31; 31; 30; 31; 30; 31]
  else [31; 28; 31; 30; 31; 30; 31; 31; 30; 31; 30; 31].

(** A day count relative to 2000-01-01 split into its 400-year cycle and
    the day within the cycle; both branches round towards minus infinity. *)
Definition cycle400 (d0 : Z) : Z * Z :=
  let c400 := 400 * 365 + 100 - 4 + 1 in
  if d0 >=? 0 then (400 * (d0 ÷ c400), Z.rem d0 c400)
  else
    let r := Z.rem d0 c400 in
    (400 * ((d0 - (c400 - 1)) ÷ c400), if r <? 0 then r + c400 else r).

(** Days since the epoch to (year, day within the year), through the
    400-year cycle anchored at 2000. *)
Definition days_to_yearsdays (days0 : Z) : Z * Z :=
  let '(y, d) := cycle400 (days0 - (365 * 30 + 7)) in
  let '(y, d) :=
    if d >=? 366 then
      let y := y + 100 * ((d - 1) ÷ (100 * 365 + 25 - 1)) in
      let d := Z.rem (d - 1) (100 * 365 + 25 - 1) in
      if d >=? 365 then
        let y := y + 4 * ((d + 1) ÷ (4 * 365 + 1)) in
        let d := Z.rem (d + 1) (4 * 365 + 1) in
        if d >=? 366 then (y + (d - 1) ÷ 365, Z.rem (d - 1) 365)
        else (y, d)
      else (y, d)
    else (y, d) in
  (y + 2000, d).

(** The loop over the month lengths: the first month the remaining days
    fit in.  [i] counts the months passed. *)
Fixpoint find_month (lengths : list Z) (i : Z) (days : Z) : option (Z * Z) :=
  match lengths with
  | [] => None
  | len :: rest =>
      if days <? len then Some (i + 1, days + 1)
      else find_month rest (i + 1) (days - len)
  end.

(** Days since the epoch to a calendar date. *)
Definition set_datetimestruct_days (days : Z) : date :=
  let '(y, d) := days_to_yearsdays days in
  match find_month (days_per_month_table (is_leapyear y)) 0 d with
  | Some (m, dd) => mkDate y m dd
  | None => mkDate y 0 0
  end.

(** A calendar date to days since the epoch. *)
Definition get_datetimestruct_days (dt : date) : Z :=
  let y := year dt - 1970 in
  let days := y * 365 in
  let days :=
    if days >=? 0 then
      let y := y + 1 in
      let days := days + y ÷ 4 in
      let y := y + 68 in
      let days := days - y ÷ 100 in
      let y := y + 300 in
      days + y ÷ 400
    else
      let y := y - 2 in
      let days := days + y ÷ 4 in
      let y := y - 28 in
      let days := days - y ÷ 100 in
      days + y ÷ 400 in
  let lengths := days_per_month_table (is_leapyear (year dt)) in
  days + fold_right Z.add 0 (take (Z.to_nat (month dt - 1)) lengths)
       + (day dt - 1).

(** The calendar date of a timestamp. *)
Definition ts_date (ns : Z) : date := set_datetimestruct_days (ns / NS_PER_DAY).

(** Hour of the day of a timestamp. *)
Definition ts_hour (ns : Z) : Z := (ns mod NS_PER_DAY) / (3600 * NS_PER_SECOND).
Definition ts_minute (ns : Z) : Z := (ns mod (3600 * NS_PER_SECOND)) / (60 * NS_PER_SECOND).
Definition ts_second (ns : Z) : Z := (ns mod (60 * NS_PER_SECOND)) / NS_PER_SECOND.
Definition ts_nanosecond (ns : Z) : Z := ns mod NS_PER_SECOND.

(** Day of the week by Sakamoto's method, Monday = 0. *)
Definition sakamoto_arr : list Z := [0; 3; 2; 5; 0; 3; 5; 1; 4; 6; 2; 4].

Definition dayofweek (y m d : Z) : Z :=
  let y := if m <? 3 then y - 1 else y in
  let dy := (y + y / 4 - y / 100 + y / 400
             + nth (Z.to_nat (m - 1)) sakamoto_arr 0 + d) mod 7 in
  (dy + 6) mod 7.

Definition DAYS_FULL : list string :=
  ["Monday"; "Tuesday"; "Wednesday"; "Thursday"; "Friday"; "Saturday";
   "Sunday"]%string.

Definition MONTHS_FULL : list string :=
  [EmptyString; "January"; "February"; "March"; "April"; "May"; "June"; "July";
   "August"; "September"; "October"; "November"; "December"]%string.

Definition ts_day_name (ns : Z) : string :=
  let dt := ts_date ns in
  nth (Z.to_nat (dayofweek (year dt) (month dt) (day dt))) DAYS_FULL EmptyString.

Definition ts_month_name (ns : Z) : string :=
  nth (Z.to_nat (month (ts_date ns))) MONTHS_FULL EmptyString.

(** ** ISO-8601 text to a timestamp

    The first attempt of [parse_datetime_safe] is
    [pd.to_datetime(x, utc=True, format='ISO8601')].  On text, the model
    reads the extended format
    [YYYY-MM-DD[(T| )hh:mm[:ss[.f]]][Z|(+|-)hh:mm]] (one to nine fraction
    digits) and raises [ValueError] on anything else; with [utc=True] a text
    without offset is taken as UTC and an offset is subtracted. *)

Definition digit_val (c : ascii) : option Z :=
  let n := Z.of_N (N_of_ascii c) in
  if (48 <=? n) && (n <=? 57) then Some (n - 48) else None.

(** Exactly [n] decimal digits. *)
Fixpoint take_digits (n : nat) (acc : Z) (s : string) : option (Z * string) :=
  match n with
  | O => Some (acc, s)
  | S n' =>
      match s with
      | String c s' =>
          match digit_val c with
          | Some d => take_digits n' (10 * acc + d) s'
          | None => None
          end
      | EmptyString => None
      end
  end.

(** Up to [n] decimal digits: the value read, how many, and the rest. *)
Fixpoint take_upto_digits (n : nat) (acc : Z) (k : nat) (s : string)
  : Z * nat * string :=
  match n, s with
  | S n', String c s' =>
      match digit_val c with
      | Some d => take_upto_digits n' (10 * acc + d) (S k) s'
      | None => (acc, k, s)
      end
  | _, _ => (acc, k, s)
  end.

Definition expect (c : ascii) (s : string) : option string :=
  match s with
  | String c' s' => if Ascii.eqb c c' then Some s' else None
  | EmptyString => None
  end.

(** The offset suffix, in seconds east of UTC; nothing may follow it. *)
Definition parse_offset (s : string) : option Z :=
  match s with
  | EmptyString => Some 0
  | String "Z" EmptyString => Some 0
  | String sign s1 =>
      if Ascii.eqb sign "+" || Ascii.eqb sign "-" then
        '(hh, s2) ← take_digits 2 0 s1;
        s3 ← expect ":" s2;
        '(mm, s4) ← take_digits 2 0 s3;
        if String.eqb s4 EmptyString && (hh <? 24) && (mm <? 60) then
          Some ((if Ascii.eqb sign "-" then -1 else 1) * (hh * 3600 + mm * 60))
        else None
      else None
  end.

(** The time of day after the separator: seconds, nanoseconds, the rest. *)
Definition parse_time (s : string) : option (Z * Z * string) :=
  '(hh, s1) ← take_digits 2 0 s;
  s2 ← expect ":" s1;
  '(mi, s3) ← take_digits 2 0 s2;
  '(ss, frac, s4) ←
    match expect ":" s3 with
    | None => Some (0, 0, s3)
    | Some s4 =>
        '(ss, s5) ← take_digits 2 0 s4;
        match expect "." s5 with
        | None => Some (ss, 0, s5)
        | Some s6 =>
            let '(f, k, s7) := take_upto_digits 9 0 0 s6 in
            if (k =? 0)%nat then None
            else Some (ss, f * 10 ^ (9 - Z.of_nat k), s7)
        end
    end;
  if (hh <? 24) && (mi <? 60) && (ss <? 60)
  then Some (hh * 3600 + mi * 60 + ss, frac, s4)
  else None.

Definition valid_date (dt : date) : bool :=
  (1 <=? month dt) && (month dt <=? 12) && (1 <=? day dt)
  && (day dt <=?
        nth (Z.to_nat (month dt - 1))
            (days_per_month_table (is_leapyear (year dt))) 0).

(** The fields of an ISO-8601 text: date, seconds of the day, nanoseconds,
    offset. *)
Definition parse_iso_fields (s : string) : option (date * Z * Z * Z) :=
  '(y, s1) ← take_digits 4 0 s;
  s2 ← expect "-" s1;
  '(m, s3) ← take_digits 2 0 s2;
  s4 ← expect "-" s3;
  '(d, s5) ← take_digits 2 0 s4;
  let dt := mkDate y m d in
  if negb (valid_date dt) then None
  else
    match s5 with
    | EmptyString => Some (dt, 0, 0, 0)
    | String sep s6 =>
        if Ascii.eqb sep "T" || Ascii.eqb sep " " then
          '(secs, frac, s7) ← parse_time s6;
          off ← parse_offset s7;
          Some (dt, secs, frac, off)
        else None
    end.

(** The texts pandas reads as a missing timestamp. *)
Definition nat_strings : list string :=
  ["NaT"; "nat"; "NAT"; "nan"; "NaN"; "NAN"]%string.

Definition iso8601_text (s : string) : result (option Z) :=
  if String.eqb s EmptyString || py_in s nat_strings then Ok None
  else
    match parse_iso_fields s with
    | None => Raise (ValueError "time data doesn't match format")
    | Some (dt, secs, frac, off) =>
        let ns := ((get_datetimestruct_days dt * 86400 + secs - off)
                   * NS_PER_SECOND + frac) in
        if (TS_MIN <=? ns) && (ns <=? TS_MAX) then Ok (Some ns)
        else Raise (OutOfBoundsDatetime "Out of bounds nanosecond timestamp")
    end.

(** ** Text of a value: [str(x)] *)

(** The decimal digits of [n], left-padded with zeros to [width]. *)
Fixpoint zpad (width : nat) (n : Z) : string :=
  match width with
  | O => EmptyString
  | S w => zpad w (n / 10) +:+ String (ascii_of_N (Z.to_N (48 + n mod 10))) EmptyString
  end.

(** [date.isoformat()], YYYY-MM-DD. *)
Definition date_isoformat (d : date) : string :=
  (zpad 4 (year d) +:+ "-" +:+ zpad 2 (month d) +:+ "-" +:+ zpad 2 (day d))%string.

(** [str] of a UTC timestamp: date, time, the fraction when there is one
    (six digits, nine when there are nanoseconds), and the offset. *)
Definition timestamp_str (ns : Z) : string :=
  let f := ts_nanosecond ns in
  (date_isoformat (ts_date ns) +:+ " " +:+ zpad 2 (ts_hour ns) +:+ ":"
   +:+ zpad 2 (ts_minute ns) +:+ ":" +:+ zpad 2 (ts_second ns)
   +:+ (if (f =? 0)%Z then EmptyString
        else if (f mod 1000 =? 0)%Z then "." +:+ zpad 6 (f / 1000)%Z
        else "." +:+ zpad 9 f)
   +:+ "+00:00")%string.

(** [str(x)] of a cell; the missing value of a column read from CSV is the
    float NaN. *)
Definition py_str (c : cell) : string :=
  match c with
  | NA => "nan"%string
  | Str s => s
  | Int z => pretty z
  | Timestamp ns => timestamp_str ns
  | Date d => date_isoformat d
  end.

(** ** The Field Normalizer *)

(** [Series.str.strip()] and [Series.str.upper()], element by element: the
    [.str] accessor maps text and yields the missing value for anything
    that is not text. *)
Definition str_strip (c : cell) : cell :=
  match c with
  | Str s => Str (py_strip s)
  | _ => NA
  end.

Definition str_upper (c : cell) : cell :=
  match c with
  | Str s => Str (py_upper s)
  | _ => NA
  end.

(** [Series.astype(str)] on an object column: every element goes through
    [str], the missing value included. *)
Definition astype_str (c : cell) : cell := Str (py_str c).

(** [clean_airports_dates.py], lines 41 and 69:
    [df[c].str.strip().str.upper()]. *)
Definition normalize_airport (c : cell) : cell := str_upper (str_strip c).

(** [clean_dataset.py], lines 93 and 96:
    [df[c].astype(str).str.strip()], then [df[c].str.upper()]. *)
Definition normalize_departureorarrival (c : cell) : cell :=
  str_upper (str_strip (astype_str c)).

(** A cell whose text, if it is text, is ASCII. *)
Definition cell_is_ascii (c : cell) : bool :=
  match c with
  | Str s => is_ascii s
  | _ => true
  end.

(** ** The Categorical Validator *)

(** [x in ['ARRIVAL', 'DEPARTURE']] for a cell [x]: only text can equal one
    of the labels. *)
Definition cell_in (x : cell) (xs : list string) : bool :=
  match x with
  | Str s => py_in s xs
  | _ => false
  end.

(** [clean_dataset.py], lines 103-105:
    [lambda x: x if x in ['ARRIVAL', 'DEPARTURE'] else None]. *)
Definition validate_departureorarrival (x : cell) : cell :=
  if cell_in x ["ARRIVAL"; "DEPARTURE"]%string then x else NA.

(** ** Timestamp parsing and the derived features *)

Section parse_datetime.
(** The two library calls of [parse_datetime_safe]:
    [pd.to_datetime(x, utc=True, format='ISO8601')] and
    [pd.to_datetime(x, utc=True)].  Each returns a UTC timestamp or NaT
    ([None]), or raises. *)
Variable to_datetime_iso8601 : cell -> result (option Z).
Variable to_datetime : cell -> result (option Z).

(** [clean_dataset.py], lines 31-41.  Both [except:] clauses are bare:
    they catch every exception. *)
Definition parse_datetime_safe (dt_string : cell) : result (option Z) :=
  match to_datetime_iso8601 dt_string with
  | Ok t => Ok t
  | Raise _ =>
      match to_datetime dt_string with
      | Ok t => Ok t
      | Raise _ => Ok None
      end
  end.
End parse_datetime.

(** The ISO-8601 attempt on text and on the missing value; what the library
    does with other values stays a parameter. *)
Definition to_datetime_iso8601_text (other : cell -> result (option Z))
    (c : cell) : result (option Z) :=
  match c with
  | Str s => iso8601_text s
  | NA => Ok None
  | _ => other c
  end.

(** A timestamp or NaT as a cell. *)
Definition ts_cell (t : option Z) : cell := from_option Timestamp NA t.

(** The [.dt] accessors of [clean_dataset.py], lines 62-71, element by
    element; NaT yields the missing value in each of them. *)
Definition dt_hour (c : cell) : cell :=
  match c with
  | Timestamp ns => Int (ts_hour ns)
  | _ => NA
  end.

Definition dt_day_name (c : cell) : cell :=
  match c with
  | Timestamp ns => Str (ts_day_name ns)
  | _ => NA
  end.

Definition dt_month_name (c : cell) : cell :=
  match c with
  | Timestamp ns => Str (ts_month_name ns)
  | _ => NA
  end.

Definition dt_date (c : cell) : cell :=
  match c with
  | Timestamp ns => Date (ts_date ns)
  | _ => NA
  end.

(** ** Sequencing calls that may raise *)

Global Instance result_ret : MRet result := @Ok.
Global Instance result_bind_inst : MBind result :=
  fun A B k m => result_bind m k.
Global Instance result_fmap : FMap result :=
  fun A B f m => result_bind m (fun a => Ok (f a)).

(** [assert cond, msg] *)
Definition py_assert (cond : bool) (msg : string) : result unit :=
  if cond then Ok tt else Raise (AssertionError msg).

(** [Series.apply(f)] written back to its column: [f] runs on the rows in
    order and the first exception it raises ends the call. *)
Fixpoint series_apply (name : string) (f : cell -> result cell)
    (df : list row) : result (list row) :=
  match df with
  | [] => Ok []
  | r :: rest =>
      v ← f (col name r);
      rest' ← series_apply name f rest;
      Ok (<[name := v]> r :: rest')
  end.

(** [df[name]] raises [KeyError] when the records lack the column. *)
Definition has_column (name : string) (df : list row) : bool :=
  forallb (fun r => bool_decide (is_Some (r !! name))) df.

Definition require_column (name : string) (df : list row) : result unit :=
  if has_column name df then Ok tt else Raise (KeyError name).

(** ** [clean_dataset.py] *)

Section clean_dataset.
Variable to_datetime_iso8601 : cell -> result (option Z).
Variable to_datetime : cell -> result (option Z).

(** Step 1, line 45: [df['operationtime'].apply(parse_datetime_safe)]. *)
Definition step1_operationtime (df : list row) : result (list row) :=
  series_apply "operationtime"
    (fun c => ts_cell <$> parse_datetime_safe to_datetime_iso8601 to_datetime c)
    df.

(** Step 2, lines 62-71: the four derived columns. *)
Definition step2_features (df : list row) : list row :=
  let df := assign "hour" (fun r => dt_hour (col "operationtime" r)) df in
  let df := assign "weekday" (fun r => dt_day_name (col "operationtime" r)) df in
  let df := assign "month" (fun r => dt_month_name (col "operationtime" r)) df in
  assign "date" (fun r => dt_date (col "operationtime" r)) df.

(** Step 3, lines 93-105: trim, upper-case, keep the two labels. *)
Definition step3_departureorarrival (df : list row) : list row :=
  let df := assign "departureorarrival"
              (fun r => str_strip (astype_str (col "departureorarrival" r))) df in
  let df := assign "departureorarrival"
              (fun r => str_upper (col "departureorarrival" r)) df in
  assign "departureorarrival"
    (fun r => validate_departureorarrival (col "departureorarrival" r)) df.

(** Line 127: the column holds timestamps and NaT only. *)
Definition is_datetime64_any_dtype (name : string) (df : list row) : bool :=
  forallb (fun r => match col name r with
                    | Timestamp _ | NA => true
                    | _ => false
                    end) df.

(** Line 130: [df[name].dropna().unique()], up to repetition. *)
Definition dropna_values (name : string) (df : list row) : list cell :=
  filter (fun c => isna c = false) (col name <$> df).

(** The three assertions of step 4, lines 122-132. *)
Definition step4_validation (df : list row) : result unit :=
  _ ← py_assert (Z.of_nat (length df) =? 5856) "ERROR: Rows were dropped!";
  _ ← py_assert (is_datetime64_any_dtype "operationtime" df)
        "ERROR: operationtime is not datetime!";
  py_assert
    (forallb (fun v => cell_in v ["ARRIVAL"; "DEPARTURE"]%string)
       (dropna_values "departureorarrival" df))
    "ERROR: Invalid values in departureorarrival!".

(** The script from the loaded table to the table it saves.  The console
    narration is left out, except that its first lookups (lines 19-21)
    raise [KeyError] when a column is missing. *)
Definition clean_dataset (df : list row) : result (list row) :=
  _ ← require_column "operationtime" df;
  _ ← require_column "departureorarrival" df;
  df ← step1_operationtime df;
  let df := step2_features df in
  let df := step3_departureorarrival df in
  _ ← step4_validation df;
  Ok df.
End clean_dataset.

(** ** Deduplication: [DataFrame.drop_duplicates(keep='first')] *)

Section drop_duplicates.
Context `{Countable A}.

(** [duplicated(keep='first')]: one pass with a hash table of the records
    seen so far; a record is flagged when it is already in the table. *)
Fixpoint duplicated_from (seen : gset A) (df : list A) : list bool :=
  match df with
  | [] => []
  | r :: rest =>
      if decide (r ∈ seen) then true :: duplicated_from seen rest
      else false :: duplicated_from ({[r]} ∪ seen) rest
  end.

Definition duplicated (df : list A) : list bool := duplicated_from ∅ df.

(** [df[mask]]: the records whose flag is set. *)
Fixpoint select (mask : list bool) (df : list A) : list A :=
  match mask, df with
  | b :: mask', r :: rest => if b then r :: select mask' rest else select mask' rest
  | _, _ => []
  end.

(** [df[-df.duplicated(keep='first')]] *)
Definition drop_duplicates (df : list A) : list A :=
  select (negb <$> duplicated df) df.

(** The contract in the words of the specification: every record equal to
    an earlier one is removed, the first occurrence stays in its place. *)
Fixpoint first_occurrences (df : list A) : list A :=
  match df with
  | [] => []
  | r :: rest => r :: filter (fun x => x ≠ r) (first_occurrences rest)
  end.
End drop_duplicates.

(** ** Files and console *)

(** What a path holds: a table written by [to_csv], or lines of text. *)
Inductive file : Type :=
  | CsvFile (df : list row)
  | TextFile (lines : list string).

Record world : Type := mkWorld {
  fs : gmap string file;
  stdout : list string
}.

(** A script step: it may change the files and the console, and it returns
    or raises. *)
Definition M (A : Type) : Type := world -> result A * world.

Definition M_ret {A} (a : A) : M A := fun w => (Ok a, w).

Definition M_bind {A B} (m : M A) (k : A -> M B) : M B :=
  fun w =>
    match m w with
    | (Ok a, w') => k a w'
    | (Raise e, w') => (Raise e, w')
    end.

Global Instance M_mret : MRet M := @M_ret.
Global Instance M_mbind : MBind M := fun A B k m => M_bind m k.

(** A pure call that may raise, as a step. *)
Definition lift {A} (r : result A) : M A := fun w => (r, w).

Definition print (line : string) : M unit :=
  fun w => (Ok tt, mkWorld (fs w) (stdout w ++ [line])).

Definition print_lines (lines : list string) : M unit :=
  fun w => (Ok tt, mkWorld (fs w) (stdout w ++ lines)).

(** [df.to_csv(path, index=False)] *)
Definition to_csv (path : string) (df : list row) : M unit :=
  fun w => (Ok tt, mkWorld (<[path := CsvFile df]> (fs w)) (stdout w)).

(** [with open(path, 'w') as f: f.write(...)] *)
Definition write_text (path : string) (lines : list string) : M unit :=
  fun w => (Ok tt, mkWorld (<[path := TextFile lines]> (fs w)) (stdout w)).

(** [try: body except Exception as e: handler(e)]: exceptions outside the
    [Exception] hierarchy pass through. *)
Definition try_except_Exception {A} (body : M A) (handler : exn -> M A) : M A :=
  fun w =>
    match body w with
    | (Raise e, w') => if is_Exception e then handler e w' else (Raise e, w')
    | ok => ok
    end.

(** [str(e)] *)
Definition exn_str (e : exn) : string :=
  match e with
  | ValueError m | TypeError m | AssertionError m | OutOfBoundsDatetime m => m
  | KeyError k => k
  | FileNotFoundError p => p
  | KeyboardInterrupt => EmptyString
  end.

(** [Series.dt.strftime('%Y-%m-%d')], element by element. *)
Definition dt_strftime_ymd (c : cell) : cell :=
  match c with
  | Timestamp ns => Str (date_isoformat (ts_date ns))
  | _ => NA
  end.

(** [df[name] = values], position by position. *)
Definition set_column (name : string) (values : list cell) (df : list row)
  : list row :=
  zip_with (fun r v => <[name := v]> r) df values.

(** ** Loading a table, and the script around [clean_dataset] *)

Section loader.
(** The loader on the text of a file that no [to_csv] of the model wrote. *)
Variable parse_csv : list string -> result (list row).

(** [pd.read_csv(path)] *)
Definition read_csv (path : string) : M (list row) :=
  fun w =>
    match fs w !! path with
    | None => (Raise (FileNotFoundError path), w)
    | Some (CsvFile df) => (Ok df, w)
    | Some (TextFile lines) => (parse_csv lines, w)
    end.

(** [clean_dataset.py] as run: load [data/raw/flights_clean.csv] under the
    project root, clean, save [data/processed/clean_operationtime_departure.csv]. *)
Definition clean_dataset_script
    (to_datetime_iso8601 to_datetime : cell -> result (option Z))
    (project_root : string) : M unit :=
  df ← read_csv (project_root +:+ "/data/raw/flights_clean.csv");
  df ← lift (clean_dataset to_datetime_iso8601 to_datetime df);
  to_csv (project_root +:+ "/data/processed/clean_operationtime_departure.csv") df.
End loader.

(** ** [clean_airports_dates.py] *)

Definition report_file : string :=
  "c:\Users\KOTEK INFORMATIQUE\Desktop\w9\Data_mining_project\reports\flights_cleaned_airports_dates_report.txt".

Section clean_airports_and_dates.
Variable parse_csv : list string -> result (list row).
(** The console narration of a block of source lines: it only reads the
    table, and computing it may raise. *)
Variable narrate : string -> list row -> result (list string).
(** [pd.to_datetime(df['origindate'])] on the whole column. *)
Variable to_datetime_series : list cell -> result (list (option Z)).
(** The text of the summary report, lines 176-259: input and output
    paths, the row count before deduplication, the final table. *)
Variable report_text : string -> string -> nat -> list row -> list string.

Definition narrate_block (lines : string) (df : list row) : M unit :=
  out ← lift (narrate lines df);
  print_lines out.

(** The body of the [try], lines 91-103. *)
Definition clean_origindate (df : list row) : M (option (list row)) :=
  ts ← lift (to_datetime_series (col "origindate" <$> df));
  let df := set_column "origindate" (ts_cell <$> ts) df in
  _ ← narrate_block "93-99" df;
  let df := assign "origindate" (fun r => dt_strftime_ymd (col "origindate" r)) df in
  _ ← print "  SUCCESS: Dates standardized to YYYY-MM-DD format";
  mret (Some df).

(** The handler, lines 105-107: a message, then [return].  [None] records
    that the function has returned. *)
Definition clean_origindate_failed (e : exn) : M (option (list row)) :=
  _ ← print ("  ERROR: cleaning dates: " +:+ exn_str e);
  mret None.

(** Lines 109-264: deduplicate, save the table, write the report. *)
Definition dedup_save_report (input_file output_file : string)
    (df : list row) : M unit :=
  _ ← narrate_block "109-134" df;
  let initial_rows := length df in
  let df := drop_duplicates df in
  _ ← narrate_block "138-166" df;
  _ ← to_csv output_file df;
  _ ← narrate_block "168-173" df;
  _ ← write_text report_file (report_text input_file output_file initial_rows df);
  narrate_block "261-264" df.

Definition clean_airports_and_dates (input_file output_file : string) : M unit :=
  df ← read_csv parse_csv input_file;
  _ ← lift (require_column "departureairport" df);
  _ ← lift (require_column "arrivalairport" df);
  _ ← lift (require_column "origindate" df);
  _ ← narrate_block "13-38" df;
  let df := assign "departureairport"
              (fun r => normalize_airport (col "departureairport" r)) df in
  _ ← narrate_block "43-66" df;
  let df := assign "arrivalairport"
              (fun r => normalize_airport (col "arrivalairport" r)) df in
  _ ← narrate_block "71-87" df;
  parsed ← try_except_Exception (clean_origindate df) clean_origindate_failed;
  match parsed with
  | None => mret tt
  | Some df => dedup_save_report input_file output_file df
  end.
End clean_airports_and_dates.

(** The table as it stands when the [try] of line 90 is entered: both
    airport columns normalized. *)
Definition airports_normalized (df : list row) : list row :=
  assign "arrivalairport" (fun r => normalize_airport (col "arrivalairport" r))
    (assign "departureairport"
       (fun r => normalize_airport (col "departureairport" r)) df).

(** ** Sample records *)

Definition flight (airline : string) (number : Z) (dep arr : string) : row :=
  <["airline" := Str airline]>
    (<["flightnumber" := Int number]>
       (<["departureairport" := Str dep]>
          (<["arrivalairport" := Str arr]> ∅))).

Definition row_A : row := flight "AH" 1002 "ALG" "CDG".
Definition row_B : row := flight "AH" 6190 "ALG" "ORN".
Definition row_C : row := flight "TK" 653 "IST" "ALG".

(** A library call that rejects whatever it is given. *)
Definition unparseable {A B} : A -> result B :=
  fun _ => Raise (ValueError "Unknown datetime string format").

Definition unparseable_cell : cell -> result (option Z) :=
  fun _ => Raise (ValueError "Unknown datetime string format").

(** Two rows of [flights_clean.csv]: one with a timestamp and a label in
    need of trimming, one with a malformed timestamp and no label. *)
Definition sample_flights : list row :=
  [ <["operationtime" := Str "2024-12-05T14:30:00Z"]>
      (<["departureorarrival" := Str "  arrival "]> row_A);
    <["operationtime" := Str "05/12/2024 quarter past two"]>
      (<["departureorarrival" := NA]> row_B) ].

(** The second of them once cleaned: no timestamp, no feature, no label. *)
Definition sample_cleaned_absent : row :=
  <["departureorarrival" := NA]>
    (<["date" := NA]>
       (<["month" := NA]>
          (<["weekday" := NA]>
             (<["hour" := NA]>
                (<["operationtime" := NA]> row_B))))).

(** The first of them once cleaned. *)
Definition sample_cleaned_present : row :=
  <["departureorarrival" := Str "ARRIVAL"]>
    (<["date" := Date (mkDate 2024 12 5)]>
       (<["month" := Str "December"]>
          (<["weekday" := Str "Thursday"]>
             (<["hour" := Int 14]>
                (<["operationtime" := Timestamp 1733409000000000000]> row_A))))).

(** Rows whose origin date does not parse. *)
Definition sample_bad_dates : list row :=
  [ <["origindate" := Str "2024-12-05"]> row_A;
    <["origindate" := Str "not a date"]> row_B;
    <["origindate" := Str "2024-12-05"]> row_A ].

Definition sample_world : world :=
  mkWorld {["flights_clean.csv" := CsvFile sample_bad_dates]} [].

(** A run with silent narration and an empty report text. *)
Definition quiet_narration : string -> list row -> result (list string) :=
  fun _ _ => Ok [].

Definition empty_report : string -> string -> nat -> list row -> list string :=
  fun _ _ _ _ => [].

Definition sample_run : result unit * world :=
  clean_airports_and_dates unparseable quiet_narration unparseable
    empty_report "flights_clean.csv" "flights_cleaned_airports_dates.csv"
    sample_world.

(** ** The diagnostics of [clean_airports_dates.py] *)

(** [[A-Z]] and [[A-Za-z]] on one character. *)
Definition is_AZ (c : ascii) : bool :=
  ((65 <=? N_of_ascii c) && (N_of_ascii c <=? 90))%N.

Definition is_letter (c : ascii) : bool := is_AZ c || py_islower c.

(** [re.match(r'^[A-Z]{3}$', s)]: three capital letters; [$] also matches
    just before a newline that ends the text. *)
Definition re_match_iata (s : string) : bool :=
  match s with
  | String a (String b (String c rest)) =>
      is_AZ a && is_AZ b && is_AZ c
      && (String.eqb rest EmptyString || String.eqb rest (String "010" EmptyString))
  | _ => false
  end.

(** [Series.str.match(r'^[A-Z]{3}$', na=False)], element by element
    ([clean_airports_dates.py], lines 72-73). *)
Definition str_match_iata (c : cell) : bool :=
  match c with
  | Str s => re_match_iata s
  | _ => false
  end.

(** Exactly three letters, of either case. *)
Definition three_letters (s : string) : bool :=
  match s with
  | String a (String b (String c EmptyString)) =>
      is_letter a && is_letter b && is_letter c
  | _ => false
  end.

(** [mask.sum()]: how many flags are set. *)
Fixpoint bool_sum (mask : list bool) : nat :=
  match mask with
  | [] => 0
  | b :: mask' => (if b then 1 else 0) + bool_sum mask'
  end.

(** ** [verify_cleaned_data.py] *)

(** The kinds of value Python's [<] orders among themselves: numbers (the
    missing value of a column read from CSV is the float NaN), text,
    timestamps, dates.  Comparing across kinds raises [TypeError]. *)
Inductive py_kind : Type := KNumber | KText | KTimestamp | KDate.

Global Instance py_kind_eq_dec : EqDecision py_kind.
Proof. solve_decision. Defined.

Definition cell_kind (c : cell) : py_kind :=
  match c with
  | NA | Int _ => KNumber
  | Str _ => KText
  | Timestamp _ => KTimestamp
  | Date _ => KDate
  end.

(** Whether [sorted(xs)] goes through: all values are of one kind.  Only
    the outcome is modelled; the scripts print the sorted list and use it
    for nothing else. *)
Definition sortable (xs : list cell) : bool :=
  match xs with
  | [] => true
  | x :: rest => forallb (fun y => bool_decide (cell_kind y = cell_kind x)) rest
  end.

Definition py_sorted (xs : list cell) : result unit :=
  if sortable xs then Ok tt
  else Raise (TypeError "'<' not supported between instances of 'float' and 'str'").

(** [df[name].unique()]: the values in order of first appearance. *)
Definition unique (name : string) (df : list row) : list cell :=
  drop_duplicates (col name <$> df).

Section verify_cleaned_data.
Variable parse_csv : list string -> result (list row).

(** [verify_cleaned_data.py]: load the cleaned file, look the six columns
    up, sort the distinct weekdays, months and labels (lines 24, 25, 29),
    and report [5856 - len(df)] as the number of rows dropped (line 36),
    which is the value returned here. *)
Definition verify_cleaned_data (project_root : string) : M Z :=
  df ← read_csv parse_csv
         (project_root +:+ "/data/processed/clean_operationtime_departure.csv");
  _ ← lift (require_column "operationtime" df);
  _ ← lift (require_column "hour" df);
  _ ← lift (require_column "weekday" df);
  _ ← lift (py_sorted (unique "weekday" df));
  _ ← lift (require_column "month" df);
  _ ← lift (py_sorted (unique "month" df));
  _ ← lift (require_column "date" df);
  _ ← lift (require_column "departureorarrival" df);
  _ ← lift (py_sorted (unique "departureorarrival" df));
  mret (5856 - Z.of_nat (length df)).
End verify_cleaned_data.

(** ** Further samples *)

(** A column conversion that parses element by element and raises at the
    first element that does not parse. *)
Fixpoint to_datetime_each (p : cell -> result (option Z)) (cs : list cell)
  : result (list (option Z)) :=
  match cs with
  | [] => Ok []
  | c :: rest =>
      t ← p c;
      ts ← to_datetime_each p rest;
      Ok (t :: ts)
  end.

(** Two raw rows that differ only in case and whitespace of the airports. *)
Definition sample_good_dates : list row :=
  [ <["origindate" := Str "2024-12-05"]> (flight "AH" 1002 " alg" "cdg ");
    <["origindate" := Str "2024-12-05"]> (flight "AH" 1002 "ALG" "CDG") ].

Definition sample_good_world : world :=
  mkWorld {["flights_clean.csv" := CsvFile sample_good_dates]} [].

Definition sample_good_run : result unit * world :=
  clean_airports_and_dates unparseable quiet_narration
    (to_datetime_each (to_datetime_iso8601_text unparseable_cell))
    empty_report "flights_clean.csv" "flights_cleaned_airports_dates.csv"
    sample_good_world.

(** The one row the sample run saves. *)
Definition sample_good_saved : row :=
  <["origindate" := Str "2024-12-05"]> (flight "AH" 1002 "ALG" "CDG").

(** A cleaned file with one record without timestamp. *)
Definition sample_cleaned_world : world :=
  mkWorld
    {["/data/processed/clean_operationtime_departure.csv"
      := CsvFile [sample_cleaned_present; sample_cleaned_absent]]} [].

(** A raw file of 5856 rows. *)
Definition sample_full_table : list row :=
  replicate (Z.to_nat 5856)
    (<["operationtime" := Str "2024-12-05T14:30:00Z"]>
       (<["departureorarrival" := Str "  arrival "]> row_A)).

Definition sample_full_world : world :=
  mkWorld {["/data/raw/flights_clean.csv" := CsvFile sample_full_table]} [].

(** * Properties *)

(** ** Text *)

Lemma upper_char_isspace (c : ascii) : py_isspace (upper_char c) = py_isspace c.
Proof. by destruct c as [[] [] [] [] [] [] [] []]. Qed.

Lemma upper_char_not_lower (c : ascii) : py_islower (upper_char c) = false.
Proof. by destruct c as [[] [] [] [] [] [] [] []]. Qed.

Lemma first_char_upper (s : string) :
  first_char (py_upper s) = upper_char <$> first_char s.
Proof. by destruct s. Qed.

Lemma last_char_upper (s : string) :
  last_char (py_upper s) = upper_char <$> last_char s.
Proof.
  induction s as [|c s IH]; [done|].
  simpl. destruct s as [|c' s]; [done|]. exact IH.
Qed.

Lemma no_lowercase_upper (s : string) : no_lowercase (py_upper s) = true.
Proof.
  unfold no_lowercase. induction s as [|c s IH]; [done|].
  simpl. by rewrite upper_char_not_lower, IH.
Qed.

Lemma first_char_lstrip (s : string) :
  from_option py_isspace false (first_char (py_lstrip s)) = false.
Proof.
  induction s as [|c s IH]; [done|].
  simpl. destruct (py_isspace c) eqn:Hc; [exact IH|]. simpl. exact Hc.
Qed.

Lemma last_char_rstrip (s : string) :
  from_option py_isspace false (last_char (py_rstrip s)) = false.
Proof.
  induction s as [|c s IH]; [done|].
  simpl. destruct (py_rstrip s) as [|c' r] eqn:Hr.
  - destruct (py_isspace c) eqn:Hc; [done|]. simpl. exact Hc.
  - exact IH.
Qed.

(** Trimming on the right leaves a first character that is not whitespace
    where it is. *)
Lemma first_char_rstrip (s : string) :
  from_option py_isspace false (first_char s) = false ->
  from_option py_isspace false (first_char (py_rstrip s)) = false.
Proof.
  destruct s as [|c s]; [done|].
  simpl. intros Hc. destruct (py_rstrip s); [|exact Hc].
  rewrite Hc. exact Hc.
Qed.

Lemma strip_no_edge_whitespace (s : string) :
  has_edge_whitespace (py_strip s) = false.
Proof.
  unfold has_edge_whitespace, py_strip.
  rewrite first_char_rstrip by apply first_char_lstrip.
  by rewrite last_char_rstrip.
Qed.

Lemma upper_no_edge_whitespace (s : string) :
  has_edge_whitespace (py_upper s) = has_edge_whitespace s.
Proof.
  unfold has_edge_whitespace.
  rewrite first_char_upper, last_char_upper.
  destruct (first_char s), (last_char s); simpl;
    by rewrite ?upper_char_isspace.
Qed.

Lemma py_in_spec (s : string) (xs : list string) :
  py_in s xs = bool_decide (s ∈ xs).
Proof.
  unfold py_in. induction xs as [|x xs IH]; [done|].
  simpl. rewrite IH. destruct (String.eqb_spec s x) as [->|Hne].
  - simpl. symmetry. apply bool_decide_eq_true. left.
  - simpl. apply bool_decide_ext. rewrite elem_of_cons.
    split; [by right | by intros [?|?]].
Qed.

(** C3. The Categorical Validator: a text value that is one of the labels
    ARRIVAL, DEPARTURE comes back unchanged, any other text value comes back
    missing; the raw value "  arrival " normalizes and validates to
    "ARRIVAL", and "UNKNOWN" validates to the missing value. *)
Theorem validate_departureorarrival_allow_list (s : string) :
  validate_departureorarrival (Str s)
  = (if bool_decide (s ∈ ["ARRIVAL"; "DEPARTURE"]%string) then Str s else NA)
  /\ validate_departureorarrival (normalize_departureorarrival (Str "  arrival "))
     = Str "ARRIVAL"
  /\ validate_departureorarrival (Str "UNKNOWN") = NA.
Proof.
  split; [|split; reflexivity].
  unfold validate_departureorarrival, cell_in. by rewrite py_in_spec.
Qed.

(** ** Text beyond ASCII *)

(** The upper-case table, checked entry by entry: no entry is for a
    whitespace character, none is empty, and none yields whitespace, a
    lower-case or a title-case character. *)
Lemma unicode_upper_checked :
  forallb (fun e => negb (u_isspace e.1)
                    && match e.2 with [] => false | _ => true end
                    && forallb (fun u => negb (u_isspace u)
                                         && negb (u_cased_not_upper u)) e.2)
    unicode_upper = true.
Proof. vm_compute. reflexivity. Qed.

Lemma assoc_In (c : N) (table : list (N * list N)) (v : list N) :
  assoc c table = Some v -> In (c, v) table.
Proof.
  induction table as [|[k w] table IH]; simpl; [discriminate|].
  destruct (N.eqb_spec k c) as [->|_].
  - intros [= ->]. by left.
  - intros H. right. by apply IH.
Qed.

Lemma u_toupper_facts (c : N) :
  u_toupper c <> []
  /\ (u_isspace c = false ->
      forall u, u ∈ u_toupper c -> u_isspace u = false)
  /\ (forall u, u ∈ u_toupper c -> u_cased_not_upper u = true ->
                u = c /\ u_toupper c = [c]).
Proof.
  unfold u_toupper. destruct (assoc c unicode_upper) as [l|] eqn:Hl; simpl.
  - apply assoc_In in Hl.
    pose proof (proj1 (forallb_forall _ _) unicode_upper_checked _ Hl) as Hc.
    simpl in Hc.
    apply andb_true_iff in Hc as [Hc Hall].
    apply andb_true_iff in Hc as [_ Hne].
    rewrite forallb_forall in Hall.
    split; [by destruct l|].
    split.
    + intros _ u Hu%list_elem_of_In. apply Hall in Hu.
      apply andb_true_iff in Hu as [Hu _]. by apply negb_true_iff.
    + intros u Hu%list_elem_of_In Hcased. apply Hall in Hu.
      apply andb_true_iff in Hu as [_ Hu]. by rewrite Hcased in Hu.
  - split; [done|]. split.
    + by intros Hc u ->%list_elem_of_singleton.
    + by intros u ->%list_elem_of_singleton _.
Qed.

Lemma u_lstrip_split (t : list N) :
  exists l, t = (l ++ u_lstrip t)%list /\ forallb u_isspace l = true.
Proof.
  induction t as [|c t [l [Hl Hs]]]; simpl; [by exists []|].
  destruct (u_isspace c) eqn:Hc; [|by exists []].
  exists (c :: l). simpl. rewrite Hc, Hs. by rewrite Hl at 1.
Qed.

Lemma u_rstrip_split (t : list N) :
  exists r, t = (u_rstrip t ++ r)%list /\ forallb u_isspace r = true.
Proof.
  induction t as [|c t [r [Hr Hs]]]; simpl; [by exists []|].
  destruct (u_rstrip t) as [|d k] eqn:Hk.
  - simpl in Hr. subst t.
    destruct (u_isspace c) eqn:Hc; [|by exists r].
    exists (c :: r). simpl. by rewrite Hc, Hs.
  - exists r. split; [|done]. by rewrite Hr at 1.
Qed.

Lemma head_u_lstrip (t : list N) :
  from_option u_isspace false (head (u_lstrip t)) = false.
Proof.
  induction t as [|c t IH]; simpl; [done|].
  destruct (u_isspace c) eqn:Hc; [done|]. simpl. exact Hc.
Qed.

Lemma last_u_rstrip (t : list N) :
  from_option u_isspace false (last (u_rstrip t)) = false.
Proof.
  induction t as [|c t IH]; simpl; [done|].
  destruct (u_rstrip t) as [|d k] eqn:Hk.
  - destruct (u_isspace c) eqn:Hc; [done|]. simpl. exact Hc.
  - exact IH.
Qed.

Lemma head_u_rstrip (t : list N) :
  from_option u_isspace false (head t) = false ->
  from_option u_isspace false (head (u_rstrip t)) = false.
Proof.
  destruct t as [|c t]; simpl; [done|]. intros Hc.
  destruct (u_rstrip t); [|done]. by rewrite Hc.
Qed.

Lemma u_strip_no_edge_whitespace (t : list N) :
  u_has_edge_whitespace (u_strip t) = false.
Proof.
  unfold u_has_edge_whitespace, u_strip.
  rewrite head_u_rstrip by apply head_u_lstrip.
  by rewrite last_u_rstrip.
Qed.

Lemma u_strip_split (t : list N) :
  exists l r, t = (l ++ u_strip t ++ r)%list
              /\ forallb u_isspace l = true /\ forallb u_isspace r = true.
Proof.
  destruct (u_lstrip_split t) as (l & Hl & Hsl).
  destruct (u_rstrip_split (u_lstrip t)) as (r & Hr & Hsr).
  exists l, r. unfold u_strip. by rewrite <- Hr.
Qed.

Lemma u_upper_nil (t : list N) : u_upper t = [] -> t = [].
Proof.
  destruct t as [|c t]; [done|]. simpl. intros [H _]%app_eq_nil.
  by destruct (u_toupper_facts c) as [Hne _].
Qed.

Lemma head_u_upper (t : list N) :
  from_option u_isspace false (head t) = false ->
  from_option u_isspace false (head (u_upper t)) = false.
Proof.
  destruct t as [|c t]; simpl; [done|]. intros Hc.
  destruct (u_toupper_facts c) as (Hne & Hsp & _).
  destruct (u_toupper c) as [|u l]; [done|]. simpl.
  apply (Hsp Hc). left.
Qed.

Lemma last_u_upper (t : list N) :
  from_option u_isspace false (last t) = false ->
  from_option u_isspace false (last (u_upper t)) = false.
Proof.
  induction t as [|c t IH]; [done|].
  destruct t as [|d t].
  - simpl. rewrite app_nil_r. intros Hc.
    destruct (u_toupper_facts c) as (Hne & Hsp & _).
    destruct (last (u_toupper c)) as [u|] eqn:Hu; [|done]. simpl.
    apply (Hsp Hc). by apply last_Some_elem_of.
  - intros Hl. specialize (IH Hl).
    change (u_upper (c :: d :: t)) with (u_toupper c ++ u_upper (d :: t))%list.
    destruct (u_upper (d :: t)) as [|x k] eqn:Hk;
      [by apply u_upper_nil in Hk|].
    by rewrite last_app_cons.
Qed.

Lemma u_normalize_no_edge_whitespace (t : list N) :
  u_has_edge_whitespace (u_normalize t) = false.
Proof.
  pose proof (u_strip_no_edge_whitespace t) as H.
  unfold u_has_edge_whitespace in *. apply orb_false_iff in H as [Hh Hl].
  unfold u_normalize. by rewrite head_u_upper, last_u_upper.
Qed.

Lemma elem_of_u_strip (t : list N) (c : N) : c ∈ u_strip t -> c ∈ t.
Proof.
  intros Hc. destruct (u_strip_split t) as (l & r & Ht & _).
  rewrite Ht, !elem_of_app. auto.
Qed.

(** What [upper] leaves lower-case or title-case is a character of the
    text that has no upper-case form. *)
Lemma u_upper_cased (t : list N) (u : N) :
  u ∈ u_upper t -> u_cased_not_upper u = true -> u ∈ t /\ u_toupper u = [u].
Proof.
  unfold u_upper. rewrite list_elem_of_In, in_flat_map.
  intros (c & Hc%list_elem_of_In & Hu%list_elem_of_In) Hcased.
  destruct (u_toupper_facts c) as (_ & _ & Hup).
  by destruct (Hup u Hu Hcased) as [-> ?].
Qed.

(** On the ASCII range the tables say what the ASCII model says. *)
Lemma ascii_char_agrees (c : ascii) :
  (N_of_ascii c <? 128)%N = true ->
  u_isspace (N_of_ascii c) = py_isspace c
  /\ u_islower (N_of_ascii c) = py_islower c
  /\ u_toupper (N_of_ascii c) = [N_of_ascii (upper_char c)]
  /\ u_cased_not_upper (N_of_ascii (upper_char c)) = false
  /\ (N_of_ascii (upper_char c) <? 128)%N = true
  /\ N_of_ascii (upper_char c)
     = (if (97 <=? N_of_ascii c) && (N_of_ascii c <=? 122)
        then N_of_ascii c - 32 else N_of_ascii c)%N.
Proof.
  destruct c as [[] [] [] [] [] [] [] []]; vm_compute; intros H;
    try discriminate H; by repeat split.
Qed.

Lemma codes_py_upper (s : string) :
  is_ascii s = true -> codes (py_upper s) = u_upper (codes s).
Proof.
  unfold is_ascii, codes.
  induction s as [|c s IH]; [done|].
  cbn [chars forallb py_upper]. rewrite !fmap_cons. cbn [u_upper flat_map].
  intros [Hc Hs]%andb_true_iff.
  destruct (ascii_char_agrees c Hc) as (_ & _ & -> & _).
  rewrite (IH Hs). reflexivity.
Qed.

Lemma is_ascii_py_upper (s : string) :
  is_ascii s = true -> is_ascii (py_upper s) = true.
Proof.
  unfold is_ascii.
  induction s as [|c s IH]; [done|].
  cbn [chars forallb py_upper].
  intros [Hc Hs]%andb_true_iff.
  destruct (ascii_char_agrees c Hc) as (_ & _ & _ & _ & -> & _).
  by apply IH.
Qed.

Lemma codes_py_lstrip (s : string) :
  is_ascii s = true ->
  codes (py_lstrip s) = u_lstrip (codes s) /\ is_ascii (py_lstrip s) = true.
Proof.
  unfold is_ascii, codes.
  induction s as [|c s IH]; [done|].
  cbn [chars forallb py_lstrip]. rewrite fmap_cons. cbn [u_lstrip].
  intros [Hc Hs]%andb_true_iff.
  destruct (ascii_char_agrees c Hc) as (-> & _).
  destruct (py_isspace c); [by apply IH|].
  cbn [chars forallb]. by rewrite fmap_cons, Hc, Hs.
Qed.

Lemma codes_py_rstrip (s : string) :
  is_ascii s = true ->
  codes (py_rstrip s) = u_rstrip (codes s) /\ is_ascii (py_rstrip s) = true.
Proof.
  unfold is_ascii, codes.
  induction s as [|c s IH]; [done|].
  cbn [chars forallb py_rstrip]. rewrite fmap_cons. cbn [u_rstrip].
  intros [Hc Hs]%andb_true_iff.
  destruct (IH Hs) as [IH1 IH2]. rewrite <- IH1.
  destruct (ascii_char_agrees c Hc) as (-> & _).
  destruct (py_rstrip s) as [|d r].
  - cbn [chars]. rewrite fmap_nil.
    destruct (py_isspace c); [done|].
    cbn [chars forallb]. by rewrite fmap_cons, fmap_nil, Hc.
  - cbn [chars forallb] in *. rewrite !fmap_cons. by rewrite Hc, IH2.
Qed.

Lemma codes_py_strip (s : string) :
  is_ascii s = true ->
  codes (py_strip s) = u_strip (codes s) /\ is_ascii (py_strip s) = true.
Proof.
  intros Hs. unfold py_strip, u_strip.
  destruct (codes_py_lstrip s Hs) as [<- Hl].
  by apply codes_py_rstrip.
Qed.

(** The Field Normalizer of the ASCII model computes, on ASCII text, what
    [strip] and [upper] compute on its code points. *)
Lemma codes_normalize (s : string) :
  is_ascii s = true ->
  codes (py_upper (py_strip s)) = u_normalize (codes s)
  /\ is_ascii (py_upper (py_strip s)) = true.
Proof.
  intros Hs. destruct (codes_py_strip s Hs) as [Hc Ha].
  unfold u_normalize. rewrite <- Hc.
  split; [by apply codes_py_upper|by apply is_ascii_py_upper].
Qed.

Lemma u_upper_ascii (s : string) :
  is_ascii s = true ->
  u_upper (codes s)
  = (fun c => if (97 <=? c) && (c <=? 122) then c - 32 else c)%N <$> codes s
  /\ u_all_upper (u_upper (codes s)) = true.
Proof.
  unfold is_ascii, codes, u_all_upper.
  induction s as [|c s IH]; [done|].
  cbn [chars forallb]. rewrite !fmap_cons. cbn [u_upper flat_map].
  intros [Hc Hs]%andb_true_iff.
  destruct (IH Hs) as [IH1 IH2].
  destruct (ascii_char_agrees c Hc) as (_ & _ & -> & Hu & _ & Hv).
  cbn [app forallb]. fold (u_upper (N_of_ascii <$> chars s)).
  rewrite Hu, IH2, IH1. by rewrite Hv.
Qed.

(** Beyond ASCII [upper] can turn a character into an ASCII capital:
    U+017F (long s), f, o becomes S, F, O, and U+FB01 (the ligature fi), x
    becomes F, I, X. *)
Lemma u_normalize_non_ascii_examples :
  u_normalize [383; 102; 111]%N = [83; 70; 79]%N
  /\ u_normalize [64257; 120]%N = [70; 73; 88]%N.
Proof. split; vm_compute; reflexivity. Qed.

(** C4, as the claim states it, fails beyond ASCII: the text of the three
    code points U+0020 (space), U+0061 (a), U+0138 (kra) normalizes to
    U+0041 (A), U+0138, and U+0138 is a lower-case letter that Unicode
    gives no upper-case form. *)
Lemma normalizer_trimmed_upper_counterexample :
  ~ (u_has_edge_whitespace (u_normalize [32; 97; 312]%N) = false
     /\ u_all_upper (u_normalize [32; 97; 312]%N) = true).
Proof. intros [_ H]. vm_compute in H. discriminate H. Qed.

(** C4, amended.  For every text the Field Normalizer (strip, then upper)
    returns the text without its leading and trailing runs of whitespace,
    upper-cased: the result has no whitespace at either end, and a
    character of it that is cased but not upper-case is a character of the
    input without upper-case form, left as it was.  For ASCII text every
    cased character of the result is upper-case: the letters a-z have moved
    to A-Z and every other character is kept.  This is what the normalizers
    of the airport columns (strip, upper) and of departureorarrival (cast
    to text, strip, upper) return. *)
Theorem normalizer_trimmed_upper (t : list N) (s : string) :
  (u_has_edge_whitespace (u_normalize t) = false
   /\ (forall c, c ∈ u_normalize t -> u_cased_not_upper c = true ->
                 c ∈ t /\ u_toupper c = [c])
   /\ (exists l r, t = (l ++ u_strip t ++ r)%list
                   /\ forallb u_isspace l = true /\ forallb u_isspace r = true
                   /\ u_has_edge_whitespace (u_strip t) = false))
  /\ (is_ascii s = true ->
      normalize_airport (Str s) = Str (py_upper (py_strip s))
      /\ normalize_departureorarrival (Str s) = Str (py_upper (py_strip s))
      /\ codes (py_upper (py_strip s)) = u_normalize (codes s)
      /\ u_all_upper (u_normalize (codes s)) = true
      /\ codes (py_upper s)
         = (fun c => if (97 <=? c) && (c <=? 122) then c - 32 else c)%N
           <$> codes s)
  /\ normalize_airport (Str "  alg ") = Str "ALG"
  /\ normalize_departureorarrival (Str " Arrival") = Str "ARRIVAL".
Proof.
  split; [|split; [|by split]].
  - split; [apply u_normalize_no_edge_whitespace|]. split.
    + intros c Hc Hcased.
      destruct (u_upper_cased _ _ Hc Hcased) as [Hin Hup].
      split; [by apply elem_of_u_strip|exact Hup].
    + destruct (u_strip_split t) as (l & r & Ht & Hl & Hr).
      exists l, r. repeat split; try done. apply u_strip_no_edge_whitespace.
  - intros Hs.
    destruct (codes_normalize s Hs) as [Hc Ha].
    destruct (codes_py_strip s Hs) as [Hst Hsa].
    repeat split; [exact Hc| |].
    + unfold u_normalize. rewrite <- Hst. by apply u_upper_ascii.
    + rewrite codes_py_upper by done. by apply u_upper_ascii.
Qed.

Lemma normalizer_trimmed_upper_witness :
  codes "ALG" = u_normalize (codes "  alg ")
  /\ u_all_upper (u_normalize (codes "  alg ")) = true.
Proof.
  destruct (normalizer_trimmed_upper [] "  alg ") as (_ & H & _).
  destruct (H eq_refl) as (_ & _ & Hc & Hu & _).
  split; [exact Hc|exact Hu].
Defined.

(** C5, as the claim states it, fails on departureorarrival: the cast to
    text turns the missing value into the text "nan", which the normalizer
    hands on as "NAN". *)
Lemma normalizer_absent_counterexample :
  ~ (isna NA = true -> normalize_departureorarrival NA = NA).
Proof. intros Hc. specialize (Hc eq_refl). discriminate Hc. Qed.

(** C5, amended.  On the airport columns a missing value stays missing.  On
    departureorarrival the normalizer yields the text "NAN" for a missing
    value, and the allow-list check that follows maps it back to the
    missing value. *)
Theorem normalizer_absent :
  normalize_airport NA = NA
  /\ normalize_departureorarrival NA = Str "NAN"
  /\ validate_departureorarrival (normalize_departureorarrival NA) = NA.
Proof. repeat split. Qed.

(** ** Deduplication *)

Section drop_duplicates_facts.
Context `{Countable A}.
Implicit Types (df : list A) (seen : gset A).

Lemma filter_all df (P : A -> Prop) `{!forall x, Decision (P x)} :
  (forall x, x ∈ df -> P x) -> filter P df = df.
Proof.
  induction df as [|r rest IH]; intros Hall; [done|].
  rewrite filter_cons_True by (apply Hall; left).
  f_equal. apply IH. intros x Hx. apply Hall. by right.
Qed.

(** What the hash-table pass keeps, in terms of the contract: the first
    occurrences that the table did not hold at the start. *)
Lemma select_duplicated_from seen df :
  select (negb <$> duplicated_from seen df) df
  = filter (fun x => x ∉ seen) (first_occurrences df).
Proof.
  revert seen. induction df as [|r rest IH]; intros seen; [done|].
  simpl. destruct (decide (r ∈ seen)) as [Hin|Hnin]; simpl.
  - rewrite IH, filter_cons_False by (intros Hn; by apply Hn).
    rewrite list_filter_filter. apply list_filter_iff.
    intros x. split; [|by intros [? _]].
    intros Hx. split; [done|]. by intros ->.
  - rewrite IH, filter_cons_True by done. f_equal.
    rewrite list_filter_filter. apply list_filter_iff.
    intros x. rewrite not_elem_of_union, not_elem_of_singleton. tauto.
Qed.

Lemma drop_duplicates_first_occurrences df :
  drop_duplicates df = first_occurrences df.
Proof.
  unfold drop_duplicates, duplicated. rewrite select_duplicated_from.
  apply filter_all. intros x _. apply not_elem_of_empty.
Qed.

Lemma elem_of_first_occurrences df x : x ∈ first_occurrences df <-> x ∈ df.
Proof.
  induction df as [|r rest IH]; [done|].
  simpl. rewrite !elem_of_cons, list_elem_of_filter, IH.
  destruct (decide (x = r)); tauto.
Qed.

Lemma NoDup_first_occurrences df : NoDup (first_occurrences df).
Proof.
  induction df as [|r rest IH]; [constructor|].
  simpl. apply NoDup_cons. split.
  - rewrite list_elem_of_filter. by intros [Hne _].
  - by apply NoDup_filter.
Qed.

Lemma sublist_first_occurrences df : first_occurrences df `sublist_of` df.
Proof.
  induction df as [|r rest IH]; [done|].
  simpl. apply sublist_skip. etrans; [apply sublist_filter|exact IH].
Qed.

Lemma first_occurrences_NoDup df : NoDup df -> first_occurrences df = df.
Proof.
  induction 1 as [|r rest Hnin _ IH]; [done|].
  simpl. rewrite IH. f_equal. apply filter_all. by intros x Hx ->.
Qed.

(** The flag of position [i]: the record already occurs before [i]. *)
Lemma duplicated_from_lookup seen df i r :
  df !! i = Some r ->
  duplicated_from seen df !! i
  = Some (bool_decide (r ∈ seen \/ r ∈ take i df)).
Proof.
  revert seen i. induction df as [|r0 rest IH]; intros seen i Hi; [done|].
  destruct i as [|i]; simpl in *.
  - injection Hi as ->. destruct (decide (r ∈ seen)) as [Hin|Hnin]; simpl.
    + f_equal. symmetry. apply bool_decide_eq_true. by left.
    + f_equal. symmetry. apply bool_decide_eq_false.
      intros [?|Hnil]; [done|]. by apply elem_of_nil in Hnil.
  - destruct (decide (r0 ∈ seen)) as [Hin|Hnin]; simpl;
      rewrite (IH _ _ Hi); f_equal; apply bool_decide_ext;
      rewrite elem_of_cons.
    + split; [tauto|]. intros [?|[->|?]]; tauto.
    + rewrite elem_of_union, elem_of_singleton. tauto.
Qed.

Lemma duplicated_lookup df i r :
  df !! i = Some r ->
  duplicated df !! i = Some (bool_decide (r ∈ take i df)).
Proof.
  intros Hi. unfold duplicated. rewrite (duplicated_from_lookup _ _ _ _ Hi).
  f_equal. apply bool_decide_ext. split; [|by right].
  intros [Hemp|?]; [|done]. by apply not_elem_of_empty in Hemp.
Qed.

Lemma first_occurrences_example (a b c : A) :
  a <> b -> a <> c -> b <> c ->
  first_occurrences [a; b; a; c; b] = [a; b; c].
Proof.
  intros Hab Hac Hbc. simpl.
  repeat (first [ rewrite filter_cons_True by congruence
                | rewrite filter_cons_False by (intros Hn; by apply Hn)
                | rewrite filter_nil ]).
  done.
Qed.
End drop_duplicates_facts.

(** C6. [drop_duplicates(keep='first')] on a table of records (two records
    are equal when they agree in every column): the result is the list of
    first occurrences, in the order of the input; the record at position
    [i] is flagged as a duplicate exactly when it occurs before [i]; the
    result has no repetition, holds the same records as the input, and is a
    sub-sequence of it; rows A, B, A, C, B give A, B, C. *)
Theorem drop_duplicates_keeps_first (df : list row) :
  drop_duplicates df = first_occurrences df
  /\ (forall i r, df !! i = Some r ->
        duplicated df !! i = Some (bool_decide (r ∈ take i df)))
  /\ NoDup (drop_duplicates df)
  /\ (forall r, r ∈ drop_duplicates df <-> r ∈ df)
  /\ drop_duplicates df `sublist_of` df
  /\ (forall a b c : row, a <> b -> a <> c -> b <> c ->
        drop_duplicates [a; b; a; c; b] = [a; b; c]).
Proof.
  rewrite drop_duplicates_first_occurrences. repeat split.
  - apply duplicated_lookup.
  - apply NoDup_first_occurrences.
  - apply elem_of_first_occurrences.
  - apply elem_of_first_occurrences.
  - apply sublist_first_occurrences.
  - intros a b c Hab Hac Hbc. rewrite drop_duplicates_first_occurrences.
    by apply first_occurrences_example.
Qed.

Lemma sample_rows_distinct : row_A <> row_B /\ row_A <> row_C /\ row_B <> row_C.
Proof.
  repeat split; intros Heq;
    apply (f_equal (fun m : row => m !! "flightnumber"%string)) in Heq;
    vm_compute in Heq; discriminate Heq.
Qed.

Lemma drop_duplicates_keeps_first_witness :
  drop_duplicates [row_A; row_B; row_A; row_C; row_B] = [row_A; row_B; row_C]
  /\ duplicated [row_A; row_B; row_A; row_C; row_B] !! 2%nat
     = Some (bool_decide (row_A ∈ take 2 [row_A; row_B; row_A; row_C; row_B])).
Proof.
  destruct (drop_duplicates_keeps_first [row_A; row_B; row_A; row_C; row_B])
    as (_ & Hflag & _ & _ & _ & Hex).
  destruct sample_rows_distinct as (Hab & Hac & Hbc).
  split.
  - exact (Hex row_A row_B row_C Hab Hac Hbc).
  - exact (Hflag 2%nat row_A eq_refl).
Defined.

(** C7. Deduplication is idempotent. *)
Theorem drop_duplicates_idempotent (df : list row) :
  drop_duplicates (drop_duplicates df) = drop_duplicates df.
Proof.
  rewrite !drop_duplicates_first_occurrences.
  apply first_occurrences_NoDup, NoDup_first_occurrences.
Qed.

(** ** Calendar fields *)

Lemma ts_hour_range (ns : Z) : 0 <= ts_hour ns <= 23.
Proof.
  unfold ts_hour, NS_PER_DAY, NS_PER_SECOND.
  Z.to_euclidean_division_equations. lia.
Qed.

Lemma dayofweek_range (y m d : Z) : 0 <= dayofweek y m d <= 6.
Proof.
  unfold dayofweek. cbv zeta.
  match goal with
  | |- _ <= ?a mod 7 <= _ => pose proof (Z.mod_pos_bound a 7); lia
  end.
Qed.

Lemma is_leapyear_spec (y : Z) :
  is_leapyear y
  = (y mod 4 =? 0) && (negb (y mod 100 =? 0) || (y mod 400 =? 0)).
Proof.
  unfold is_leapyear.
  change 3 with (Z.ones 2). rewrite Z.land_ones by lia. change (2 ^ 2) with 4.
  f_equal. f_equal; [f_equal|].
  - destruct (Z.eqb_spec (Z.rem y 100) 0), (Z.eqb_spec (y mod 100) 0);
      try done; Z.to_euclidean_division_equations; lia.
  - destruct (Z.eqb_spec (Z.rem y 400) 0), (Z.eqb_spec (y mod 400) 0);
      try done; Z.to_euclidean_division_equations; lia.
Qed.

(** A year written by its place in the 400-year cycle: century [b], group
    of four years [c], year [e] in the group. *)
Lemma is_leapyear_cycle (q b c e : Z) :
  0 <= b <= 3 -> 0 <= c <= 24 -> 0 <= e <= 3 ->
  is_leapyear (400 * q + 100 * b + 4 * c + e + 2000)
  = (e =? 0) && (negb (c =? 0) || (b =? 0)).
Proof.
  intros Hb Hc He. rewrite is_leapyear_spec.
  set (y := 400 * q + 100 * b + 4 * c + e + 2000).
  assert (y mod 4 = e) as ->
    by (subst y; Z.to_euclidean_division_equations; lia).
  assert (y mod 100 = 4 * c + e) as ->
    by (subst y; Z.to_euclidean_division_equations; lia).
  assert (y mod 400 = 100 * b + 4 * c + e) as ->
    by (subst y; Z.to_euclidean_division_equations; lia).
  destruct (Z.eqb_spec e 0), (Z.eqb_spec c 0), (Z.eqb_spec b 0),
    (Z.eqb_spec (4 * c + e) 0), (Z.eqb_spec (100 * b + 4 * c + e) 0);
    simpl; try reflexivity; lia.
Qed.

Lemma cycle400_spec (d0 : Z) :
  cycle400 d0 = (400 * (d0 / 146097), d0 mod 146097).
Proof.
  unfold cycle400. change (400 * 365 + 100 - 4 + 1) with 146097. cbv zeta.
  destruct (Z.geb_spec d0 0).
  - f_equal; [f_equal|]; Z.to_euclidean_division_equations; lia.
  - destruct (Z.ltb_spec (Z.rem d0 146097) 0);
      (f_equal; [f_equal|]); Z.to_euclidean_division_equations; lia.
Qed.

(** The day within the year stays below the length of the year. *)
Lemma days_to_yearsdays_range (days y doy : Z) :
  days_to_yearsdays days = (y, doy) ->
  0 <= doy < 365 + (if is_leapyear y then 1 else 0).
Proof.
  unfold days_to_yearsdays. rewrite cycle400_spec.
  change (100 * 365 + 25 - 1) with 36524.
  change (4 * 365 + 1) with 1461.
  cbv zeta.
  set (q := (days - (365 * 30 + 7)) / 146097).
  set (d := (days - (365 * 30 + 7)) mod 146097).
  assert (0 <= d < 146097) as Hd by (subst d; apply Z.mod_pos_bound; lia).
  clearbody q d.
  destruct (Z.geb_spec d 366) as [H1|H1].
  2:{ intros [= <- <-].
      replace (400 * q + 2000) with (400 * q + 100 * 0 + 4 * 0 + 0 + 2000) by lia.
      rewrite is_leapyear_cycle by lia. simpl. lia. }
  rewrite !Z.quot_div_nonneg, !Z.rem_mod_nonneg by lia.
  set (b := (d - 1) / 36524). set (d1 := (d - 1) mod 36524).
  assert (0 <= b <= 3 /\ 0 <= d1 < 36524 /\ d - 1 = 36524 * b + d1)
    as (Hb & Hd1 & Hbd)
    by (subst b d1; Z.to_euclidean_division_equations; lia).
  clearbody b d1.
  destruct (Z.geb_spec d1 365) as [H2|H2].
  2:{ intros [= <- <-].
      replace (400 * q + 100 * b + 2000)
        with (400 * q + 100 * b + 4 * 0 + 0 + 2000) by lia.
      rewrite is_leapyear_cycle by lia.
      destruct (Z.eqb_spec b 0); simpl; lia. }
  rewrite !Z.quot_div_nonneg, !Z.rem_mod_nonneg by lia.
  set (c := (d1 + 1) / 1461). set (d2 := (d1 + 1) mod 1461).
  assert (0 <= c <= 24 /\ 0 <= d2 < 1461 /\ d1 + 1 = 1461 * c + d2)
    as (Hc & Hd2 & Hcd)
    by (subst c d2; Z.to_euclidean_division_equations; lia).
  clearbody c d2.
  destruct (Z.geb_spec d2 366) as [H3|H3].
  2:{ intros [= <- <-].
      replace (400 * q + 100 * b + 4 * c + 2000)
        with (400 * q + 100 * b + 4 * c + 0 + 2000) by lia.
      rewrite is_leapyear_cycle by lia.
      destruct (Z.eqb_spec c 0); simpl; lia. }
  rewrite !Z.quot_div_nonneg, !Z.rem_mod_nonneg by lia.
  intros [= <- <-].
  pose proof (Z.mod_pos_bound (d2 - 1) 365).
  destruct (is_leapyear _); lia.
Qed.

(** Within a year the loop over the month lengths stops at a month. *)
Lemma find_month_range (leap : bool) (doy : Z) :
  0 <= doy < 365 + (if leap then 1 else 0) ->
  exists m dd, find_month (days_per_month_table leap) 0 doy = Some (m, dd)
               /\ 1 <= m <= 12 /\ 1 <= dd <= 31.
Proof.
  intros Hdoy. destruct leap; simpl;
    repeat (match goal with
            | |- context [?a <? ?b] => destruct (Z.ltb_spec a b)
            end; [eexists _, _; split; [reflexivity|lia]|]);
    lia.
Qed.

Lemma ts_date_month_range (ns : Z) : 1 <= month (ts_date ns) <= 12.
Proof.
  unfold ts_date, set_datetimestruct_days.
  destruct (days_to_yearsdays (ns / NS_PER_DAY)) as [y doy] eqn:Hyd.
  apply days_to_yearsdays_range in Hyd.
  destruct (find_month_range _ _ Hyd) as (m & dd & -> & Hm & _). exact Hm.
Qed.

Lemma ts_day_name_label (ns : Z) : ts_day_name ns ∈ DAYS_FULL.
Proof.
  unfold ts_day_name. cbv zeta.
  pose proof (dayofweek_range (year (ts_date ns)) (month (ts_date ns))
                (day (ts_date ns))) as Hr.
  set (k := dayofweek _ _ _) in *. clearbody k.
  assert (k = 0 \/ k = 1 \/ k = 2 \/ k = 3 \/ k = 4 \/ k = 5 \/ k = 6)
    as Hk by lia.
  unfold DAYS_FULL.
  repeat (destruct Hk as [->|Hk]; [simpl; by repeat constructor|]).
  subst k. simpl. by repeat constructor.
Qed.

Lemma ts_month_name_label (ns : Z) : ts_month_name ns ∈ drop 1 MONTHS_FULL.
Proof.
  unfold ts_month_name.
  pose proof (ts_date_month_range ns) as Hr.
  set (k := month _) in *. clearbody k.
  assert (k = 1 \/ k = 2 \/ k = 3 \/ k = 4 \/ k = 5 \/ k = 6 \/ k = 7
          \/ k = 8 \/ k = 9 \/ k = 10 \/ k = 11 \/ k = 12) as Hk by lia.
  unfold MONTHS_FULL.
  repeat (destruct Hk as [->|Hk]; [simpl; by repeat constructor|]).
  subst k. simpl. by repeat constructor.
Qed.

(** ** The pipeline of [clean_dataset.py] *)

Lemma col_insert (name : string) (v : cell) (r : row) :
  col name (<[name := v]> r) = v.
Proof. unfold col. by rewrite lookup_insert_eq. Qed.

Lemma col_insert_ne (name other : string) (v : cell) (r : row) :
  other <> name -> col name (<[other := v]> r) = col name r.
Proof. intros Hne. unfold col. by rewrite lookup_insert_ne. Qed.

(** Equality of two closed terms by evaluation, without building the
    evaluated terms in the proof. *)
Ltac vm_decide_eq :=
  match goal with
  | |- _ = ?b => vm_cast_no_check (eq_refl b)
  end.

Ltac col_simpl :=
  repeat first [ rewrite col_insert | rewrite col_insert_ne by discriminate ].

Lemma length_assign (name : string) (f : row -> cell) (df : list row) :
  length (assign name f df) = length df.
Proof. apply length_fmap. Qed.

Lemma elem_of_assign (name : string) (f : row -> cell) (df : list row) (r : row) :
  r ∈ assign name f df <-> exists r0, r = <[name := f r0]> r0 /\ r0 ∈ df.
Proof. apply list_elem_of_fmap. Qed.

Lemma series_apply_pure (name : string) (f : cell -> result cell)
    (g : cell -> cell) (df : list row) :
  (forall c, f c = Ok (g c)) ->
  series_apply name f df = Ok (assign name (fun r => g (col name r)) df).
Proof.
  intros Hf. induction df as [|r rest IH]; [done|].
  simpl. rewrite Hf, IH. done.
Qed.

Lemma parse_datetime_safe_value (iso gen : cell -> result (option Z)) (x : cell) :
  parse_datetime_safe iso gen x
  = Ok (match iso x with
        | Ok t => t
        | Raise _ => match gen x with Ok t => t | Raise _ => None end
        end).
Proof. unfold parse_datetime_safe. by destruct (iso x), (gen x). Qed.

(** Step 1 never raises: it assigns a timestamp or NaT to every record. *)
Lemma step1_operationtime_assign (iso gen : cell -> result (option Z))
    (df : list row) :
  exists g : cell -> option Z,
    (forall c, parse_datetime_safe iso gen c = Ok (g c))
    /\ step1_operationtime iso gen df
       = Ok (assign "operationtime"
               (fun r => ts_cell (g (col "operationtime" r))) df).
Proof.
  set (g := fun x => match iso x with
                     | Ok t => t
                     | Raise _ => match gen x with Ok t => t | Raise _ => None end
                     end).
  exists g. split; [intros c; apply parse_datetime_safe_value|].
  unfold step1_operationtime.
  apply (series_apply_pure _ _ (fun c => ts_cell (g c))).
  intros c. by rewrite parse_datetime_safe_value.
Qed.

(** A record of the table after steps 1 to 3, from the record it was. *)
Lemma elem_of_steps (g : cell -> option Z) (df : list row) (r : row) :
  r ∈ step3_departureorarrival
        (step2_features
           (assign "operationtime"
              (fun r => ts_cell (g (col "operationtime" r))) df)) ->
  exists r0, r0 ∈ df
    /\ col "operationtime" r = ts_cell (g (col "operationtime" r0))
    /\ col "hour" r = dt_hour (col "operationtime" r)
    /\ col "weekday" r = dt_day_name (col "operationtime" r)
    /\ col "month" r = dt_month_name (col "operationtime" r)
    /\ col "date" r = dt_date (col "operationtime" r)
    /\ col "departureorarrival" r
       = validate_departureorarrival
           (normalize_departureorarrival (col "departureorarrival" r0)).
Proof.
  unfold step3_departureorarrival, step2_features. cbv zeta.
  intros Hr.
  repeat (let r' := fresh "r" in
          let Heq := fresh "Heq" in
          apply elem_of_assign in Hr as (r' & Heq & Hr);
          rewrite Heq; clear Heq; col_simpl).
  eexists. split; [exact Hr|]. done.
Qed.

Lemma forallb_elem_of {A} (f : A -> bool) (l : list A) :
  forallb f l = true <-> forall x, x ∈ l -> f x = true.
Proof.
  rewrite forallb_forall. split; intros Hf x Hx; apply Hf;
    by apply list_elem_of_In.
Qed.

Lemma ts_cell_cases (t : option Z) :
  ts_cell t = NA \/ exists ns, ts_cell t = Timestamp ns.
Proof. destruct t as [ns|]; [right; by exists ns|by left]. Qed.

Lemma validate_departureorarrival_cases (x : cell) :
  validate_departureorarrival x = NA
  \/ cell_in (validate_departureorarrival x) ["ARRIVAL"; "DEPARTURE"] = true.
Proof.
  unfold validate_departureorarrival.
  destruct (cell_in x _) eqn:Hx; [by right|by left].
Qed.

(** The assertions of lines 127 and 132 hold on every table that went
    through steps 1 to 3. *)
Lemma step4_validation_steps (g : cell -> option Z) (df : list row) :
  let out := step3_departureorarrival
               (step2_features
                  (assign "operationtime"
                     (fun r => ts_cell (g (col "operationtime" r))) df)) in
  step4_validation out
  = py_assert (Z.of_nat (length df) =? 5856) "ERROR: Rows were dropped!".
Proof.
  intros out. unfold step4_validation.
  assert (length out = length df) as ->.
  { unfold out, step3_departureorarrival, step2_features. cbv zeta.
    by rewrite !length_assign. }
  destruct (Z.of_nat (length df) =? 5856); [|done].
  assert (is_datetime64_any_dtype "operationtime" out = true) as ->.
  { apply forallb_elem_of. intros r Hr.
    apply elem_of_steps in Hr as (r0 & _ & -> & _).
    by destruct (g _). }
  assert (forallb (fun v => cell_in v ["ARRIVAL"; "DEPARTURE"])
            (dropna_values "departureorarrival" out) = true) as ->; [|done].
  apply forallb_elem_of. intros v Hv.
  unfold dropna_values in Hv.
  apply list_elem_of_filter in Hv as [Hna Hv].
  apply list_elem_of_fmap in Hv as (r & -> & Hr).
  apply elem_of_steps in Hr as (r0 & _ & _ & _ & _ & _ & _ & Hd).
  rewrite Hd in *.
  destruct (validate_departureorarrival_cases
              (normalize_departureorarrival (col "departureorarrival" r0)))
    as [Hc|Hc]; [|exact Hc].
  by rewrite Hc in Hna.
Qed.

(** What the script does with a table, given what step 1 assigns. *)
Lemma clean_dataset_outcome (iso gen : cell -> result (option Z))
    (g : cell -> option Z) (df : list row) :
  let df1 := assign "operationtime"
               (fun r => ts_cell (g (col "operationtime" r))) df in
  step1_operationtime iso gen df = Ok df1 ->
  clean_dataset iso gen df
  = (if negb (has_column "operationtime" df)
     then Raise (KeyError "operationtime")
     else if negb (has_column "departureorarrival" df)
     then Raise (KeyError "departureorarrival")
     else if Z.of_nat (length df) =? 5856
     then Ok (step3_departureorarrival (step2_features df1))
     else Raise (AssertionError "ERROR: Rows were dropped!")).
Proof.
  intros df1 Hstep. unfold clean_dataset, require_column.
  destruct (has_column "operationtime" df); [|done].
  destruct (has_column "departureorarrival" df); [|done].
  simpl. rewrite Hstep. simpl.
  pose proof (step4_validation_steps g df) as Hval. cbv zeta in Hval.
  fold df1 in Hval. rewrite Hval.
  by destruct (Z.of_nat (length df) =? 5856).
Qed.

(** A run of the script on a file of 5856 rows with both columns saves a
    table of 5856 rows and prints nothing in the model. *)
Lemma clean_dataset_script_saves (parse_csv : list string -> result (list row))
    (iso gen : cell -> result (option Z)) (root : string) (w : world)
    (df : list row) :
  fs w !! (root +:+ "/data/raw/flights_clean.csv") = Some (CsvFile df) ->
  has_column "operationtime" df = true ->
  has_column "departureorarrival" df = true ->
  Z.of_nat (length df) = 5856 ->
  exists out,
    clean_dataset_script parse_csv iso gen root w
    = (Ok tt,
       mkWorld
         (<[root +:+ "/data/processed/clean_operationtime_departure.csv"
            := CsvFile out]> (fs w))
         (stdout w))
    /\ length out = length df.
Proof.
  intros Hread Hc1 Hc2 Hlen.
  destruct (step1_operationtime_assign iso gen df) as (g & _ & Hstep).
  pose proof (clean_dataset_outcome iso gen g df Hstep) as Hout.
  rewrite Hc1, Hc2, Hlen in Hout. simpl in Hout.
  eexists. split.
  - cbv [clean_dataset_script read_csv mbind M_mbind M_bind lift to_csv].
    rewrite Hread, Hout. reflexivity.
  - unfold step3_departureorarrival, step2_features. cbv zeta.
    by rewrite !length_assign.
Qed.

(** C2. After parsing and feature derivation every record holds a
    timestamp or the missing value in operationtime.  When it is missing,
    hour, weekday, month and date are missing too.  When it is a timestamp,
    hour is an integer from 0 to 23, weekday is one of the seven English day
    names, month one of the twelve English month names, and date is the
    calendar date of the timestamp. *)
Theorem derived_features_absent_or_labelled
    (iso gen : cell -> result (option Z)) (df : list row) :
  exists df1,
    step1_operationtime iso gen df = Ok df1
    /\ forall r, r ∈ step3_departureorarrival (step2_features df1) ->
         (col "operationtime" r = NA
          \/ exists ns, col "operationtime" r = Timestamp ns)
         /\ (col "operationtime" r = NA ->
             col "hour" r = NA /\ col "weekday" r = NA
             /\ col "month" r = NA /\ col "date" r = NA)
         /\ (forall ns, col "operationtime" r = Timestamp ns ->
             (exists h, col "hour" r = Int h /\ 0 <= h <= 23)
             /\ (exists w, col "weekday" r = Str w
                   /\ w ∈ ["Monday"; "Tuesday"; "Wednesday"; "Thursday";
                           "Friday"; "Saturday"; "Sunday"])
             /\ (exists m, col "month" r = Str m
                   /\ m ∈ ["January"; "February"; "March"; "April"; "May";
                           "June"; "July"; "August"; "September"; "October";
                           "November"; "December"])
             /\ col "date" r = Date (ts_date ns)).
Proof.
  destruct (step1_operationtime_assign iso gen df) as (g & _ & Hstep).
  eexists. split; [exact Hstep|].
  intros r Hr.
  apply elem_of_steps in Hr as (r0 & _ & Hop & Hh & Hw & Hm & Hd & _).
  rewrite Hh, Hw, Hm, Hd. split; [rewrite Hop; apply ts_cell_cases|].
  split.
  - by intros ->.
  - intros ns ->. simpl. repeat split.
    + eexists. split; [reflexivity|apply ts_hour_range].
    + eexists. split; [reflexivity|apply ts_day_name_label].
    + eexists. split; [reflexivity|apply ts_month_name_label].
Qed.

(** C9. Parsing (step 1) returns for every table and keeps the number of
    rows, and so do feature derivation (step 2), normalization and
    validation of departureorarrival (step 3) and the normalization of an
    airport column.  The script fails only on a missing column or when the
    input does not have the 5856 rows its assertion names; no parse failure
    makes it raise.  Deduplication, the separate stage, never adds rows. *)
Theorem stages_preserve_row_count
    (iso gen : cell -> result (option Z)) (df : list row) :
  exists df1,
    step1_operationtime iso gen df = Ok df1
    /\ length df1 = length df
    /\ length (step2_features df1) = length df
    /\ length (step3_departureorarrival (step2_features df1)) = length df
    /\ (forall name,
          length (assign name (fun r => normalize_airport (col name r)) df)
          = length df)
    /\ clean_dataset iso gen df
       = (if negb (has_column "operationtime" df)
          then Raise (KeyError "operationtime")
          else if negb (has_column "departureorarrival" df)
          then Raise (KeyError "departureorarrival")
          else if Z.of_nat (length df) =? 5856
          then Ok (step3_departureorarrival (step2_features df1))
          else Raise (AssertionError "ERROR: Rows were dropped!"))
    /\ (length (drop_duplicates df) <= length df)%nat.
Proof.
  destruct (step1_operationtime_assign iso gen df) as (g & _ & Hstep).
  eexists. split; [exact Hstep|].
  split; [apply length_assign|].
  split; [unfold step2_features; cbv zeta; by rewrite !length_assign|].
  split; [unfold step3_departureorarrival, step2_features; cbv zeta;
          by rewrite !length_assign|].
  split; [intros name; apply length_assign|].
  split; [by apply clean_dataset_outcome|].
  - apply sublist_length. rewrite drop_duplicates_first_occurrences.
    apply sublist_first_occurrences.
Qed.

(** ** [clean_airports_and_dates] *)

Section clean_airports_and_dates_facts.
Variable parse_csv : list string -> result (list row).
Variable narrate : string -> list row -> result (list string).
Variable to_datetime_series : list cell -> result (list (option Z)).
Variable report_text : string -> string -> nat -> list row -> list string.

Lemma narrate_block_fs (lines : string) (df : list row) (w : world) :
  fs (narrate_block narrate lines df w).2 = fs w.
Proof.
  unfold narrate_block, mbind, M_mbind, M_bind, lift, print_lines.
  by destruct (narrate lines df).
Qed.

(** A failed conversion ends the [try] with the files as they were. *)
Lemma clean_origindate_raises (df : list row) (e : exn) (w : world) :
  to_datetime_series (col "origindate" <$> df) = Raise e ->
  try_except_Exception (clean_origindate narrate to_datetime_series df)
    (clean_origindate_failed) w
  = if is_Exception e
    then (Ok None,
          mkWorld (fs w)
            (stdout w ++ ["  ERROR: cleaning dates: " +:+ exn_str e]))
    else (Raise e, w).
Proof.
  intros Hraise.
  unfold try_except_Exception, clean_origindate, mbind, M_mbind, M_bind, lift.
  rewrite Hraise. by destruct (is_Exception e).
Qed.

(** C10. When the conversion of origindate raises, the run leaves every
    file as it was: neither the output CSV nor the report is written.
    When the narration above the [try] went through, the function returns
    (for an exception of the [Exception] hierarchy; any other passes on
    to the caller) and its last output is the error message: nothing,
    deduplication included, runs after the handler. *)
Theorem conversion_failure_writes_nothing
    (input_file output_file : string) (w : world) (df : list row) (e : exn) :
  fs w !! input_file = Some (CsvFile df) ->
  to_datetime_series (col "origindate" <$> airports_normalized df) = Raise e ->
  let run := clean_airports_and_dates parse_csv narrate to_datetime_series
               report_text input_file output_file w in
  fs run.2 = fs w
  /\ (forall out1 out2 out3,
        has_column "departureairport" df = true ->
        has_column "arrivalairport" df = true ->
        has_column "origindate" df = true ->
        narrate "13-38" df = Ok out1 ->
        narrate "43-66"
          (assign "departureairport"
             (fun r => normalize_airport (col "departureairport" r)) df)
        = Ok out2 ->
        narrate "71-87" (airports_normalized df) = Ok out3 ->
        run.1 = (if is_Exception e then Ok tt else Raise e)
        /\ stdout run.2
           = (stdout w ++ out1 ++ out2 ++ out3
              ++ (if is_Exception e
                  then ["  ERROR: cleaning dates: " +:+ exn_str e]
                  else []))%list).
Proof.
  intros Hread Hraise run. subst run.
  cbv [clean_airports_and_dates read_csv mbind M_mbind M_bind mret M_mret
       M_ret lift require_column narrate_block print_lines].
  rewrite Hread.
  fold (airports_normalized df).
  split.
  - destruct (has_column "departureairport" df); [|done].
    destruct (has_column "arrivalairport" df); [|done].
    destruct (has_column "origindate" df); [|done].
    destruct (narrate "13-38" df); [|done].
    destruct (narrate "43-66" _); [|done].
    destruct (narrate "71-87" _); [|done].
    rewrite (clean_origindate_raises _ e) by exact Hraise.
    by destruct (is_Exception e).
  - intros out1 out2 out3 -> -> -> -> -> ->.
    rewrite (clean_origindate_raises _ e) by exact Hraise.
    destruct (is_Exception e); simpl.
    + split; [done|]. by rewrite <- !app_assoc.
    + split; [done|]. by rewrite <- !app_assoc, app_nil_r.
Qed.
(** For contrast, the run whose conversion succeeds, when each narration
    block goes through on the table it is given: the deduplicated table
    is saved and the report written. *)
Lemma conversion_success_saves_deduplicated
    (input_file output_file : string) (w : world) (df : list row)
    (ts : list (option Z)) :
  fs w !! input_file = Some (CsvFile df) ->
  has_column "departureairport" df = true ->
  has_column "arrivalairport" df = true ->
  has_column "origindate" df = true ->
  to_datetime_series (col "origindate" <$> airports_normalized df) = Ok ts ->
  let run := clean_airports_and_dates parse_csv narrate to_datetime_series
               report_text input_file output_file w in
  let parsed := set_column "origindate" (ts_cell <$> ts)
                  (airports_normalized df) in
  let cleaned := assign "origindate"
                   (fun r => dt_strftime_ymd (col "origindate" r)) parsed in
  let saved := drop_duplicates cleaned in
  Forall (fun block => exists out, narrate block.1 block.2 = Ok out)
    [ ("13-38", df);
      ("43-66", assign "departureairport"
                  (fun r => normalize_airport (col "departureairport" r)) df);
      ("71-87", airports_normalized df);
      ("93-99", parsed);
      ("109-134", cleaned);
      ("138-166", saved);
      ("168-173", saved);
      ("261-264", saved) ] ->
  run.1 = Ok tt
  /\ fs run.2
     = <[report_file :=
           TextFile (report_text input_file output_file (length cleaned) saved)]>
         (<[output_file := CsvFile saved]> (fs w)).
Proof.
  intros Hread Hc1 Hc2 Hc3 Hts run parsed cleaned saved Hnarr.
  subst run saved cleaned parsed.
  repeat match goal with
         | H : Forall _ (_ :: _) |- _ =>
             apply Forall_cons in H as [[? ?] H]
         end.
  clear Hnarr. simpl in *.
  cbv [clean_airports_and_dates read_csv mbind M_mbind M_bind mret M_mret
       M_ret lift require_column narrate_block print_lines
       try_except_Exception clean_origindate dedup_save_report print to_csv
       write_text].
  rewrite Hread, Hc1, Hc2, Hc3. fold (airports_normalized df).
  repeat match goal with
         | H : narrate ?l ?d = Ok _ |- context [narrate ?l ?d] =>
             rewrite H; clear H
         | |- context [to_datetime_series _] => rewrite Hts
         end.
  done.
Qed.
End clean_airports_and_dates_facts.

(** ** Timestamp parsing *)

(** C1. [parse_datetime_safe] returns for every input and never raises.
    What it returns is NaT or the very timestamp one of the two library
    attempts returned; when both attempts raise it is NaT.  With the
    ISO-8601 attempt on text, the empty text and the missing value give
    NaT. *)
Theorem parse_datetime_safe_never_raises
    (iso gen : cell -> result (option Z)) (x : cell) :
  exists t : option Z,
    parse_datetime_safe iso gen x = Ok t
    /\ (t = None \/ iso x = Ok t \/ gen x = Ok t)
    /\ (forall e1 e2, iso x = Raise e1 -> gen x = Raise e2 -> t = None)
    /\ (forall other,
          parse_datetime_safe (to_datetime_iso8601_text other) gen (Str EmptyString)
          = Ok None
          /\ parse_datetime_safe (to_datetime_iso8601_text other) gen NA
             = Ok None).
Proof.
  rewrite parse_datetime_safe_value. eexists. split; [reflexivity|].
  repeat split.
  - destruct (iso x) as [t|e1]; [by right; left|].
    destruct (gen x) as [t|e2]; [by right; right|by left].
  - by intros e1 e2 -> ->.
Qed.

Lemma parse_datetime_safe_never_raises_witness :
  parse_datetime_safe (to_datetime_iso8601_text unparseable_cell)
    unparseable_cell (Str "05/12/2024 quarter past two") = Ok None.
Proof.
  destruct (parse_datetime_safe_never_raises
              (to_datetime_iso8601_text unparseable_cell) unparseable_cell
              (Str "05/12/2024 quarter past two"))
    as (t & Hret & _ & Hfail & _).
  rewrite Hret. f_equal.
  exact (Hfail (ValueError "time data doesn't match format")
               (ValueError "Unknown datetime string format")
               eq_refl eq_refl).
Defined.

(** C8. The text "2024-12-05T14:30:00Z" parses to the instant
    2024-12-05 14:30:00 UTC; a record that holds it in operationtime gets
    hour 14, weekday "Thursday", month "December" and the date 2024-12-05,
    written "2024-12-05". *)
Theorem parse_and_derive_example
    (other gen : cell -> result (option Z)) (r : row) :
  parse_datetime_safe (to_datetime_iso8601_text other) gen
    (Str "2024-12-05T14:30:00Z") = Ok (Some 1733409000000000000)
  /\ exists r1 r2,
       step1_operationtime (to_datetime_iso8601_text other) gen
         [<["operationtime" := Str "2024-12-05T14:30:00Z"]> r] = Ok [r1]
       /\ step2_features [r1] = [r2]
       /\ col "operationtime" r2 = Timestamp 1733409000000000000
       /\ col "hour" r2 = Int 14
       /\ col "weekday" r2 = Str "Thursday"
       /\ col "month" r2 = Str "December"
       /\ col "date" r2 = Date (mkDate 2024 12 5)
       /\ py_str (col "date" r2) = "2024-12-05".
Proof.
  assert (parse_datetime_safe (to_datetime_iso8601_text other) gen
            (Str "2024-12-05T14:30:00Z") = Ok (Some 1733409000000000000))
    as Hparse by (vm_compute; reflexivity).
  split; [exact Hparse|].
  eexists _, _. split.
  { unfold step1_operationtime. simpl. rewrite col_insert, Hparse.
    reflexivity. }
  split; [reflexivity|].
  simpl. col_simpl. repeat split; vm_compute; reflexivity.
Qed.

Lemma sample_flights_cleaned :
  step1_operationtime (to_datetime_iso8601_text unparseable_cell)
    unparseable_cell sample_flights
  = Ok [ <["operationtime" := Timestamp 1733409000000000000]>
           (<["departureorarrival" := Str "  arrival "]> row_A);
         <["operationtime" := NA]> (<["departureorarrival" := NA]> row_B) ]
  /\ step3_departureorarrival
       (step2_features
          [ <["operationtime" := Timestamp 1733409000000000000]>
              (<["departureorarrival" := Str "  arrival "]> row_A);
            <["operationtime" := NA]> (<["departureorarrival" := NA]> row_B) ])
     = [sample_cleaned_present; sample_cleaned_absent].
Proof. split; vm_decide_eq. Qed.

Lemma derived_features_absent_or_labelled_witness :
  (col "hour" sample_cleaned_absent = NA
   /\ col "weekday" sample_cleaned_absent = NA
   /\ col "month" sample_cleaned_absent = NA
   /\ col "date" sample_cleaned_absent = NA)
  /\ (exists h, col "hour" sample_cleaned_present = Int h /\ 0 <= h <= 23).
Proof.
  destruct (derived_features_absent_or_labelled
              (to_datetime_iso8601_text unparseable_cell) unparseable_cell
              sample_flights) as (df1 & Hstep & Hall).
  destruct sample_flights_cleaned as [Hs1 Hs3].
  rewrite Hs1 in Hstep. injection Hstep as <-. rewrite Hs3 in Hall.
  split.
  - apply (Hall sample_cleaned_absent); [|reflexivity].
    right. left.
  - apply (Hall sample_cleaned_present) with 1733409000000000000;
      [left|reflexivity].
Defined.

Lemma conversion_failure_writes_nothing_witness :
  fs sample_run.2 = fs sample_world
  /\ sample_run.1 = Ok tt
  /\ stdout sample_run.2
     = ["  ERROR: cleaning dates: Unknown datetime string format"].
Proof.
  destruct (conversion_failure_writes_nothing unparseable quiet_narration
              unparseable empty_report "flights_clean.csv"
              "flights_cleaned_airports_dates.csv" sample_world
              sample_bad_dates
              (ValueError "Unknown datetime string format"))
    as [Hfs Hrun].
  - reflexivity.
  - reflexivity.
  - split; [exact Hfs|].
    apply (Hrun [] [] []); reflexivity.
Defined.

(** * Further properties *)

Lemma upper_char_idem (c : ascii) : upper_char (upper_char c) = upper_char c.
Proof. by destruct c as [[] [] [] [] [] [] [] []]. Qed.

Lemma py_upper_idem (s : string) : py_upper (py_upper s) = py_upper s.
Proof.
  induction s as [|c s IH]; [done|]. simpl. by rewrite upper_char_idem, IH.
Qed.

Lemma py_lstrip_fixed (s : string) :
  from_option py_isspace false (first_char s) = false -> py_lstrip s = s.
Proof. destruct s as [|c s]; [done|]. simpl. by intros ->. Qed.

Lemma py_rstrip_fixed (s : string) :
  from_option py_isspace false (last_char s) = false -> py_rstrip s = s.
Proof.
  induction s as [|c s IH]; [done|].
  destruct s as [|c' s].
  - simpl. by intros ->.
  - intros Hl. change (last_char (String c (String c' s)))
      with (last_char (String c' s)) in Hl.
    specialize (IH Hl).
    change (py_rstrip (String c (String c' s)))
      with (match py_rstrip (String c' s) with
            | EmptyString => if py_isspace c then EmptyString else String c EmptyString
            | r => String c r
            end).
    by rewrite IH.
Qed.

Lemma py_strip_fixed (s : string) :
  has_edge_whitespace s = false -> py_strip s = s.
Proof.
  unfold has_edge_whitespace. intros [Hf Hl]%orb_false_iff.
  unfold py_strip. rewrite (py_lstrip_fixed _ Hf). by apply py_rstrip_fixed.
Qed.

Lemma py_strip_idem (s : string) : py_strip (py_strip s) = py_strip s.
Proof. apply py_strip_fixed, strip_no_edge_whitespace. Qed.

Lemma py_lstrip_upper (s : string) :
  py_lstrip (py_upper s) = py_upper (py_lstrip s).
Proof.
  induction s as [|c s IH]; [done|].
  simpl. rewrite upper_char_isspace. by destruct (py_isspace c).
Qed.

Lemma py_upper_empty (s : string) : py_upper s = EmptyString -> s = EmptyString.
Proof. by destruct s. Qed.

Lemma py_rstrip_upper (s : string) :
  py_rstrip (py_upper s) = py_upper (py_rstrip s).
Proof.
  induction s as [|c s IH]; [done|].
  simpl. rewrite IH, upper_char_isspace.
  destruct (py_rstrip s) as [|c' r]; simpl; [by destruct (py_isspace c)|done].
Qed.

Lemma py_strip_upper (s : string) :
  py_strip (py_upper s) = py_upper (py_strip s).
Proof. unfold py_strip. by rewrite py_lstrip_upper, py_rstrip_upper. Qed.

Lemma normalize_text_idem (s : string) :
  py_upper (py_strip (py_upper (py_strip s))) = py_upper (py_strip s).
Proof. by rewrite py_strip_upper, py_strip_idem, py_upper_idem. Qed.

Lemma validate_departureorarrival_values (x : cell) :
  validate_departureorarrival x = NA
  \/ validate_departureorarrival x = Str "ARRIVAL"
  \/ validate_departureorarrival x = Str "DEPARTURE".
Proof.
  unfold validate_departureorarrival, cell_in.
  destruct x as [|s| | |]; try by left.
  rewrite py_in_spec. case_bool_decide as Hs; [|by left].
  right. apply elem_of_cons in Hs as [->|Hs]; [by left|].
  apply elem_of_cons in Hs as [->|Hs]; [by right|].
  by apply elem_of_nil in Hs.
Qed.

(** X1. Normalizing twice is normalizing once, for the airport columns and
    for departureorarrival, and so is normalizing and validating a label:
    a file that was cleaned is not changed by cleaning it again. *)
Theorem normalizers_idempotent (c : cell) :
  normalize_airport (normalize_airport c) = normalize_airport c
  /\ normalize_departureorarrival (normalize_departureorarrival c)
     = normalize_departureorarrival c
  /\ validate_departureorarrival
       (normalize_departureorarrival
          (validate_departureorarrival (normalize_departureorarrival c)))
     = validate_departureorarrival (normalize_departureorarrival c).
Proof.
  split; [|split].
  - destruct c; try done. unfold normalize_airport. simpl.
    by rewrite normalize_text_idem.
  - unfold normalize_departureorarrival, astype_str. simpl.
    by rewrite normalize_text_idem.
  - destruct (validate_departureorarrival_values
                (normalize_departureorarrival c)) as [->|[->| ->]];
      reflexivity.
Qed.

(** X2. Trimming and upper-casing commute, and a text that was already
    trimmed or already upper-cased normalizes to the same value as the
    original: raw codes that differ only in case and surrounding whitespace
    get the same cleaned code. *)
Theorem normalizer_order_and_absorption (s : string) :
  py_strip (py_upper s) = py_upper (py_strip s)
  /\ normalize_airport (Str (py_upper s)) = normalize_airport (Str s)
  /\ normalize_airport (Str (py_strip s)) = normalize_airport (Str s)
  /\ normalize_departureorarrival (Str (py_upper s))
     = normalize_departureorarrival (Str s)
  /\ normalize_departureorarrival (Str (py_strip s))
     = normalize_departureorarrival (Str s).
Proof.
  split; [apply py_strip_upper|].
  unfold normalize_airport, normalize_departureorarrival, astype_str. simpl.
  by rewrite py_strip_upper, py_upper_idem, py_strip_idem.
Qed.

Lemma is_AZ_upper_char (c : ascii) : is_AZ (upper_char c) = is_letter c.
Proof. by destruct c as [[] [] [] [] [] [] [] []]. Qed.

Lemma is_AZ_not_space (c : ascii) : is_AZ c = true -> py_isspace c = false.
Proof. by destruct c as [[] [] [] [] [] [] [] []]. Qed.

Lemma is_AZ_is_letter (c : ascii) : is_AZ c = true -> is_letter c = true.
Proof. unfold is_letter. by intros ->. Qed.

Lemma upper_char_newline (c : ascii) :
  upper_char c = "010"%char -> c = "010"%char.
Proof. by destruct c as [[] [] [] [] [] [] [] []]. Qed.

Lemma string_eqb_upper_empty (s : string) :
  String.eqb (py_upper s) EmptyString = String.eqb s EmptyString.
Proof. by destruct s. Qed.

(** On trimmed text the check sees three capital letters after upper-casing
    exactly when the text is three letters. *)
Lemma re_match_iata_upper (t : string) :
  has_edge_whitespace t = false ->
  re_match_iata (py_upper t) = three_letters t.
Proof.
  intros Hedge.
  destruct t as [|a [|b [|c rest]]]; try reflexivity.
  simpl. rewrite !is_AZ_upper_char.
  destruct rest as [|d rest];
    [by destruct (is_letter a), (is_letter b), (is_letter c)|].
  apply andb_false_intro2. simpl.
  destruct rest as [|d' rest].
  - destruct (Ascii.eqb_spec (upper_char d) "010"%char) as [Hd|Hd]; [|done].
    apply upper_char_newline in Hd as ->.
    unfold has_edge_whitespace in Hedge.
    apply orb_false_iff in Hedge as [_ Hl]. simpl in Hl. discriminate Hl.
  - simpl. by destruct (Ascii.eqb (upper_char d) "010"%char).
Qed.

Lemma py_strip_iata (s : string) :
  re_match_iata s = true -> three_letters (py_strip s) = true.
Proof.
  destruct s as [|a [|b [|c rest]]]; try discriminate.
  simpl. intros Hm.
  apply andb_true_iff in Hm as [Hm Hrest].
  apply andb_true_iff in Hm as [Hm Hc].
  apply andb_true_iff in Hm as [Ha Hb].
  assert (py_strip (String a (String b (String c rest)))
          = String a (String b (String c EmptyString))) as ->.
  { unfold py_strip. simpl.
    rewrite (is_AZ_not_space a Ha).
    apply orb_true_iff in Hrest as [->%String.eqb_eq| ->%String.eqb_eq];
      simpl; by rewrite (is_AZ_not_space c Hc). }
  simpl. by rewrite !is_AZ_is_letter.
Qed.

(** X3. For a raw airport cell that is ASCII text, or no text at all, the
    validity check of lines 72-73 on the normalized cell holds exactly when
    the raw cell is text whose trimmed form is three letters of either
    case; a cell that passed the check before normalization passes it
    after, and the normalized cell is ASCII text again. *)
Theorem iata_check_after_normalization (c : cell) :
  cell_is_ascii c = true ->
  str_match_iata (normalize_airport c)
  = match c with
    | Str s => three_letters (py_strip s)
    | _ => false
    end
  /\ implb (str_match_iata c) (str_match_iata (normalize_airport c)) = true
  /\ cell_is_ascii (normalize_airport c) = true.
Proof.
  intros Hascii.
  assert (str_match_iata (normalize_airport c)
          = match c with
            | Str s => three_letters (py_strip s)
            | _ => false
            end) as Hnorm.
  { destruct c as [|s| | |]; try reflexivity.
    unfold normalize_airport. simpl.
    apply re_match_iata_upper, strip_no_edge_whitespace. }
  split; [exact Hnorm|]. split.
  - rewrite Hnorm. destruct c as [|s| | |]; try reflexivity.
    simpl. destruct (re_match_iata s) eqn:Hm; [|done].
    simpl. by apply py_strip_iata.
  - destruct c as [|s| | |]; try reflexivity.
    by apply codes_normalize.
Qed.

Lemma iata_check_after_normalization_witness :
  str_match_iata (normalize_airport (Str " alg")) = true.
Proof.
  by destruct (iata_check_after_normalization (Str " alg") eq_refl) as [-> _].
Defined.

Section dedup_counts.
Context `{Countable A}.
Implicit Types (df : list A) (seen : gset A).

Lemma length_duplicated_from seen df :
  length (duplicated_from seen df) = length df.
Proof.
  revert seen. induction df as [|r rest IH]; intros seen; [done|].
  simpl. destruct (decide (r ∈ seen)); simpl; by rewrite IH.
Qed.

(** Flagged plus kept is all. *)
Lemma select_negb_length (mask : list bool) df :
  length mask = length df ->
  (length (select (negb <$> mask) df) + bool_sum mask = length df)%nat.
Proof.
  revert df. induction mask as [|b mask IH]; intros [|r rest] Hlen;
    try done.
  injection Hlen as Hlen. specialize (IH rest Hlen).
  destruct b; csimpl; lia.
Qed.

Lemma drop_duplicates_count df :
  (length (drop_duplicates df) + bool_sum (duplicated df) = length df)%nat.
Proof.
  unfold drop_duplicates. apply select_negb_length.
  apply length_duplicated_from.
Qed.

Lemma NoDup_sublist_length_eq (l k : list A) :
  l `sublist_of` k -> length l = length k -> l = k.
Proof.
  induction 1 as [|x l k Hs IH|x l k Hs IH]; simpl; intros Hlen.
  - done.
  - f_equal. apply IH. lia.
  - apply sublist_length in Hs. lia.
Qed.

Lemma drop_duplicates_unchanged_iff df :
  drop_duplicates df = df <-> bool_sum (duplicated df) = 0%nat.
Proof.
  pose proof (drop_duplicates_count df) as Hc. split.
  - intros Heq. rewrite Heq in Hc. lia.
  - intros Hz. apply NoDup_sublist_length_eq; [|lia].
    rewrite drop_duplicates_first_occurrences.
    apply sublist_first_occurrences.
Qed.

(** Mapping the records cannot raise the number of distinct ones. *)
Lemma drop_duplicates_fmap_length `{Countable B} (f : A -> B) df :
  (length (drop_duplicates (f <$> df)) <= length (drop_duplicates df))%nat.
Proof.
  rewrite !drop_duplicates_first_occurrences.
  rewrite <- (length_fmap f (first_occurrences df)).
  apply submseteq_length, NoDup_submseteq; [apply NoDup_first_occurrences|].
  intros y Hy. apply (proj1 (elem_of_first_occurrences _ _)) in Hy.
  apply list_elem_of_fmap in Hy as (x & -> & Hx).
  apply list_elem_of_fmap. exists x. split; [done|].
  by apply elem_of_first_occurrences.
Qed.
End dedup_counts.

Lemma airports_normalized_fmap (df : list row) :
  airports_normalized df
  = (fun r =>
       let r1 := <["departureairport" :=
                     normalize_airport (col "departureairport" r)]> r in
       <["arrivalairport" := normalize_airport (col "arrivalairport" r1)]> r1)
    <$> df.
Proof.
  unfold airports_normalized, assign. by rewrite <- list_fmap_compose.
Qed.

(** X4. The two duplicate counts of the script agree: the rows removed by
    [drop_duplicates] (line 138, row count before minus row count after)
    are as many as [duplicated().sum()] flags (line 115).  The table is
    returned unchanged exactly when no row is flagged, which is exactly
    when it has no repeated row. *)
Theorem duplicate_counts_agree (df : list row) :
  Z.of_nat (length df) - Z.of_nat (length (drop_duplicates df))
  = Z.of_nat (bool_sum (duplicated df))
  /\ (drop_duplicates df = df <-> bool_sum (duplicated df) = 0%nat)
  /\ (drop_duplicates df = df <-> NoDup df).
Proof.
  pose proof (drop_duplicates_count df) as Hc.
  split; [lia|]. split; [apply drop_duplicates_unchanged_iff|].
  split.
  - intros <-. rewrite drop_duplicates_first_occurrences.
    apply NoDup_first_occurrences.
  - intros Hnd. rewrite drop_duplicates_first_occurrences.
    by apply first_occurrences_NoDup.
Qed.

(** X5. Normalizing the airport columns never lowers the number of
    duplicate rows: the count taken after cleaning is at least the count
    of line 23 taken before, and the deduplicated table is no longer. *)
Theorem normalization_keeps_duplicates (df : list row) :
  (bool_sum (duplicated df) <= bool_sum (duplicated (airports_normalized df)))%nat
  /\ (length (drop_duplicates (airports_normalized df))
      <= length (drop_duplicates df))%nat.
Proof.
  pose proof (drop_duplicates_count df) as Hc.
  pose proof (drop_duplicates_count (airports_normalized df)) as Hc'.
  assert (length (airports_normalized df) = length df) as Hlen.
  { unfold airports_normalized. by rewrite !length_assign. }
  assert (length (drop_duplicates (airports_normalized df))
          <= length (drop_duplicates df))%nat as Hle.
  { rewrite airports_normalized_fmap. apply drop_duplicates_fmap_length. }
  split; [lia|exact Hle].
Qed.

Lemma lookup_assign (name : string) (f : row -> cell) (df : list row)
    (i : nat) (r' : row) :
  assign name f df !! i = Some r' ->
  exists r, df !! i = Some r /\ r' = <[name := f r]> r.
Proof.
  unfold assign. rewrite list_lookup_fmap.
  destruct (df !! i) as [r|]; [|done].
  intros [= <-]. by exists r.
Qed.

(** X6. Steps 1 to 3 of [clean_dataset.py] keep every record at its
    position and change nothing but the columns operationtime, hour,
    weekday, month, date and departureorarrival: every other column holds
    what was loaded, and the record's columns are the loaded ones plus
    these six. *)
Theorem cleaning_touches_six_columns
    (iso gen : cell -> result (option Z)) (df : list row) :
  exists df1,
    step1_operationtime iso gen df = Ok df1
    /\ forall i r',
         step3_departureorarrival (step2_features df1) !! i = Some r' ->
         exists r,
           df !! i = Some r
           /\ (forall name,
                 name ∉ ["operationtime"; "hour"; "weekday"; "month"; "date";
                         "departureorarrival"] ->
                 r' !! name = r !! name)
           /\ dom r'
              = dom r ∪ list_to_set ["operationtime"; "hour"; "weekday";
                                     "month"; "date"; "departureorarrival"].
Proof.
  destruct (step1_operationtime_assign iso gen df) as (g & _ & Hstep).
  eexists. split; [exact Hstep|].
  intros i r' Hr.
  unfold step3_departureorarrival, step2_features in Hr. cbv zeta in Hr.
  apply lookup_assign in Hr as (r7 & Hr & ->).
  apply lookup_assign in Hr as (r6 & Hr & ->).
  apply lookup_assign in Hr as (r5 & Hr & ->).
  apply lookup_assign in Hr as (r4 & Hr & ->).
  apply lookup_assign in Hr as (r3 & Hr & ->).
  apply lookup_assign in Hr as (r2 & Hr & ->).
  apply lookup_assign in Hr as (r1 & Hr & ->).
  apply lookup_assign in Hr as (r & Hr & ->).
  exists r. split; [exact Hr|]. split.
  - intros name Hname.
    repeat (apply not_elem_of_cons in Hname as [? Hname]).
    by rewrite !lookup_insert_ne by done.
  - rewrite !dom_insert_L. simpl.
    apply set_eq. intros x. rewrite !elem_of_union, !elem_of_singleton.
    rewrite elem_of_empty. tauto.
Qed.

Lemma sortable_kinds (xs : list cell) (x y : cell) :
  sortable xs = true -> x ∈ xs -> y ∈ xs -> cell_kind x = cell_kind y.
Proof.
  destruct xs as [|h rest]; [by intros _ ?%elem_of_nil|].
  simpl. intros Hall Hx Hy.
  assert (forall z, z ∈ h :: rest -> cell_kind z = cell_kind h) as Hk.
  { intros z [->|Hz]%elem_of_cons; [done|].
    rewrite forallb_elem_of in Hall. specialize (Hall z Hz).
    by apply bool_decide_eq_true in Hall. }
  by rewrite (Hk x Hx), (Hk y Hy).
Qed.

Lemma unique_mixed_not_sortable (name : string) (df : list row) (r1 r2 : row) :
  r1 ∈ df -> r2 ∈ df -> cell_kind (col name r1) <> cell_kind (col name r2) ->
  sortable (unique name df) = false.
Proof.
  intros H1 H2 Hne. apply not_true_is_false. intros Hs.
  apply Hne. apply (sortable_kinds _ _ _ Hs); unfold unique;
    rewrite drop_duplicates_first_occurrences;
    apply elem_of_first_occurrences, list_elem_of_fmap; eauto.
Qed.

(** X12. [verify_cleaned_data.py] raises [TypeError] at line 24 when the
    cleaned file holds a record without weekday next to one with a weekday:
    the missing value is a float, and [sorted] cannot order it against
    text. *)
Theorem verify_raises_on_missing_weekday
    (parse_csv : list string -> result (list row)) (root : string)
    (w : world) (df : list row) (r1 r2 : row) (d : string) :
  fs w !! (root +:+ "/data/processed/clean_operationtime_departure.csv")
  = Some (CsvFile df) ->
  has_column "operationtime" df = true ->
  has_column "hour" df = true ->
  has_column "weekday" df = true ->
  r1 ∈ df -> r2 ∈ df ->
  col "weekday" r1 = NA -> col "weekday" r2 = Str d ->
  verify_cleaned_data parse_csv root w
  = (Raise (TypeError "'<' not supported between instances of 'float' and 'str'"),
     w).
Proof.
  intros Hread Hc1 Hc2 Hc3 H1 H2 Hna Hstr.
  cbv [verify_cleaned_data read_csv mbind M_mbind M_bind mret M_mret M_ret
       lift require_column py_sorted].
  rewrite Hread, Hc1, Hc2, Hc3.
  rewrite (unique_mixed_not_sortable "weekday" df r1 r2); [done..|].
  by rewrite Hna, Hstr.
Qed.

(** Every record that went through steps 1 to 3 carries the six columns. *)
Lemma steps_have_columns (g : cell -> option Z) (df : list row) (name : string) :
  name ∈ ["operationtime"; "hour"; "weekday"; "month"; "date";
          "departureorarrival"] ->
  has_column name
    (step3_departureorarrival
       (step2_features
          (assign "operationtime"
             (fun r => ts_cell (g (col "operationtime" r))) df))) = true.
Proof.
  intros Hname. apply forallb_elem_of. intros r Hr.
  apply bool_decide_eq_true.
  unfold step3_departureorarrival, step2_features in Hr. cbv zeta in Hr.
  repeat (apply elem_of_assign in Hr as (? & -> & Hr)).
  repeat (apply elem_of_cons in Hname as [->|Hname];
          [rewrite ?lookup_insert_ne by done; rewrite lookup_insert_eq; eauto|]).
  by apply elem_of_nil in Hname.
Qed.

Lemma read_csv_world (parse_csv : list string -> result (list row))
    (path : string) (w : world) :
  (read_csv parse_csv path w).2 = w.
Proof. unfold read_csv. by destruct (fs w !! path) as [[]|]. Qed.

Lemma clean_dataset_ok (iso gen : cell -> result (option Z))
    (df out : list row) :
  clean_dataset iso gen df = Ok out ->
  exists g : cell -> option Z,
    out = step3_departureorarrival
            (step2_features
               (assign "operationtime"
                  (fun r => ts_cell (g (col "operationtime" r))) df))
    /\ Z.of_nat (length df) = 5856
    /\ length out = length df.
Proof.
  destruct (step1_operationtime_assign iso gen df) as (g & _ & Hstep).
  rewrite (clean_dataset_outcome iso gen g df Hstep).
  destruct (has_column "operationtime" df); [|done].
  destruct (has_column "departureorarrival" df); [|done].
  simpl. destruct (Z.eqb_spec (Z.of_nat (length df)) 5856) as [Hlen|]; [|done].
  intros [= <-]. exists g. split; [done|]. split; [done|].
  unfold step3_departureorarrival, step2_features. cbv zeta.
  by rewrite !length_assign.
Qed.

(** The two ways a run of the script ends. *)
Lemma clean_dataset_script_outcome
    (parse_csv : list string -> result (list row))
    (iso gen : cell -> result (option Z)) (root : string) (w : world) :
  (exists df out,
      read_csv parse_csv (root +:+ "/data/raw/flights_clean.csv") w = (Ok df, w)
      /\ clean_dataset iso gen df = Ok out
      /\ clean_dataset_script parse_csv iso gen root w
         = (Ok tt,
            mkWorld
              (<[root +:+ "/data/processed/clean_operationtime_departure.csv"
                 := CsvFile out]> (fs w))
              (stdout w)))
  \/ (exists e, clean_dataset_script parse_csv iso gen root w = (Raise e, w)).
Proof.
  pose proof (read_csv_world parse_csv
                (root +:+ "/data/raw/flights_clean.csv") w) as Hw.
  cbv [clean_dataset_script mbind M_mbind M_bind lift to_csv].
  destruct (read_csv parse_csv _ w) as [[df|e] w0]; simpl in Hw; subst w0;
    [|right; by exists e].
  destruct (clean_dataset iso gen df) as [out|e] eqn:Hclean;
    [|right; by exists e].
  left. by exists df, out.
Qed.

(** X11. A run of [clean_dataset.py] ends in one of two ways: it saves,
    under its output path, the cleaned form of the table it loaded, which
    has exactly 5856 rows; or it raises and leaves every file as it was.
    It never saves a table that failed an assertion. *)
Theorem clean_dataset_script_all_or_nothing
    (parse_csv : list string -> result (list row))
    (iso gen : cell -> result (option Z)) (root : string) (w : world) :
  let run := clean_dataset_script parse_csv iso gen root w in
  (exists df out,
      read_csv parse_csv (root +:+ "/data/raw/flights_clean.csv") w = (Ok df, w)
      /\ clean_dataset iso gen df = Ok out
      /\ Z.of_nat (length out) = 5856
      /\ run = (Ok tt,
                mkWorld
                  (<[root +:+ "/data/processed/clean_operationtime_departure.csv"
                     := CsvFile out]> (fs w))
                  (stdout w)))
  \/ (exists e, run = (Raise e, w)).
Proof.
  intros run. subst run.
  destruct (clean_dataset_script_outcome parse_csv iso gen root w)
    as [(df & out & Hread & Hclean & Hrun)|Hraise]; [left|by right].
  exists df, out. repeat split; try done.
  apply clean_dataset_ok in Hclean as (g & _ & Hlen & Hlen'). lia.
Qed.

(** X13. Run on the file a successful run of [clean_dataset.py] saved, the
    verification script finds all six columns and either reports 0 rows
    dropped, when the distinct weekdays, months and labels can each be
    sorted, or raises [TypeError]; it never reports a dropped row. *)
Theorem verify_after_cleaning
    (parse_csv : list string -> result (list row))
    (iso gen : cell -> result (option Z)) (root : string) (w : world) :
  (clean_dataset_script parse_csv iso gen root w).1 = Ok tt ->
  let w' := (clean_dataset_script parse_csv iso gen root w).2 in
  exists out,
    fs w' !! (root +:+ "/data/processed/clean_operationtime_departure.csv")
    = Some (CsvFile out)
    /\ verify_cleaned_data parse_csv root w'
       = (if sortable (unique "weekday" out) && sortable (unique "month" out)
             && sortable (unique "departureorarrival" out)
          then Ok 0
          else Raise (TypeError "'<' not supported between instances of 'float' and 'str'"),
          w').
Proof.
  intros Hok w'. subst w'.
  destruct (clean_dataset_script_outcome parse_csv iso gen root w)
    as [(df & out & Hread & Hclean & Hrun)|[e Hraise]];
    [|by rewrite Hraise in Hok].
  rewrite Hrun. cbn [snd fs]. exists out. split; [apply lookup_insert_eq|].
  apply clean_dataset_ok in Hclean as (g & -> & Hlen & Hlen').
  cbv [verify_cleaned_data read_csv mbind M_mbind M_bind mret M_mret M_ret
       lift require_column py_sorted].
  cbn [fs]. rewrite lookup_insert_eq.
  rewrite !steps_have_columns by (repeat constructor).
  rewrite Hlen', Hlen.
  by destruct (sortable (unique "weekday" _)),
    (sortable (unique "month" _)), (sortable (unique "departureorarrival" _)).
Qed.

Lemma NoDup_drop_duplicates `{Countable A} (df : list A) :
  NoDup (drop_duplicates df).
Proof.
  rewrite drop_duplicates_first_occurrences. apply NoDup_first_occurrences.
Qed.

Lemma length_drop_duplicates `{Countable A} (df : list A) :
  (length (drop_duplicates df) <= length df)%nat.
Proof.
  apply sublist_length. rewrite drop_duplicates_first_occurrences.
  apply sublist_first_occurrences.
Qed.

Section clean_airports_and_dates_outcomes.
Variable parse_csv : list string -> result (list row).
Variable narrate : string -> list row -> result (list string).
Variable to_datetime_series : list cell -> result (list (option Z)).
Variable report_text : string -> string -> nat -> list row -> list string.

(** X9. Whatever the input, the narration and the conversion do, the
    effect of a run on the files is that of at most two writes, in this
    order: the table saved under the output path, then the report.  Either
    no file is changed; or the table has been saved and the run has raised;
    or the table has been saved and then the report written.  The saved
    table has no repeated row, and the row count the report is given is at
    least its length. *)
Theorem clean_airports_and_dates_writes_only
    (input_file output_file : string) (w : world) :
  let run := clean_airports_and_dates parse_csv narrate to_datetime_series
               report_text input_file output_file w in
  fs run.2 = fs w
  \/ (exists saved e,
        NoDup saved /\ run.1 = Raise e
        /\ fs run.2 = fs (to_csv output_file saved w).2)
  \/ (exists saved initial_rows,
        NoDup saved /\ (length saved <= initial_rows)%nat
        /\ fs run.2
           = fs (write_text report_file
                   (report_text input_file output_file initial_rows saved)
                   (to_csv output_file saved w).2).2).
Proof.
  intros run. subst run.
  cbv [clean_airports_and_dates read_csv mbind M_mbind M_bind mret M_mret
       M_ret lift require_column narrate_block print_lines
       try_except_Exception clean_origindate clean_origindate_failed
       dedup_save_report print to_csv write_text].
  repeat match goal with
         | |- context [match ?x with _ => _ end] =>
             lazymatch x with
             | context [match _ with _ => _ end] => fail
             | _ => destruct x
             end
         end;
    cbn [fst snd fs];
    first [ by left
          | right; left; do 2 eexists;
            split; [apply NoDup_drop_duplicates|]; split; reflexivity
          | right; right; do 2 eexists;
            split; [apply NoDup_drop_duplicates|];
            split; [apply length_drop_duplicates|reflexivity] ].
Qed.

(** X8. When the loaded table has a row and the three columns, the
    conversion succeeds and each narration block of the run goes through
    on the table it is given, the function returns, its effect on the files
    is that of saving the deduplicated cleaned table under the output path
    and then writing the report, and the saved table has no repeated row
    and no more rows than the input. *)
Theorem successful_run_saves_unique_rows
    (input_file output_file : string) (w : world) (df : list row)
    (ts : list (option Z)) :
  df <> [] ->
  fs w !! input_file = Some (CsvFile df) ->
  has_column "departureairport" df = true ->
  has_column "arrivalairport" df = true ->
  has_column "origindate" df = true ->
  to_datetime_series (col "origindate" <$> airports_normalized df) = Ok ts ->
  let run := clean_airports_and_dates parse_csv narrate to_datetime_series
               report_text input_file output_file w in
  let parsed := set_column "origindate" (ts_cell <$> ts)
                  (airports_normalized df) in
  let cleaned := assign "origindate"
                   (fun r => dt_strftime_ymd (col "origindate" r)) parsed in
  let saved := drop_duplicates cleaned in
  Forall (fun block => exists out, narrate block.1 block.2 = Ok out)
    [ ("13-38", df);
      ("43-66", assign "departureairport"
                  (fun r => normalize_airport (col "departureairport" r)) df);
      ("71-87", airports_normalized df);
      ("93-99", parsed);
      ("109-134", cleaned);
      ("138-166", saved);
      ("168-173", saved);
      ("261-264", saved) ] ->
  run.1 = Ok tt
  /\ fs run.2
     = fs (write_text report_file
             (report_text input_file output_file (length cleaned) saved)
             (to_csv output_file saved w).2).2
  /\ NoDup saved
  /\ (length saved <= length df)%nat.
Proof.
  intros Hne Hread Hc1 Hc2 Hc3 Hts run parsed cleaned saved Hnarr.
  destruct (conversion_success_saves_deduplicated parse_csv narrate
              to_datetime_series report_text input_file output_file w df ts
              Hread Hc1 Hc2 Hc3 Hts Hnarr) as [Hret Hfs].
  split; [exact Hret|]. split; [exact Hfs|].
  split; [apply NoDup_drop_duplicates|].
  etrans; [apply length_drop_duplicates|].
  unfold cleaned, parsed, set_column, airports_normalized.
  rewrite length_assign, length_zip_with, !length_assign. lia.
Qed.

(** X10. A missing input file makes the function raise
    [FileNotFoundError], and a loaded table with at least one row that
    lacks one of departureairport, arrivalairport, origindate makes it
    raise [KeyError] for the first of them that is missing; in both cases
    no file is written. *)
Theorem early_failures_write_nothing
    (input_file output_file : string) (w : world) :
  let run := clean_airports_and_dates parse_csv narrate to_datetime_series
               report_text input_file output_file w in
  (fs w !! input_file = None ->
   run.1 = Raise (FileNotFoundError input_file) /\ fs run.2 = fs w)
  /\ (forall df name,
        df <> [] ->
        fs w !! input_file = Some (CsvFile df) ->
        find (fun n => negb (has_column n df))
          ["departureairport"; "arrivalairport"; "origindate"] = Some name ->
        run.1 = Raise (KeyError name) /\ fs run.2 = fs w).
Proof.
  intros run. subst run.
  cbv [clean_airports_and_dates read_csv mbind M_mbind M_bind lift
       require_column].
  split.
  - by intros ->.
  - intros df name _ -> Hfind. simpl in Hfind.
    destruct (has_column "departureairport" df); simpl in Hfind;
      [|by injection Hfind as <-].
    destruct (has_column "arrivalairport" df); simpl in Hfind;
      [|by injection Hfind as <-].
    destruct (has_column "origindate" df); simpl in Hfind;
      [done|by injection Hfind as <-].
Qed.
End clean_airports_and_dates_outcomes.

Lemma sample_good_dates_cleaned :
  to_datetime_each (to_datetime_iso8601_text unparseable_cell)
    (col "origindate" <$> airports_normalized sample_good_dates)
  = Ok [Some 1733356800000000000; Some 1733356800000000000]
  /\ length (drop_duplicates
               (assign "origindate"
                  (fun r => dt_strftime_ymd (col "origindate" r))
                  (set_column "origindate"
                     (ts_cell <$> [Some 1733356800000000000;
                                   Some 1733356800000000000])
                     (airports_normalized sample_good_dates)))) = 1%nat.
Proof. split; vm_decide_eq. Qed.

Lemma successful_run_saves_unique_rows_witness :
  sample_good_run.1 = Ok tt
  /\ exists saved,
       fs sample_good_run.2 !! "flights_cleaned_airports_dates.csv"
       = Some (CsvFile saved)
       /\ length saved = 1%nat.
Proof.
  destruct sample_good_dates_cleaned as [Hts Hlen].
  destruct (successful_run_saves_unique_rows unparseable quiet_narration
              (to_datetime_each (to_datetime_iso8601_text unparseable_cell))
              empty_report "flights_clean.csv"
              "flights_cleaned_airports_dates.csv" sample_good_world
              sample_good_dates _ ltac:(discriminate) eq_refl eq_refl eq_refl
              eq_refl Hts)
    as (Hret & Hfs & _ & _).
  { repeat constructor; by exists []. }
  split; [exact Hret|].
  eexists. split; [|exact Hlen].
  unfold sample_good_run. rewrite Hfs. cbn [write_text to_csv snd fs].
  rewrite lookup_insert_ne by discriminate. apply lookup_insert_eq.
Defined.

Lemma early_failures_write_nothing_witness :
  (clean_airports_and_dates unparseable quiet_narration unparseable
     empty_report "no_such_file.csv" "out.csv" sample_world).1
  = Raise (FileNotFoundError "no_such_file.csv")
  /\ (clean_airports_and_dates unparseable quiet_narration unparseable
        empty_report "flights.csv" "out.csv"
        (mkWorld {["flights.csv" := CsvFile [row_A]]} [])).1
     = Raise (KeyError "origindate").
Proof.
  split.
  - apply (early_failures_write_nothing unparseable quiet_narration
             unparseable empty_report "no_such_file.csv" "out.csv"
             sample_world).
    reflexivity.
  - apply (early_failures_write_nothing unparseable quiet_narration
             unparseable empty_report "flights.csv" "out.csv"
             (mkWorld {["flights.csv" := CsvFile [row_A]]} []))
      with [row_A]; [discriminate|reflexivity..].
Defined.

(** The days from the epoch to the first of January of a year, in closed
    form. *)
Lemma get_datetimestruct_days_year (dt : date) :
  get_datetimestruct_days dt
  = 365 * (year dt - 1970) + (year dt - 1969) / 4 - (year dt - 1901) / 100
    + (year dt - 1601) / 400
    + fold_right Z.add 0
        (take (Z.to_nat (month dt - 1))
           (days_per_month_table (is_leapyear (year dt))))
    + (day dt - 1).
Proof.
  unfold get_datetimestruct_days. cbv zeta.
  set (tail := fold_right Z.add 0 _). clearbody tail.
  destruct (Z.geb_spec ((year dt - 1970) * 365) 0);
    Z.to_euclidean_division_equations; lia.
Qed.

(** The day count is the first of January of the year found plus the day
    within the year. *)
Lemma days_to_yearsdays_sound (days y doy : Z) :
  days_to_yearsdays days = (y, doy) ->
  days = 365 * (y - 1970) + (y - 1969) / 4 - (y - 1901) / 100
         + (y - 1601) / 400 + doy.
Proof.
  unfold days_to_yearsdays. rewrite cycle400_spec.
  change (100 * 365 + 25 - 1) with 36524.
  change (4 * 365 + 1) with 1461.
  change (365 * 30 + 7) with 10957.
  cbv zeta.
  assert (days = 10957 + 146097 * ((days - 10957) / 146097)
                 + (days - 10957) mod 146097) as Hdays
    by (Z.to_euclidean_division_equations; lia).
  set (q := (days - 10957) / 146097) in *.
  set (d := (days - 10957) mod 146097) in *.
  assert (0 <= d < 146097) as Hd by (subst d; apply Z.mod_pos_bound; lia).
  clearbody q d. subst days.
  destruct (Z.geb_spec d 366) as [H1|H1].
  2:{ intros [= <- <-]. Z.to_euclidean_division_equations; lia. }
  rewrite !Z.quot_div_nonneg, !Z.rem_mod_nonneg by lia.
  set (b := (d - 1) / 36524). set (d1 := (d - 1) mod 36524).
  assert (0 <= b <= 3 /\ 0 <= d1 < 36524 /\ d - 1 = 36524 * b + d1)
    as (Hb & Hd1 & Hbd)
    by (subst b d1; Z.to_euclidean_division_equations; lia).
  clearbody b d1.
  destruct (Z.geb_spec d1 365) as [H2|H2].
  2:{ intros [= <- <-]. Z.to_euclidean_division_equations; lia. }
  rewrite !Z.quot_div_nonneg, !Z.rem_mod_nonneg by lia.
  set (c := (d1 + 1) / 1461). set (d2 := (d1 + 1) mod 1461).
  assert (0 <= c <= 24 /\ 0 <= d2 < 1461 /\ d1 + 1 = 1461 * c + d2)
    as (Hc & Hd2 & Hcd)
    by (subst c d2; Z.to_euclidean_division_equations; lia).
  clearbody c d2.
  destruct (Z.geb_spec d2 366) as [H3|H3].
  2:{ intros [= <- <-]. Z.to_euclidean_division_equations; lia. }
  rewrite !Z.quot_div_nonneg, !Z.rem_mod_nonneg by lia.
  set (e := (d2 - 1) / 365). set (d3 := (d2 - 1) mod 365).
  assert (1 <= e <= 3 /\ 0 <= d3 < 365 /\ d2 - 1 = 365 * e + d3)
    as (He & Hd3 & Hed)
    by (subst e d3; Z.to_euclidean_division_equations; lia).
  clearbody e d3.
  intros [= <- <-]. Z.to_euclidean_division_equations; lia.
Qed.

(** The month found: the days of the months before it and the day in it
    add up to the day within the year. *)
Lemma find_month_sound (leap : bool) (doy : Z) :
  0 <= doy < 365 + (if leap then 1 else 0) ->
  exists m dd,
    find_month (days_per_month_table leap) 0 doy = Some (m, dd)
    /\ 1 <= m <= 12
    /\ 1 <= dd <= nth (Z.to_nat (m - 1)) (days_per_month_table leap) 0
    /\ fold_right Z.add 0
         (take (Z.to_nat (m - 1)) (days_per_month_table leap))
       + (dd - 1) = doy.
Proof.
  intros Hdoy. destruct leap; simpl;
    repeat (match goal with
            | |- context [?a <? ?b] => destruct (Z.ltb_spec a b)
            end;
            [eexists _, _; split; [reflexivity|]; simpl; lia|]);
    lia.
Qed.

Lemma set_datetimestruct_days_sound (days : Z) :
  valid_date (set_datetimestruct_days days) = true
  /\ get_datetimestruct_days (set_datetimestruct_days days) = days.
Proof.
  unfold set_datetimestruct_days.
  destruct (days_to_yearsdays days) as [y doy] eqn:Hyd.
  pose proof (days_to_yearsdays_range _ _ _ Hyd) as Hrange.
  pose proof (days_to_yearsdays_sound _ _ _ Hyd) as Hsound.
  destruct (find_month_sound _ _ Hrange) as (m & dd & -> & Hm & Hdd & Hsum).
  split.
  - unfold valid_date. simpl.
    repeat (apply andb_true_iff; split); apply Z.leb_le; lia.
  - rewrite get_datetimestruct_days_year. simpl. lia.
Qed.

(** Years are laid out one after the other. *)
Lemma year_start_step (y : Z) :
  365 * (y + 1 - 1970) + (y + 1 - 1969) / 4 - (y + 1 - 1901) / 100
  + (y + 1 - 1601) / 400
  = 365 * (y - 1970) + (y - 1969) / 4 - (y - 1901) / 100 + (y - 1601) / 400
    + 365 + (if is_leapyear y then 1 else 0).
Proof.
  rewrite is_leapyear_spec.
  destruct (Z.eqb_spec (y mod 4) 0), (Z.eqb_spec (y mod 100) 0),
    (Z.eqb_spec (y mod 400) 0); simpl;
    Z.to_euclidean_division_equations; lia.
Qed.

Lemma year_start_mono (y y' : Z) :
  y <= y' ->
  365 * (y - 1970) + (y - 1969) / 4 - (y - 1901) / 100 + (y - 1601) / 400
  <= 365 * (y' - 1970) + (y' - 1969) / 4 - (y' - 1901) / 100
     + (y' - 1601) / 400.
Proof. intros Hle. Z.to_euclidean_division_equations. lia. Qed.

Lemma valid_date_day_of_year (dt : date) :
  valid_date dt = true ->
  0 <= fold_right Z.add 0
         (take (Z.to_nat (month dt - 1))
            (days_per_month_table (is_leapyear (year dt))))
       + (day dt - 1)
    < 365 + (if is_leapyear (year dt) then 1 else 0).
Proof.
  unfold valid_date. intros Hv.
  apply andb_true_iff in Hv as [Hv Hd4].
  apply andb_true_iff in Hv as [Hv Hd1].
  apply andb_true_iff in Hv as [Hm1 Hm12].
  apply Z.leb_le in Hm1, Hm12, Hd1, Hd4.
  assert (month dt = 1 \/ month dt = 2 \/ month dt = 3 \/ month dt = 4
          \/ month dt = 5 \/ month dt = 6 \/ month dt = 7 \/ month dt = 8
          \/ month dt = 9 \/ month dt = 10 \/ month dt = 11 \/ month dt = 12)
    as Hm by lia.
  destruct (is_leapyear (year dt));
    repeat (destruct Hm as [Hm|Hm]; [rewrite Hm in *; simpl in *; lia|]);
    rewrite Hm in *; simpl in *; lia.
Qed.

(** A day count has one year and day within the year. *)
Lemma year_start_unique (y1 y2 doy1 doy2 : Z) :
  0 <= doy1 < 365 + (if is_leapyear y1 then 1 else 0) ->
  0 <= doy2 < 365 + (if is_leapyear y2 then 1 else 0) ->
  365 * (y1 - 1970) + (y1 - 1969) / 4 - (y1 - 1901) / 100 + (y1 - 1601) / 400
  + doy1
  = 365 * (y2 - 1970) + (y2 - 1969) / 4 - (y2 - 1901) / 100
    + (y2 - 1601) / 400 + doy2 ->
  y1 = y2 /\ doy1 = doy2.
Proof.
  intros H1 H2 Heq.
  assert (y1 = y2) as ->.
  { destruct (Z.lt_trichotomy y1 y2) as [Hlt|[?|Hgt]]; [|done|].
    - pose proof (year_start_step y1) as Hs.
      pose proof (year_start_mono (y1 + 1) y2 ltac:(lia)). lia.
    - pose proof (year_start_step y2) as Hs.
      pose proof (year_start_mono (y2 + 1) y1 ltac:(lia)). lia. }
  split; [done|lia].
Qed.

(** The loop stops at the month whose days the count falls in. *)
Lemma find_month_take (lengths : list Z) (i : Z) (k : nat) (dd : Z) :
  Forall (fun len => 0 <= len) lengths ->
  (k < length lengths)%nat ->
  1 <= dd <= nth k lengths 0 ->
  find_month lengths i (fold_right Z.add 0 (take k lengths) + (dd - 1))
  = Some (i + Z.of_nat k + 1, dd).
Proof.
  intros Hpos. revert i k.
  induction Hpos as [|len rest Hlen Hrest IH]; intros i k Hk Hdd;
    [simpl in Hk; lia|].
  destruct k as [|k]; simpl in *.
  - destruct (Z.ltb_spec (0 + (dd - 1)) len); [|lia].
    do 2 f_equal; lia.
  - assert (0 <= fold_right Z.add 0 (take k rest)) as Hsum.
    { clear -Hrest. revert k. induction Hrest as [|x l Hx Hl IHl];
        intros [|k]; simpl; try lia. specialize (IHl k). lia. }
    destruct (Z.ltb_spec (len + fold_right Z.add 0 (take k rest) + (dd - 1)) len);
      [lia|].
    replace (len + fold_right Z.add 0 (take k rest) + (dd - 1) - len)
      with (fold_right Z.add 0 (take k rest) + (dd - 1)) by lia.
    rewrite IH by (lia || done). do 2 f_equal; lia.
Qed.

Lemma days_per_month_table_nonneg (leap : bool) :
  Forall (fun len => 0 <= len) (days_per_month_table leap).
Proof. destruct leap; repeat constructor; lia. Qed.

Lemma find_month_unique (leap : bool) (m dd : Z) :
  1 <= m <= 12 ->
  1 <= dd <= nth (Z.to_nat (m - 1)) (days_per_month_table leap) 0 ->
  find_month (days_per_month_table leap) 0
    (fold_right Z.add 0 (take (Z.to_nat (m - 1)) (days_per_month_table leap))
     + (dd - 1))
  = Some (m, dd).
Proof.
  intros Hm Hdd.
  rewrite find_month_take;
    [do 2 f_equal; lia|apply days_per_month_table_nonneg| |done].
  assert (length (days_per_month_table leap) = 12%nat) as ->
    by by destruct leap.
  lia.
Qed.

Lemma get_datetimestruct_days_inv (dt : date) :
  valid_date dt = true ->
  set_datetimestruct_days (get_datetimestruct_days dt) = dt.
Proof.
  intros Hv.
  pose proof (valid_date_day_of_year dt Hv) as Hdoy.
  unfold set_datetimestruct_days.
  destruct (days_to_yearsdays (get_datetimestruct_days dt)) as [y doy] eqn:Hyd.
  pose proof (days_to_yearsdays_range _ _ _ Hyd) as Hrange.
  pose proof (days_to_yearsdays_sound _ _ _ Hyd) as Hsound.
  rewrite get_datetimestruct_days_year in Hsound.
  destruct (year_start_unique (year dt) y _ doy Hdoy Hrange) as [<- <-];
    [lia|].
  unfold valid_date in Hv.
  apply andb_true_iff in Hv as [Hv Hd4].
  apply andb_true_iff in Hv as [Hv Hd1].
  apply andb_true_iff in Hv as [Hm1 Hm12].
  apply Z.leb_le in Hm1, Hm12, Hd1, Hd4.
  rewrite find_month_unique by lia. by destruct dt.
Qed.

(** Sakamoto's formula agrees with counting days from the epoch, a
    Thursday. *)
Lemma dayofweek_days (dt : date) :
  valid_date dt = true ->
  dayofweek (year dt) (month dt) (day dt)
  = (get_datetimestruct_days dt + 3) mod 7.
Proof.
  intros Hv. rewrite get_datetimestruct_days_year.
  unfold valid_date in Hv.
  apply andb_true_iff in Hv as [Hv _].
  apply andb_true_iff in Hv as [Hv _].
  apply andb_true_iff in Hv as [Hm1 Hm12].
  apply Z.leb_le in Hm1, Hm12.
  destruct dt as [y m d]. simpl in *.
  unfold dayofweek. rewrite is_leapyear_spec.
  assert (m = 1 \/ m = 2 \/ m = 3 \/ m = 4 \/ m = 5 \/ m = 6 \/ m = 7
          \/ m = 8 \/ m = 9 \/ m = 10 \/ m = 11 \/ m = 12) as Hcases by lia.
  clear Hm1 Hm12.
  destruct (Z.eqb_spec (y mod 4) 0), (Z.eqb_spec (y mod 100) 0),
    (Z.eqb_spec (y mod 400) 0); simpl;
    repeat (destruct Hcases as [->|Hcases];
            [simpl; Z.to_euclidean_division_equations; lia|]);
    subst m; simpl; Z.to_euclidean_division_equations; lia.
Qed.

Lemma append_cons (c : ascii) (s r : string) :
  String c s +:+ r = String c (s +:+ r).
Proof. reflexivity. Qed.

Lemma append_nil_l (s : string) : EmptyString +:+ s = s.
Proof. reflexivity. Qed.

Lemma append_nil_r (s : string) : s +:+ EmptyString = s.
Proof. induction s as [|c s IH]; [done|]. by rewrite append_cons, IH. Qed.

Lemma append_assoc (s r t : string) : (s +:+ r) +:+ t = s +:+ (r +:+ t).
Proof. induction s as [|c s IH]; [done|]. by rewrite !append_cons, IH. Qed.

(** The character of a decimal digit is read back as the digit. *)
Lemma digit_val_char (x : Z) :
  0 <= x <= 9 -> digit_val (ascii_of_N (Z.to_N (48 + x))) = Some x.
Proof.
  intros Hx.
  assert (x = 0 \/ x = 1 \/ x = 2 \/ x = 3 \/ x = 4 \/ x = 5 \/ x = 6
          \/ x = 7 \/ x = 8 \/ x = 9) as Hc by lia.
  repeat (destruct Hc as [->|Hc]; [reflexivity|]). by subst x.
Qed.

(** Padding writes the digits from the most significant one. *)
Lemma zpad_cons (w : nat) (n : Z) :
  zpad (S w) n
  = String (ascii_of_N (Z.to_N (48 + (n / 10 ^ Z.of_nat w) mod 10))) (zpad w n).
Proof.
  revert n. induction w as [|w IH]; intros n.
  - simpl. by rewrite Z.div_1_r.
  - change (zpad (S (S w)) n)
      with (zpad (S w) (n / 10)
            +:+ String (ascii_of_N (Z.to_N (48 + n mod 10))) EmptyString).
    rewrite IH, append_cons. f_equal.
    do 4 f_equal.
    rewrite Z.div_div by lia. f_equal.
    rewrite Nat2Z.inj_succ, Z.pow_succ_r by lia. done.
Qed.

(** Reading [w] digits off a number padded to [w] digits. *)
Lemma take_digits_zpad (w : nat) (acc n : Z) (rest : string) :
  0 <= n ->
  take_digits w acc (zpad w n +:+ rest)
  = Some (acc * 10 ^ Z.of_nat w + n mod 10 ^ Z.of_nat w, rest).
Proof.
  intros Hn. revert acc. induction w as [|w IH]; intros acc.
  - simpl. rewrite Z.mod_1_r. do 2 f_equal. lia.
  - rewrite zpad_cons, append_cons.
    change (take_digits (S w) acc (String ?c ?s))
      with (match digit_val c with
            | Some d => take_digits w (10 * acc + d) s
            | None => None
            end).
    rewrite digit_val_char
      by (pose proof (Z.mod_pos_bound (n / 10 ^ Z.of_nat w) 10); lia).
    rewrite IH. do 2 f_equal.
    rewrite Nat2Z.inj_succ, Z.pow_succ_r by lia.
    set (p := 10 ^ Z.of_nat w).
    assert (0 < p) by (subst p; apply Z.pow_pos_nonneg; lia).
    rewrite (Z.mul_comm 10 p), Z.rem_mul_r by lia.
    lia.
Qed.

Lemma take_digits_zpad_exact (w : nat) (n : Z) (rest : string) :
  0 <= n < 10 ^ Z.of_nat w ->
  take_digits w 0 (zpad w n +:+ rest) = Some (n, rest).
Proof.
  intros Hn. rewrite take_digits_zpad by lia.
  rewrite Z.mod_small by lia. do 2 f_equal.
Qed.

Lemma zpad_first_digit (w : nat) (n : Z) (rest : string) :
  exists x s, 0 <= x <= 9
    /\ zpad (S w) n +:+ rest = String (ascii_of_N (Z.to_N (48 + x))) s.
Proof.
  rewrite zpad_cons, append_cons. eexists _, _. split; [|reflexivity].
  pose proof (Z.mod_pos_bound (n / 10 ^ Z.of_nat w) 10). lia.
Qed.

(** A text that starts with a digit is none of the missing-value texts. *)
Lemma digit_text_not_nat (x : Z) (s : string) :
  0 <= x <= 9 ->
  String.eqb (String (ascii_of_N (Z.to_N (48 + x))) s) EmptyString
  || py_in (String (ascii_of_N (Z.to_N (48 + x))) s) nat_strings = false.
Proof.
  intros Hx.
  assert (x = 0 \/ x = 1 \/ x = 2 \/ x = 3 \/ x = 4 \/ x = 5 \/ x = 6
          \/ x = 7 \/ x = 8 \/ x = 9) as Hc by lia.
  repeat (destruct Hc as [->|Hc]; [reflexivity|]). by subst x.
Qed.

(** The fields of a date written by [date_isoformat] are read back. *)
Lemma parse_iso_fields_isoformat (dt : date) :
  valid_date dt = true -> 0 <= year dt < 10000 ->
  parse_iso_fields (date_isoformat dt) = Some (dt, 0, 0, 0).
Proof.
  intros Hv Hy.
  assert (0 <= month dt < 100 /\ 0 <= day dt < 100) as [Hm Hd].
  { pose proof (valid_date_day_of_year dt Hv).
    unfold valid_date in Hv.
    apply andb_true_iff in Hv as [Hv Hd4].
    apply andb_true_iff in Hv as [Hv Hd1].
    apply andb_true_iff in Hv as [Hm1 Hm12].
    apply Z.leb_le in Hm1, Hm12, Hd1, Hd4.
    assert (nth (Z.to_nat (month dt - 1))
              (days_per_month_table (is_leapyear (year dt))) 0 <= 31).
    { assert (month dt = 1 \/ month dt = 2 \/ month dt = 3 \/ month dt = 4
              \/ month dt = 5 \/ month dt = 6 \/ month dt = 7 \/ month dt = 8
              \/ month dt = 9 \/ month dt = 10 \/ month dt = 11
              \/ month dt = 12) as Hc by lia.
      destruct (is_leapyear (year dt));
        repeat (destruct Hc as [->|Hc]; [simpl; lia|]); rewrite Hc; simpl; lia. }
    lia. }
  unfold parse_iso_fields, date_isoformat.
  rewrite (take_digits_zpad_exact 4) by (simpl; lia).
  cbn [mbind option_bind]. rewrite append_cons, append_nil_l.
  cbn [expect Ascii.eqb Bool.eqb mbind option_bind].
  rewrite (take_digits_zpad_exact 2) by (simpl; lia).
  cbn [mbind option_bind]. rewrite append_cons, append_nil_l.
  cbn [expect Ascii.eqb Bool.eqb mbind option_bind].
  rewrite <- (append_nil_r (zpad 2 (day dt))).
  rewrite (take_digits_zpad_exact 2) by (simpl; lia).
  cbn [mbind option_bind].
  destruct dt as [y m d]. cbn [year month day] in *. by rewrite Hv.
Qed.

Lemma length_append (s r : string) :
  String.length (s +:+ r) = (String.length s + String.length r)%nat.
Proof. induction s as [|c s IH]; [done|]. rewrite append_cons. simpl. by rewrite IH. Qed.

Lemma length_zpad (w : nat) (n : Z) : String.length (zpad w n) = w.
Proof.
  revert n. induction w as [|w IH]; intros n; [done|].
  simpl. rewrite length_append, IH. simpl. lia.
Qed.

Lemma length_date_isoformat (dt : date) :
  String.length (date_isoformat dt) = 10%nat.
Proof.
  unfold date_isoformat. by rewrite !length_append, !length_zpad.
Qed.

Lemma ts_date_year_range (ns : Z) :
  TS_MIN <= ns <= TS_MAX -> 1677 <= year (ts_date ns) <= 2262.
Proof.
  intros Hns. unfold ts_date, set_datetimestruct_days.
  destruct (days_to_yearsdays (ns / NS_PER_DAY)) as [y doy] eqn:Hyd.
  pose proof (days_to_yearsdays_range _ _ _ Hyd) as Hrange.
  pose proof (days_to_yearsdays_sound _ _ _ Hyd) as Hsound.
  assert (-106752 <= ns / NS_PER_DAY <= 106751) as Hdays.
  { unfold TS_MIN, TS_MAX, NS_PER_DAY, NS_PER_SECOND in *.
    Z.to_euclidean_division_equations. lia. }
  assert (1677 <= y <= 2262).
  { destruct (is_leapyear y); Z.to_euclidean_division_equations; lia. }
  by destruct (find_month _ _ _) as [[m dd]|].
Qed.

(** X14. Dates and day counts correspond one to one: the date of a day
    count is a valid calendar date whose day count is the one started
    from, and a valid calendar date is the date of its day count. *)
Theorem calendar_round_trip :
  (forall days,
     valid_date (set_datetimestruct_days days) = true
     /\ get_datetimestruct_days (set_datetimestruct_days days) = days)
  /\ (forall dt,
        valid_date dt = true ->
        set_datetimestruct_days (get_datetimestruct_days dt) = dt).
Proof.
  split; [apply set_datetimestruct_days_sound|apply get_datetimestruct_days_inv].
Qed.

Lemma calendar_round_trip_witness :
  set_datetimestruct_days (get_datetimestruct_days (mkDate 2024 2 29))
  = mkDate 2024 2 29.
Proof. apply calendar_round_trip. reflexivity. Defined.

(** X15. The weekday the [.dt.day_name()] model gives is the one obtained
    by counting days from 1970-01-01, a Thursday; it repeats every seven
    days. *)
Theorem weekday_follows_day_count (ns : Z) :
  ts_day_name ns
  = nth (Z.to_nat ((ns / NS_PER_DAY + 3) mod 7)) DAYS_FULL EmptyString
  /\ ts_day_name (ns + 7 * NS_PER_DAY) = ts_day_name ns.
Proof.
  assert (forall t,
            ts_day_name t
            = nth (Z.to_nat ((t / NS_PER_DAY + 3) mod 7)) DAYS_FULL EmptyString)
    as Hname.
  { intros t. unfold ts_day_name, ts_date. cbv zeta.
    destruct (set_datetimestruct_days_sound (t / NS_PER_DAY)) as [Hv Hget].
    by rewrite (dayofweek_days _ Hv), Hget. }
  split; [apply Hname|].
  rewrite !Hname. do 2 f_equal.
  unfold NS_PER_DAY, NS_PER_SECOND. Z.to_euclidean_division_equations. lia.
Qed.

(** X16. The derived date and hour are consistent with the timestamp: the
    date is a valid calendar date and the timestamp lies in the hour that
    starts at that date's midnight plus the derived hour. *)
Theorem date_and_hour_locate_timestamp (ns : Z) :
  let start := get_datetimestruct_days (ts_date ns) * NS_PER_DAY
               + ts_hour ns * (3600 * NS_PER_SECOND) in
  valid_date (ts_date ns) = true
  /\ start <= ns < start + 3600 * NS_PER_SECOND.
Proof.
  cbv zeta. unfold ts_date.
  destruct (set_datetimestruct_days_sound (ns / NS_PER_DAY)) as [Hv ->].
  split; [exact Hv|].
  unfold ts_hour, NS_PER_DAY, NS_PER_SECOND.
  Z.to_euclidean_division_equations. lia.
Qed.

(** X17. The text [strftime('%Y-%m-%d')] writes for a timestamp (whose day
    starts within the timestamp bounds) has ten characters, parses under
    the ISO-8601 model to midnight of the same day, and is written again
    for that midnight: a date in standard form is a fixed point of the
    convert-and-back step of lines 91-102. *)
Theorem origindate_standard_form_stable (ns : Z) :
  TS_MIN <= ns / NS_PER_DAY * NS_PER_DAY -> ns <= TS_MAX ->
  exists s,
    dt_strftime_ymd (Timestamp ns) = Str s
    /\ String.length s = 10%nat
    /\ iso8601_text s = Ok (Some (ns / NS_PER_DAY * NS_PER_DAY))
    /\ dt_strftime_ymd (Timestamp (ns / NS_PER_DAY * NS_PER_DAY)) = Str s.
Proof.
  intros Hmin Hmax.
  assert (ns / NS_PER_DAY * NS_PER_DAY <= ns) as Hfloor.
  { unfold NS_PER_DAY, NS_PER_SECOND. Z.to_euclidean_division_equations. lia. }
  exists (date_isoformat (ts_date ns)).
  split; [reflexivity|]. split; [apply length_date_isoformat|].
  assert (ts_date (ns / NS_PER_DAY * NS_PER_DAY) = ts_date ns) as Hsame.
  { unfold ts_date. f_equal. apply Z.div_mul.
    unfold NS_PER_DAY, NS_PER_SECOND. lia. }
  split; [|simpl; by rewrite Hsame].
  unfold iso8601_text.
  pose proof (ts_date_year_range ns ltac:(lia)) as Hyear.
  destruct (set_datetimestruct_days_sound (ns / NS_PER_DAY)) as [Hv Hget].
  fold (ts_date ns) in Hv, Hget.
  assert (String.eqb (date_isoformat (ts_date ns)) EmptyString
          || py_in (date_isoformat (ts_date ns)) nat_strings = false) as ->.
  { unfold date_isoformat.
    destruct (zpad_first_digit 3 (year (ts_date ns))
                ("-" +:+ zpad 2 (month (ts_date ns)) +:+ "-"
                 +:+ zpad 2 (day (ts_date ns)))) as (x & s & Hx & ->).
    by apply digit_text_not_nat. }
  rewrite parse_iso_fields_isoformat by (done || lia).
  rewrite Hget.
  replace ((ns / NS_PER_DAY * 86400 + 0 - 0) * NS_PER_SECOND + 0)
    with (ns / NS_PER_DAY * NS_PER_DAY) by (unfold NS_PER_DAY; lia).
  destruct (Z.leb_spec TS_MIN (ns / NS_PER_DAY * NS_PER_DAY)); [|lia].
  destruct (Z.leb_spec (ns / NS_PER_DAY * NS_PER_DAY) TS_MAX); [|lia].
  reflexivity.
Qed.

Lemma origindate_standard_form_stable_witness :
  exists s,
    dt_strftime_ymd (Timestamp 1733409000000000000) = Str s
    /\ String.length s = 10%nat
    /\ iso8601_text s = Ok (Some (1733409000000000000 / NS_PER_DAY * NS_PER_DAY))
    /\ dt_strftime_ymd (Timestamp (1733409000000000000 / NS_PER_DAY * NS_PER_DAY))
       = Str s.
Proof.
  apply origindate_standard_form_stable; vm_compute; discriminate.
Defined.

Lemma normalize_airport_text (c : cell) (s : string) :
  cell_is_ascii c = true ->
  normalize_airport c = Str s ->
  is_ascii s = true /\ has_edge_whitespace s = false /\ no_lowercase s = true.
Proof.
  destruct c as [|s0| | |]; try discriminate.
  unfold normalize_airport. simpl. intros Hascii [= <-]. split; [|split].
  - by apply codes_normalize.
  - rewrite upper_no_edge_whitespace. apply strip_no_edge_whitespace.
  - apply no_lowercase_upper.
Qed.

Lemma dt_strftime_ymd_shape (c : cell) :
  dt_strftime_ymd c = NA
  \/ exists s, dt_strftime_ymd c = Str s /\ String.length s = 10%nat.
Proof.
  destruct c; try by left.
  right. eexists. split; [reflexivity|apply length_date_isoformat].
Qed.

(** X7. When the airports of the loaded table are ASCII text, every
    departure and arrival airport that is text in the table
    [clean_airports_and_dates] saves is ASCII text with no whitespace at
    either end and no lower-case letter; every origin date is missing or a
    text of ten characters. *)
Theorem saved_table_is_clean (df : list row) (ts : list (option Z)) (r : row) :
  (forall r0, r0 ∈ df ->
     cell_is_ascii (col "departureairport" r0) = true
     /\ cell_is_ascii (col "arrivalairport" r0) = true) ->
  r ∈ drop_duplicates
        (assign "origindate"
           (fun r => dt_strftime_ymd (col "origindate" r))
           (set_column "origindate" (ts_cell <$> ts)
              (airports_normalized df))) ->
  (forall s, col "departureairport" r = Str s ->
             is_ascii s = true
             /\ has_edge_whitespace s = false /\ no_lowercase s = true)
  /\ (forall s, col "arrivalairport" r = Str s ->
                is_ascii s = true
                /\ has_edge_whitespace s = false /\ no_lowercase s = true)
  /\ (col "origindate" r = NA
      \/ exists s, col "origindate" r = Str s /\ String.length s = 10%nat).
Proof.
  intros Hascii.
  rewrite drop_duplicates_first_occurrences, elem_of_first_occurrences.
  intros Hr.
  apply elem_of_assign in Hr as (r1 & -> & Hr).
  apply list_elem_of_lookup in Hr as [i Hr].
  unfold set_column in Hr.
  apply lookup_zip_with_Some in Hr as (r0 & v & -> & Hr & _).
  apply list_elem_of_lookup_2 in Hr.
  unfold airports_normalized in Hr.
  apply elem_of_assign in Hr as (ra & -> & Hr).
  apply elem_of_assign in Hr as (rb & -> & Hrb).
  destruct (Hascii rb Hrb) as [Hdep Harr].
  col_simpl.
  split; [intros s; by apply normalize_airport_text|].
  split; [intros s; by apply normalize_airport_text|].
  apply dt_strftime_ymd_shape.
Qed.

Lemma sample_good_dates_saved :
  drop_duplicates
    (assign "origindate"
       (fun r => dt_strftime_ymd (col "origindate" r))
       (set_column "origindate"
          (ts_cell <$> [Some 1733356800000000000; Some 1733356800000000000])
          (airports_normalized sample_good_dates)))
  = [sample_good_saved].
Proof. vm_decide_eq. Qed.

Lemma saved_table_is_clean_witness :
  is_ascii "ALG" = true
  /\ has_edge_whitespace "ALG" = false /\ no_lowercase "ALG" = true.
Proof.
  refine (proj1 (saved_table_is_clean sample_good_dates
                   [Some 1733356800000000000; Some 1733356800000000000]
                   sample_good_saved _ _) "ALG" _).
  - intros r0 Hr0. unfold sample_good_dates in Hr0.
    apply elem_of_cons in Hr0 as [->|Hr0]; [by split|].
    apply list_elem_of_singleton in Hr0 as ->. by split.
  - rewrite sample_good_dates_saved. left.
  - reflexivity.
Defined.

Lemma cleaning_touches_six_columns_witness :
  sample_cleaned_absent !! "airline" = Some (Str "AH").
Proof.
  destruct (cleaning_touches_six_columns
              (to_datetime_iso8601_text unparseable_cell) unparseable_cell
              sample_flights) as (df1 & Hstep & Hall).
  destruct sample_flights_cleaned as [Hs1 Hs3].
  rewrite Hs1 in Hstep. injection Hstep as <-. rewrite Hs3 in Hall.
  destruct (Hall 1%nat sample_cleaned_absent eq_refl) as (r & Hr & Hsame & _).
  injection Hr as <-.
  rewrite Hsame; [reflexivity|].
  rewrite !not_elem_of_cons.
  repeat split; [discriminate..|apply not_elem_of_nil].
Defined.

Lemma verify_raises_on_missing_weekday_witness :
  (verify_cleaned_data unparseable EmptyString sample_cleaned_world).1
  = Raise (TypeError "'<' not supported between instances of 'float' and 'str'").
Proof.
  rewrite (verify_raises_on_missing_weekday unparseable EmptyString
             sample_cleaned_world
             [sample_cleaned_present; sample_cleaned_absent]
             sample_cleaned_absent sample_cleaned_present "Thursday");
    try reflexivity; by repeat constructor.
Defined.

Lemma has_column_replicate (name : string) (n : nat) (r : row) :
  is_Some (r !! name) -> has_column name (replicate n r) = true.
Proof.
  intros Hr. apply forallb_elem_of. intros r' [-> _]%elem_of_replicate.
  by apply bool_decide_eq_true.
Qed.

Lemma sample_full_run_ok :
  (clean_dataset_script unparseable
     (to_datetime_iso8601_text unparseable_cell) unparseable_cell
     EmptyString sample_full_world).1 = Ok tt.
Proof.
  destruct (clean_dataset_script_saves unparseable
              (to_datetime_iso8601_text unparseable_cell) unparseable_cell
              EmptyString sample_full_world sample_full_table)
    as (out & -> & _); [reflexivity| | | |reflexivity].
  - apply has_column_replicate. by eexists.
  - apply has_column_replicate. by eexists.
  - unfold sample_full_table. rewrite length_replicate. by rewrite Z2Nat.id.
Qed.

Lemma verify_after_cleaning_witness :
  let w' := (clean_dataset_script unparseable
               (to_datetime_iso8601_text unparseable_cell) unparseable_cell
               EmptyString sample_full_world).2 in
  exists out,
    fs w' !! "/data/processed/clean_operationtime_departure.csv"
    = Some (CsvFile out)
    /\ verify_cleaned_data unparseable EmptyString w'
       = (if sortable (unique "weekday" out) && sortable (unique "month" out)
             && sortable (unique "departureorarrival" out)
          then Ok 0
          else Raise (TypeError "'<' not supported between instances of 'float' and 'str'"),
          w').
Proof.
  exact (verify_after_cleaning unparseable
           (to_datetime_iso8601_text unparseable_cell) unparseable_cell
           EmptyString sample_full_world sample_full_run_ok).
Defined.
